(** * Post-build validation of a vcpkg package (toolsrc/src/post_build_lint.cpp)

    A shallow embedding of the lint checks run after a port has been built,
    and the properties of the checks and of [perform_all_checks]. *)

From Stdlib Require Import ZArith List Bool Ascii String Lia.
From Stdlib Require Import DecimalString DecimalPos.
Import ListNotations.

Open Scope string_scope.
Open Scope list_scope.

(** ** Strings *)

(** [std::string::find(needle) != npos]: [starts_with] tries one position,
    [find] walks over the positions from the left. *)
Fixpoint starts_with (needle s : string) : bool :=
  match needle with
  | EmptyString => true
  | String a needle' =>
      match s with
      | EmptyString => false
      | String c s' => Ascii.eqb c a && starts_with needle' s'
      end
  end.

Fixpoint find_from (pos : nat) (needle s : string) : option nat :=
  if starts_with needle s then Some pos
  else match s with
       | EmptyString => None
       | String _ s' => find_from (S pos) needle s'
       end.

(** [None] stands for [std::string::npos]. *)
Definition find (s needle : string) : option nat := find_from 0 needle s.

Definition is_npos (r : option nat) : bool :=
  match r with None => true | Some _ => false end.

(** The positions at which [needle] occurs in [s]; used to state where a
    marker occurs in a text. *)
Fixpoint occurrences_from (pos : nat) (needle s : string) : list nat :=
  (if starts_with needle s then [pos] else []) ++
  match s with
  | EmptyString => []
  | String _ s' => occurrences_from (S pos) needle s'
  end.

Definition occurrences (needle s : string) : list nat :=
  occurrences_from 0 needle s.

(** [std::to_string] on an integer: its decimal digits. *)
Definition to_string (n : Z) : string := NilZero.string_of_int (Z.to_int n).

(** The number a string of decimal digits denotes. *)
Definition digit_value (c : ascii) : option Z :=
  let n := Z.of_nat (nat_of_ascii c) in
  if ((48 <=? n) && (n <=? 57))%Z then Some (n - 48)%Z else None.

Fixpoint decimal_value_acc (acc : Z) (s : string) : option Z :=
  match s with
  | EmptyString => Some acc
  | String c s' =>
      match digit_value c with
      | Some d => decimal_value_acc (10 * acc + d)%Z s'
      | None => None
      end
  end.

Definition decimal_value (s : string) : option Z :=
  match s with
  | EmptyString => None
  | _ => decimal_value_acc 0 s
  end.

(** ** The regular expressions of the CRT check

    The four [std::regex] objects of [check_crt_linkage_of_libs] are
    sequences of literal characters, two of them closed by the negated class
    [[^D]], which consumes one character other than [D]. *)
Inductive atom : Type :=
  | Chr (c : ascii)
  | NotChr (c : ascii).

Definition regex : Type := list atom.

Definition atom_matches (a : atom) (c : ascii) : bool :=
  match a with
  | Chr x => Ascii.eqb c x
  | NotChr x => negb (Ascii.eqb c x)
  end.

Fixpoint regex_match_here (r : regex) (s : string) : bool :=
  match r with
  | [] => true
  | a :: r' =>
      match s with
      | EmptyString => false
      | String c s' => atom_matches a c && regex_match_here r' s'
      end
  end.

(** [std::regex_search(first, last, re)]: a match starting anywhere. *)
Fixpoint regex_search (s : string) (r : regex) : bool :=
  regex_match_here r s ||
  match s with
  | EmptyString => false
  | String _ s' => regex_search s' r
  end.

Definition literal (s : string) : regex := map Chr (list_ascii_of_string s).

Definition DEBUG_STATIC_CRT : regex := literal "/DEFAULTLIB:LIBCMTD".
Definition DEBUG_DYNAMIC_CRT : regex := literal "/DEFAULTLIB:MSVCRTD".
Definition RELEASE_STATIC_CRT : regex :=
  literal "/DEFAULTLIB:LIBCMT" ++ [NotChr "D"%char].
Definition RELEASE_DYNAMIC_CRT : regex :=
  literal "/DEFAULTLIB:MSVCRT" ++ [NotChr "D"%char].

(** ** Build types *)

Inductive BuildType : Type :=
  | DEBUG_STATIC
  | DEBUG_DYNAMIC
  | RELEASE_STATIC
  | RELEASE_DYNAMIC.

Definition BuildType_eqb (a b : BuildType) : bool :=
  match a, b with
  | DEBUG_STATIC, DEBUG_STATIC
  | DEBUG_DYNAMIC, DEBUG_DYNAMIC
  | RELEASE_STATIC, RELEASE_STATIC
  | RELEASE_DYNAMIC, RELEASE_DYNAMIC => true
  | _, _ => false
  end.

(** ** The body of the loop of [check_crt_linkage_of_libs]

    [crt_flags] are the four [found_*] booleans of one library, in the order
    of their declaration; [crts_found_count] is their sum. *)
Record crt_flags : Type := mk_crt_flags {
  found_debug_static_crt : bool;
  found_debug_dynamic_crt : bool;
  found_release_static_crt : bool;
  found_release_dynamic_crt : bool
}.

Definition crt_flags_of (output : string) : crt_flags :=
  {| found_debug_static_crt := regex_search output DEBUG_STATIC_CRT;
     found_debug_dynamic_crt := regex_search output DEBUG_DYNAMIC_CRT;
     found_release_static_crt := regex_search output RELEASE_STATIC_CRT;
     found_release_dynamic_crt := regex_search output RELEASE_DYNAMIC_CRT |}.

Definition crts_found_count (f : crt_flags) : nat :=
  Nat.b2n (found_debug_static_crt f) + Nat.b2n (found_debug_dynamic_crt f)
  + Nat.b2n (found_release_static_crt f) + Nat.b2n (found_release_dynamic_crt f).

(** The vector a library is pushed to. *)
Inductive crt_bucket : Type :=
  | libs_with_no_crts
  | libs_with_multiple_crts
  | libs_with_crt (b : BuildType).

Definition bucket_of_flags (f : crt_flags) : crt_bucket :=
  if Nat.eqb (crts_found_count f) 0 then libs_with_no_crts
  else if Nat.ltb 1 (crts_found_count f) then libs_with_multiple_crts
  else if found_debug_static_crt f then libs_with_crt DEBUG_STATIC
  else if found_debug_dynamic_crt f then libs_with_crt DEBUG_DYNAMIC
  else if found_release_static_crt f then libs_with_crt RELEASE_STATIC
  else libs_with_crt RELEASE_DYNAMIC.

Definition crt_bucket_of (output : string) : crt_bucket :=
  bucket_of_flags (crt_flags_of output).


(** ** Paths and the installation tree

    An [fs::path] is the list of its components; [p / c] appends one. *)
Definition path : Type := list string.

Definition path_append (p : path) (c : string) : path := p ++ [c].
Notation "p // c" := (path_append p c) (at level 40, left associativity).

Fixpoint join (sep : string) (p : path) : string :=
  match p with
  | [] => ""
  | [c] => c
  | c :: p' => c ++ sep ++ join sep p'
  end.

Definition generic_string (p : path) : string := join "/" p.
Definition native (p : path) : string := join "\" p.

Fixpoint filename (p : path) : string :=
  match p with
  | [] => ""
  | [c] => c
  | _ :: p' => filename p'
  end.

(** The part of a file name from its last period on, when it has one. *)
Fixpoint last_period_suffix (s : string) : option string :=
  match s with
  | EmptyString => None
  | String c s' =>
      match last_period_suffix s' with
      | Some e => Some e
      | None => if Ascii.eqb c "."%char then Some s else None
      end
  end.

(** [path::extension()]: empty for the names [.] and [..] and for a name
    without a period. *)
Definition extension (p : path) : string :=
  let f := filename p in
  if String.eqb f "." || String.eqb f ".." then ""
  else match last_period_suffix f with
       | Some e => e
       | None => ""
       end.

(** A file with its size, or a directory with its named entries in the order
    in which a directory iterator lists them. *)
Inductive node : Type :=
  | File (size : N)
  | Dir (entries : list (string * node)).

Fixpoint find_entry (name : string) (es : list (string * node)) : option node :=
  match es with
  | [] => None
  | (n, c) :: es' => if String.eqb n name then Some c else find_entry name es'
  end.

Fixpoint lookup (n : node) (p : path) : option node :=
  match p with
  | [] => Some n
  | c :: p' =>
      match n with
      | File _ => None
      | Dir es =>
          match find_entry c es with
          | Some n' => lookup n' p'
          | None => None
          end
      end
  end.

Definition fs_exists (root : node) (p : path) : bool :=
  match lookup root p with Some _ => true | None => false end.

Definition fs_is_directory (root : node) (p : path) : bool :=
  match lookup root p with Some (Dir _) => true | _ => false end.

(** [fs::is_empty]: a directory without entries or a file of size zero.  The
    source only calls it on paths that exist. *)
Definition fs_is_empty (root : node) (p : path) : bool :=
  match lookup root p with
  | Some (Dir []) => true
  | Some (File 0%N) => true
  | _ => false
  end.

(** The paths below a node, every directory entry followed by what is below
    it, as [fs::recursive_directory_iterator] enumerates them. *)
Fixpoint walk (pre : path) (n : node) : list path :=
  match n with
  | File _ => []
  | Dir es =>
      (fix walk_entries (es : list (string * node)) : list path :=
         match es with
         | [] => []
         | (name, c) :: es' =>
             (pre // name) :: walk (pre // name) c ++ walk_entries es'
         end) es
  end.

(** The source iterates over directories that need not exist ([debug/include],
    [lib/cmake], ...) and relies on the iteration being empty there. *)
Definition recursive_directory_iterator (root : node) (dir : path) : list path :=
  match lookup root dir with
  | Some n => walk dir n
  | None => []
  end.

(** [it.depth()] of an entry of the iteration over [dir]. *)
Definition depth (dir p : path) : nat := List.length p - List.length dir - 1.

(** No directory lists a name twice. *)
Fixpoint unique_names (n : node) : bool :=
  match n with
  | File _ => true
  | Dir es =>
      (fix go (es : list (string * node)) : bool :=
         match es with
         | [] => true
         | (name, c) :: es' =>
             negb (existsb (fun e => String.eqb (fst e) name) es')
             && unique_names c && go es'
         end) es
  end.

(** ** Console output, results and fatal exits *)

Inductive color : Type := plain | warning | error.

Definition console : Type := list (color * string).

(** A computation returns a value, or the process ends: by [exit(status)], or
    by a failed [Checks::check_exit] with its message.  Either way what was
    printed so far is kept. *)
Inductive result (A : Type) : Type :=
  | Returned (a : A) (out : console)
  | Exited (status : Z) (out : console)
  | Fatal (msg : string) (out : console).
Arguments Returned {A} a out.
Arguments Exited {A} status out.
Arguments Fatal {A} msg out.

Definition ret {A : Type} (a : A) : result A := Returned a [].

Definition bind {A B : Type} (m : result A) (k : A -> result B) : result B :=
  match m with
  | Returned a o =>
      match k a with
      | Returned b o' => Returned b (o ++ o')
      | Exited st o' => Exited st (o ++ o')
      | Fatal msg o' => Fatal msg (o ++ o')
      end
  | Exited st o => Exited st o
  | Fatal msg o => Fatal msg o
  end.

Notation "x <- m ;; k" := (bind m (fun x => k))
  (at level 61, m at next level, right associativity).
Notation "m ;; k" := (bind m (fun _ => k))
  (at level 61, right associativity).

Definition println (c : color) (text : string) : result unit :=
  Returned tt [(c, text)].

Definition check_exit (expression : bool) (msg : string) : result unit :=
  if expression then ret tt else Fatal msg [].

Definition EXIT_FAILURE : Z := 1.

Definition exit {A : Type} (status : Z) : result A := Exited status [].

(** A range-based [for] whose body updates the vectors [s] and may exit. *)
Fixpoint for_each {A S : Type} (body : A -> S -> result S) (l : list A) (s : S)
  : result S :=
  match l with
  | [] => ret s
  | x :: l' => s' <- body x s ;; for_each body l' s'
  end.

Definition nl : string := String (ascii_of_nat 10) "".
Definition dquote : string := String (ascii_of_nat 34) "".

Inductive lint_status : Type := SUCCESS | ERROR_DETECTED.

Definition lint_status_value (s : lint_status) : Z :=
  match s with SUCCESS => 0 | ERROR_DETECTED => 1 end.

Definition DUMPBIN_EXE : string := "%VS140COMNTOOLS%\..\..\VC\bin\dumpbin.exe".

(** ** What the checks read from outside *)

Record triplet : Type := {
  architecture : string;
  system : string
}.

Record package_spec : Type := {
  name : string;
  dir : string;
  target_triplet : triplet
}.

Record BuildInfo : Type := {
  library_linkage : string;
  crt_linkage : string
}.

Record vcpkg_paths : Type := {
  packages : path;
  buildtrees : path;
  ports : path;
  build_info_file_path : package_spec -> path
}.

Record exit_code_and_output : Type := {
  exit_code : Z;
  output : string
}.

(** The installation tree and the external collaborators: the command runner
    (dumpbin), the COFF reader with the machine types it reports, and the
    reader of the BUILD_INFO file. *)
Record world : Type := {
  fs : node;
  cmd_execute_and_capture_output : string -> exit_code_and_output;
  read_lib : path -> list Z;
  read_dll : path -> Z;
  read_build_info : path -> BuildInfo
}.

Inductive LinkageType : Type := DYNAMIC | STATIC | UNKNOWN.

(** ** The checks *)

Definition is_empty_vec {A : Type} (v : list A) : bool :=
  match v with [] => true | _ => false end.

Definition print_vector_of_files (paths : list path) : result unit :=
  println plain "" ;;
  for_each (fun p (_ : unit) => println plain ("    " ++ generic_string p))
           paths tt ;;
  println plain "".

(** The three-argument overloads append to [output]; the two-argument ones
    start from an empty vector. *)
Definition recursive_find_matching_paths_in_dir_into
  (root : node) (dir : path) (predicate : path -> bool) (output : list path)
  : list path :=
  output ++ filter predicate (recursive_directory_iterator root dir).

Definition recursive_find_matching_paths_in_dir
  (root : node) (dir : path) (predicate : path -> bool) : list path :=
  recursive_find_matching_paths_in_dir_into root dir predicate [].

Definition recursive_find_files_with_extension_in_dir_into
  (root : node) (dir : path) (ext : string) (output : list path) : list path :=
  recursive_find_matching_paths_in_dir_into root dir
    (fun current =>
       negb (fs_is_directory root current) && String.eqb (extension current) ext)
    output.

Definition recursive_find_files_with_extension_in_dir
  (root : node) (dir : path) (ext : string) : list path :=
  recursive_find_files_with_extension_in_dir_into root dir ext [].

Definition check_for_files_in_include_directory
  (w : world) (spec : package_spec) (paths : vcpkg_paths) : result lint_status :=
  let include_dir := packages paths // dir spec // "include" in
  if negb (fs_exists (fs w) include_dir) || fs_is_empty (fs w) include_dir then
    println warning "The folder /include is empty. This indicates the library was not correctly installed." ;;
    ret ERROR_DETECTED
  else ret SUCCESS.

Definition check_for_files_in_debug_include_directory
  (w : world) (spec : package_spec) (paths : vcpkg_paths) : result lint_status :=
  let debug_include_dir := packages paths // dir spec // "debug" // "include" in
  let files_found :=
    recursive_find_matching_paths_in_dir_into (fs w) debug_include_dir
      (fun current =>
         negb (fs_is_directory (fs w) current)
         && negb (String.eqb (extension current) ".ifc"))
      [] in
  if negb (is_empty_vec files_found) then
    println warning
      ("Include files should not be duplicated into the /debug/include directory. If this cannot be disabled in the project cmake, use"
       ++ nl ++ "    file(REMOVE_RECURSE ${CURRENT_PACKAGES_DIR}/debug/include)") ;;
    ret ERROR_DETECTED
  else ret SUCCESS.

Definition check_for_files_in_debug_share_directory
  (w : world) (spec : package_spec) (paths : vcpkg_paths) : result lint_status :=
  let debug_share := packages paths // dir spec // "debug" // "share" in
  if fs_exists (fs w) debug_share && negb (fs_is_empty (fs w) debug_share) then
    println warning "No files should be present in /debug/share" ;;
    ret ERROR_DETECTED
  else ret SUCCESS.

Definition check_folder_lib_cmake
  (w : world) (spec : package_spec) (paths : vcpkg_paths) : result lint_status :=
  let lib_cmake := packages paths // dir spec // "lib" // "cmake" in
  if fs_exists (fs w) lib_cmake then
    println warning "The /lib/cmake folder should be moved to just /cmake" ;;
    ret ERROR_DETECTED
  else ret SUCCESS.

Definition check_for_misplaced_cmake_files
  (w : world) (spec : package_spec) (paths : vcpkg_paths) : result lint_status :=
  let current_packages_dir := packages paths // dir spec in
  let misplaced_cmake_files := [] in
  let misplaced_cmake_files :=
    recursive_find_files_with_extension_in_dir_into (fs w)
      (current_packages_dir // "cmake") ".cmake" misplaced_cmake_files in
  let misplaced_cmake_files :=
    recursive_find_files_with_extension_in_dir_into (fs w)
      (current_packages_dir // "debug" // "cmake") ".cmake" misplaced_cmake_files in
  let misplaced_cmake_files :=
    recursive_find_files_with_extension_in_dir_into (fs w)
      (current_packages_dir // "lib" // "cmake") ".cmake" misplaced_cmake_files in
  let misplaced_cmake_files :=
    recursive_find_files_with_extension_in_dir_into (fs w)
      (current_packages_dir // "debug" // "lib" // "cmake") ".cmake"
      misplaced_cmake_files in
  if negb (is_empty_vec misplaced_cmake_files) then
    println warning
      ("The following cmake files were found outside /share/" ++ name spec
       ++ ". Please place cmake files in /share/" ++ name spec ++ ".") ;;
    print_vector_of_files misplaced_cmake_files ;;
    ret ERROR_DETECTED
  else ret SUCCESS.

Definition check_folder_debug_lib_cmake
  (w : world) (spec : package_spec) (paths : vcpkg_paths) : result lint_status :=
  let lib_cmake_debug := packages paths // dir spec // "debug" // "lib" // "cmake" in
  if fs_exists (fs w) lib_cmake_debug then
    println warning "The /debug/lib/cmake folder should be moved to just /debug/cmake" ;;
    ret ERROR_DETECTED
  else ret SUCCESS.

Definition check_for_dlls_in_lib_dirs
  (w : world) (spec : package_spec) (paths : vcpkg_paths) : result lint_status :=
  let dlls := [] in
  let dlls :=
    recursive_find_files_with_extension_in_dir_into (fs w)
      (packages paths // dir spec // "lib") ".dll" dlls in
  let dlls :=
    recursive_find_files_with_extension_in_dir_into (fs w)
      (packages paths // dir spec // "debug" // "lib") ".dll" dlls in
  if negb (is_empty_vec dlls) then
    println warning
      (nl ++ "The following dlls were found in /lib and /debug/lib. Please move them to /bin or /debug/bin, respectively.") ;;
    print_vector_of_files dlls ;;
    ret ERROR_DETECTED
  else ret SUCCESS.

(** The loop over the build tree pushes the entries of depth at most one that
    carry one of the three license names.  [relative_path] is [found_file]
    with the text of [current_buildtrees_dir] and one separator erased from
    its front, which leaves the components after that directory. *)
Definition check_for_copyright_file
  (w : world) (spec : package_spec) (paths : vcpkg_paths) : result lint_status :=
  let copyright_file :=
    packages paths // dir spec // "share" // name spec // "copyright" in
  if fs_exists (fs w) copyright_file then ret SUCCESS
  else
    let current_buildtrees_dir := buildtrees paths // name spec in
    let current_buildtrees_dir_src := current_buildtrees_dir // "src" in
    let potential_copyright_files :=
      filter
        (fun it =>
           if Nat.ltb 1 (depth current_buildtrees_dir_src it) then false
           else
             let filename := filename it in
             String.eqb filename "LICENSE" || String.eqb filename "LICENSE.txt"
             || String.eqb filename "COPYING")
        (recursive_directory_iterator (fs w) current_buildtrees_dir_src) in
    println warning
      ("The software license must be available at ${CURRENT_PACKAGES_DIR}/share/"
       ++ name spec ++ "/copyright .") ;;
    match potential_copyright_files with
    | [found_file] =>
        let relative_path := skipn (List.length current_buildtrees_dir) found_file in
        println plain
          (nl ++ "    file(COPY ${CURRENT_BUILDTREES_DIR}/"
           ++ generic_string relative_path
           ++ " DESTINATION ${CURRENT_PACKAGES_DIR}/share/" ++ name spec ++ ")" ++ nl
           ++ "    file(RENAME ${CURRENT_PACKAGES_DIR}/share/" ++ name spec ++ "/"
           ++ filename found_file
           ++ " ${CURRENT_PACKAGES_DIR}/share/" ++ name spec ++ "/copyright)") ;;
        ret ERROR_DETECTED
    | _ =>
        (if Nat.ltb 1 (List.length potential_copyright_files) then
           println warning "The following files are potential copyright files:" ;;
           print_vector_of_files potential_copyright_files
         else ret tt) ;;
        let current_packages_dir := packages paths // dir spec in
        println plain
          ("    " ++ generic_string current_packages_dir ++ "/share/" ++ name spec
           ++ "/copyright") ;;
        ret ERROR_DETECTED
    end.

Definition check_for_exes
  (w : world) (spec : package_spec) (paths : vcpkg_paths) : result lint_status :=
  let exes := [] in
  let exes :=
    recursive_find_files_with_extension_in_dir_into (fs w)
      (packages paths // dir spec // "bin") ".exe" exes in
  let exes :=
    recursive_find_files_with_extension_in_dir_into (fs w)
      (packages paths // dir spec // "debug" // "bin") ".exe" exes in
  if negb (is_empty_vec exes) then
    println warning "The following EXEs were found in /bin and /debug/bin. EXEs are not valid distribution targets." ;;
    print_vector_of_files exes ;;
    ret ERROR_DETECTED
  else ret SUCCESS.

(** The command line of one dumpbin run. *)
Definition dumpbin_cmd_line (mode : string) (file : path) : string :=
  dquote ++ DUMPBIN_EXE ++ dquote ++ " " ++ mode ++ " "
  ++ dquote ++ native file ++ dquote.

Definition running_command_failed (cmd_line : string) : string :=
  "Running command:" ++ nl ++ "   " ++ cmd_line ++ nl ++ " failed".

Definition check_exports_of_dlls (w : world) (dlls : list path)
  : result lint_status :=
  dlls_with_no_exports <-
    for_each
      (fun dll dlls_with_no_exports =>
         let cmd_line := dumpbin_cmd_line "/exports" dll in
         let ec_data := cmd_execute_and_capture_output w cmd_line in
         check_exit (Z.eqb (exit_code ec_data) 0) (running_command_failed cmd_line) ;;
         if is_npos (find (output ec_data) "ordinal hint RVA      name")
         then ret (dlls_with_no_exports ++ [dll])
         else ret dlls_with_no_exports)
      dlls [] ;;
  if negb (is_empty_vec dlls_with_no_exports) then
    println warning "The following DLLs have no exports:" ;;
    print_vector_of_files dlls_with_no_exports ;;
    println warning "DLLs without any exports are likely a bug in the build script." ;;
    ret ERROR_DETECTED
  else ret SUCCESS.

Definition check_uwp_bit_of_dlls
  (w : world) (expected_system_name : string) (dlls : list path)
  : result lint_status :=
  if negb (String.eqb expected_system_name "uwp") then ret SUCCESS
  else
    dlls_with_improper_uwp_bit <-
      for_each
        (fun dll dlls_with_improper_uwp_bit =>
           let cmd_line := dumpbin_cmd_line "/headers" dll in
           let ec_data := cmd_execute_and_capture_output w cmd_line in
           check_exit (Z.eqb (exit_code ec_data) 0) (running_command_failed cmd_line) ;;
           if is_npos (find (output ec_data) "App Container")
           then ret (dlls_with_improper_uwp_bit ++ [dll])
           else ret dlls_with_improper_uwp_bit)
        dlls [] ;;
    if negb (is_empty_vec dlls_with_improper_uwp_bit) then
      println warning "The following DLLs do not have the App Container bit set:" ;;
      print_vector_of_files dlls_with_improper_uwp_bit ;;
      println warning "This bit is required for Windows Store apps." ;;
      ret ERROR_DETECTED
    else ret SUCCESS.

Record file_and_arch : Type := {
  file : path;
  actual_arch : string
}.

Section MachineTypes.

(** The enumerators of [MachineType] (coff_file_reader.h) that the switch of
    [get_actual_architecture] names, as the 16-bit codes they stand for. *)
Variables AMD64 IA64 I386 ARM ARMNT : Z.

(** [linkage_type_value_of] and [BuildType::toString] of BuildInfo.h. *)
Variable linkage_type_value_of : string -> LinkageType.
Variable BuildType_toString : BuildType -> string.

Definition get_actual_architecture (machine_type : Z) : string :=
  if Z.eqb machine_type AMD64 || Z.eqb machine_type IA64 then "x64"
  else if Z.eqb machine_type I386 then "x86"
  else if Z.eqb machine_type ARM || Z.eqb machine_type ARMNT then "arm"
  else "Machine Type Code = " ++ to_string (machine_type mod 2 ^ 16).

Definition print_invalid_architecture_files
  (expected_architecture : string)
  (binaries_with_invalid_architecture : list file_and_arch) : result unit :=
  println warning "The following files were built for an incorrect architecture:" ;;
  println plain "" ;;
  for_each
    (fun b (_ : unit) =>
       println plain ("    " ++ generic_string (file b)) ;;
       println plain ("Expected " ++ expected_architecture ++ ", but was: "
                      ++ actual_arch b) ;;
       println plain "")
    binaries_with_invalid_architecture tt.

Definition check_dll_architecture
  (w : world) (expected_architecture : string) (files : list path)
  : result lint_status :=
  binaries_with_invalid_architecture <-
    for_each
      (fun file binaries_with_invalid_architecture =>
         check_exit (String.eqb (extension file) ".dll")
           ("The file extension was not .dll: " ++ generic_string file) ;;
         let info := read_dll w file in
         let actual_architecture := get_actual_architecture info in
         if negb (String.eqb expected_architecture actual_architecture)
         then ret (binaries_with_invalid_architecture
                   ++ [{| file := file; actual_arch := actual_architecture |}])
         else ret binaries_with_invalid_architecture)
      files [] ;;
  if negb (is_empty_vec binaries_with_invalid_architecture) then
    print_invalid_architecture_files expected_architecture
      binaries_with_invalid_architecture ;;
    ret ERROR_DETECTED
  else ret SUCCESS.

Definition check_lib_architecture
  (w : world) (expected_architecture : string) (files : list path)
  : result lint_status :=
  binaries_with_invalid_architecture <-
    for_each
      (fun file binaries_with_invalid_architecture =>
         check_exit (String.eqb (extension file) ".lib")
           ("The file extension was not .lib: " ++ generic_string file) ;;
         let machine_types := read_lib w file in
         check_exit (Nat.eqb (List.length machine_types) 1)
           ("Found more than 1 architecture in file " ++ generic_string file) ;;
         let actual_architecture := get_actual_architecture (hd 0%Z machine_types) in
         if negb (String.eqb expected_architecture actual_architecture)
         then ret (binaries_with_invalid_architecture
                   ++ [{| file := file; actual_arch := actual_architecture |}])
         else ret binaries_with_invalid_architecture)
      files [] ;;
  if negb (is_empty_vec binaries_with_invalid_architecture) then
    print_invalid_architecture_files expected_architecture
      binaries_with_invalid_architecture ;;
    ret ERROR_DETECTED
  else ret SUCCESS.

Definition check_no_dlls_present (dlls : list path) : result lint_status :=
  if is_empty_vec dlls then ret SUCCESS
  else
    println warning "DLLs should not be present in a static build, but the following DLLs were found:" ;;
    print_vector_of_files dlls ;;
    ret ERROR_DETECTED.

(** The two counts are printed in decimal. *)
Definition check_matching_debug_and_release_binaries
  (debug_binaries release_binaries : list path) : result lint_status :=
  let debug_count := List.length debug_binaries in
  let release_count := List.length release_binaries in
  if Nat.eqb debug_count release_count then ret SUCCESS
  else
    println warning
      ("Mismatching number of debug and release binaries. Found "
       ++ to_string (Z.of_nat debug_count) ++ " for debug but "
       ++ to_string (Z.of_nat release_count) ++ " for release.") ;;
    println plain "Debug binaries" ;;
    print_vector_of_files debug_binaries ;;
    println plain "Release binaries" ;;
    print_vector_of_files release_binaries ;;
    (if Nat.eqb debug_count 0
     then println warning "Debug binaries were not found" else ret tt) ;;
    (if Nat.eqb release_count 0
     then println warning "Release binaries were not found" else ret tt) ;;
    println plain "" ;;
    ret ERROR_DETECTED.

Definition check_no_subdirectories (w : world) (dir : path) : result lint_status :=
  let subdirectories :=
    recursive_find_matching_paths_in_dir (fs w) dir
      (fun current => fs_is_directory (fs w) current) in
  if negb (is_empty_vec subdirectories) then
    println warning
      ("Directory " ++ generic_string dir ++ " should have no subdirectories") ;;
    println plain "The following subdirectories were found: " ;;
    print_vector_of_files subdirectories ;;
    ret ERROR_DETECTED
  else ret SUCCESS.

Definition check_bin_folders_are_not_present_in_static_build
  (w : world) (spec : package_spec) (paths : vcpkg_paths) : result lint_status :=
  let bin := packages paths // dir spec // "bin" in
  let debug_bin := packages paths // dir spec // "debug" // "bin" in
  if negb (fs_exists (fs w) bin) && negb (fs_exists (fs w) debug_bin) then ret SUCCESS
  else
    (if fs_exists (fs w) bin then
       println warning
         ("There should be no bin\ directory in a static build, but "
          ++ generic_string bin ++ " is present.")
     else ret tt) ;;
    (if fs_exists (fs w) debug_bin then
       println warning
         ("There should be no debug\bin\ directory in a static build, but "
          ++ generic_string debug_bin ++ " is present.")
     else ret tt) ;;
    println warning
      ("If the creation of bin\ and/or debug\bin\ cannot be disabled, use this in the portfile to remove them"
       ++ nl ++ nl
       ++ "    if(VCPKG_LIBRARY_LINKAGE STREQUAL static)" ++ nl
       ++ "        file(REMOVE_RECURSE ${CURRENT_PACKAGES_DIR}/bin ${CURRENT_PACKAGES_DIR}/debug/bin)" ++ nl
       ++ "    endif()" ++ nl) ;;
    ret ERROR_DETECTED.

Definition check_no_empty_folders (w : world) (dir : path) : result lint_status :=
  let empty_directories :=
    recursive_find_matching_paths_in_dir (fs w) dir
      (fun current => fs_is_directory (fs w) current && fs_is_empty (fs w) current) in
  if negb (is_empty_vec empty_directories) then
    println warning
      ("There should be no empty directories in " ++ generic_string dir) ;;
    println plain "The following empty directories were found: " ;;
    print_vector_of_files empty_directories ;;
    println warning
      ("If a directory should be populated but is not, this might indicate an error in the portfile." ++ nl
       ++ "If the directories are not needed and their creation cannot be disabled, use something like this in the portfile to remove them)" ++ nl
       ++ nl
       ++ "    file(REMOVE_RECURSE ${CURRENT_PACKAGES_DIR}/a/dir ${CURRENT_PACKAGES_DIR}/some/other/dir)" ++ nl
       ++ nl) ;;
    ret ERROR_DETECTED
  else ret SUCCESS.

Record BuildInfo_and_files : Type := {
  build_type : BuildType;
  files : list path
}.

(** The two plain vectors and the four [BuildInfo_and_files] that the loop of
    [check_crt_linkage_of_libs] fills, the latter in the order of
    [group_for_iteration]. *)
Record crt_vectors : Type := {
  no_crts : list path;
  multiple_crts : list path;
  debug_static_crt : list path;
  debug_dynamic_crt : list path;
  release_static_crt : list path;
  release_dynamic_crt : list path
}.

Definition empty_crt_vectors : crt_vectors :=
  {| no_crts := []; multiple_crts := []; debug_static_crt := [];
     debug_dynamic_crt := []; release_static_crt := []; release_dynamic_crt := [] |}.

Definition push_back_crt (b : crt_bucket) (lib : path) (v : crt_vectors)
  : crt_vectors :=
  match b with
  | libs_with_no_crts =>
      {| no_crts := no_crts v ++ [lib]; multiple_crts := multiple_crts v;
         debug_static_crt := debug_static_crt v;
         debug_dynamic_crt := debug_dynamic_crt v;
         release_static_crt := release_static_crt v;
         release_dynamic_crt := release_dynamic_crt v |}
  | libs_with_multiple_crts =>
      {| no_crts := no_crts v; multiple_crts := multiple_crts v ++ [lib];
         debug_static_crt := debug_static_crt v;
         debug_dynamic_crt := debug_dynamic_crt v;
         release_static_crt := release_static_crt v;
         release_dynamic_crt := release_dynamic_crt v |}
  | libs_with_crt DEBUG_STATIC =>
      {| no_crts := no_crts v; multiple_crts := multiple_crts v;
         debug_static_crt := debug_static_crt v ++ [lib];
         debug_dynamic_crt := debug_dynamic_crt v;
         release_static_crt := release_static_crt v;
         release_dynamic_crt := release_dynamic_crt v |}
  | libs_with_crt DEBUG_DYNAMIC =>
      {| no_crts := no_crts v; multiple_crts := multiple_crts v;
         debug_static_crt := debug_static_crt v;
         debug_dynamic_crt := debug_dynamic_crt v ++ [lib];
         release_static_crt := release_static_crt v;
         release_dynamic_crt := release_dynamic_crt v |}
  | libs_with_crt RELEASE_STATIC =>
      {| no_crts := no_crts v; multiple_crts := multiple_crts v;
         debug_static_crt := debug_static_crt v;
         debug_dynamic_crt := debug_dynamic_crt v;
         release_static_crt := release_static_crt v ++ [lib];
         release_dynamic_crt := release_dynamic_crt v |}
  | libs_with_crt RELEASE_DYNAMIC =>
      {| no_crts := no_crts v; multiple_crts := multiple_crts v;
         debug_static_crt := debug_static_crt v;
         debug_dynamic_crt := debug_dynamic_crt v;
         release_static_crt := release_static_crt v;
         release_dynamic_crt := release_dynamic_crt v ++ [lib] |}
  end.

(** [output_status] is threaded through the reports after the loop. *)
Definition check_crt_linkage_of_libs
  (w : world) (expected_build_type : BuildType) (libs : list path)
  : result lint_status :=
  let output_status := SUCCESS in
  v <- for_each
         (fun lib v =>
            let cmd_line := dumpbin_cmd_line "/directives" lib in
            let ec_data := cmd_execute_and_capture_output w cmd_line in
            check_exit (Z.eqb (exit_code ec_data) 0) (running_command_failed cmd_line) ;;
            ret (push_back_crt (crt_bucket_of (output ec_data)) lib v))
         libs empty_crt_vectors ;;
  output_status <-
    (if negb (is_empty_vec (no_crts v)) then
       println warning "Could not detect the crt linkage in the following libs:" ;;
       print_vector_of_files (no_crts v) ;;
       ret ERROR_DETECTED
     else ret output_status) ;;
  output_status <-
    (if negb (is_empty_vec (multiple_crts v)) then
       println warning "Detected multiple crt linkages for the following libs:" ;;
       print_vector_of_files (multiple_crts v) ;;
       ret ERROR_DETECTED
     else ret output_status) ;;
  let group_for_iteration :=
    [ {| build_type := DEBUG_STATIC; files := debug_static_crt v |};
      {| build_type := DEBUG_DYNAMIC; files := debug_dynamic_crt v |};
      {| build_type := RELEASE_STATIC; files := release_static_crt v |};
      {| build_type := RELEASE_DYNAMIC; files := release_dynamic_crt v |} ] in
  output_status <-
    for_each
      (fun bif output_status =>
         if negb (is_empty_vec (files bif))
            && negb (BuildType_eqb (build_type bif) expected_build_type)
         then
           println warning
             ("Expected " ++ BuildType_toString expected_build_type
              ++ " crt linkage, but the following libs had "
              ++ BuildType_toString (build_type bif) ++ " crt linkage:") ;;
           print_vector_of_files (files bif) ;;
           ret ERROR_DETECTED
         else ret output_status)
      group_for_iteration output_status ;;
  (match output_status with
   | ERROR_DETECTED =>
       println warning
         ("To inspect the lib files, use:" ++ nl
          ++ "    dumpbin.exe /directives mylibfile.lib")
   | SUCCESS => ret tt
   end) ;;
  ret output_status.

(** [operator +=] on a [size_t] and a [lint_status]. *)
Definition add_status (left : Z) (right : lint_status) : Z :=
  ((left + lint_status_value right) mod 2 ^ 64)%Z.

(** [perform_all_checks]; the blocks under [#if 0] are left out, as the
    compiler leaves them out. *)
Definition perform_all_checks
  (w : world) (spec : package_spec) (paths : vcpkg_paths) : result unit :=
  println plain "-- Performing post-build validation" ;;
  let build_info := read_build_info w (build_info_file_path paths spec) in
  let error_count := 0%Z in
  s <- check_for_files_in_include_directory w spec paths ;;
  let error_count := add_status error_count s in
  s <- check_for_files_in_debug_include_directory w spec paths ;;
  let error_count := add_status error_count s in
  s <- check_for_files_in_debug_share_directory w spec paths ;;
  let error_count := add_status error_count s in
  s <- check_folder_lib_cmake w spec paths ;;
  let error_count := add_status error_count s in
  s <- check_for_misplaced_cmake_files w spec paths ;;
  let error_count := add_status error_count s in
  s <- check_folder_debug_lib_cmake w spec paths ;;
  let error_count := add_status error_count s in
  s <- check_for_dlls_in_lib_dirs w spec paths ;;
  let error_count := add_status error_count s in
  s <- check_for_copyright_file w spec paths ;;
  let error_count := add_status error_count s in
  s <- check_for_exes w spec paths ;;
  let error_count := add_status error_count s in
  let debug_libs :=
    recursive_find_files_with_extension_in_dir (fs w)
      (packages paths // dir spec // "debug" // "lib") ".lib" in
  let release_libs :=
    recursive_find_files_with_extension_in_dir (fs w)
      (packages paths // dir spec // "lib") ".lib" in
  s <- check_matching_debug_and_release_binaries debug_libs release_libs ;;
  let error_count := add_status error_count s in
  let libs := debug_libs ++ release_libs in
  s <- check_lib_architecture w (architecture (target_triplet spec)) libs ;;
  let error_count := add_status error_count s in
  error_count <-
    match linkage_type_value_of (library_linkage build_info) with
    | DYNAMIC =>
        let debug_dlls :=
          recursive_find_files_with_extension_in_dir (fs w)
            (packages paths // dir spec // "debug" // "bin") ".dll" in
        let release_dlls :=
          recursive_find_files_with_extension_in_dir (fs w)
            (packages paths // dir spec // "bin") ".dll" in
        s <- check_matching_debug_and_release_binaries debug_dlls release_dlls ;;
        let error_count := add_status error_count s in
        let dlls := debug_dlls ++ release_dlls in
        s <- check_exports_of_dlls w dlls ;;
        let error_count := add_status error_count s in
        s <- check_uwp_bit_of_dlls w (system (target_triplet spec)) dlls ;;
        let error_count := add_status error_count s in
        s <- check_dll_architecture w (architecture (target_triplet spec)) dlls ;;
        let error_count := add_status error_count s in
        ret error_count
    | STATIC =>
        let dlls :=
          recursive_find_files_with_extension_in_dir_into (fs w)
            (packages paths // dir spec) ".dll" [] in
        s <- check_no_dlls_present dlls ;;
        let error_count := add_status error_count s in
        s <- check_bin_folders_are_not_present_in_static_build w spec paths ;;
        let error_count := add_status error_count s in
        ret error_count
    | UNKNOWN =>
        let error_count := ((error_count + 1) mod 2 ^ 64)%Z in
        println warning
          ("Unknown library_linkage architecture: [ "
           ++ library_linkage build_info ++ " ]") ;;
        ret error_count
    end ;;
  s <- check_no_empty_folders w (packages paths // dir spec) ;;
  let error_count := add_status error_count s in
  if negb (Z.eqb error_count 0) then
    let portfile := ports paths // name spec // "portfile.cmake" in
    println error
      ("Found " ++ to_string error_count
       ++ " error(s). Please correct the portfile:" ++ nl ++ "    "
       ++ native portfile) ;;
    exit EXIT_FAILURE
  else
    println plain "-- Performing post-build validation done".

(** ** The battery as a list

    The checks [perform_all_checks] calls, in the order of the calls.  The
    unknown linkage type stands in the list as a check that always reports. *)
Definition unknown_library_linkage (build_info : BuildInfo) : result lint_status :=
  println warning
    ("Unknown library_linkage architecture: [ "
     ++ library_linkage build_info ++ " ]") ;;
  ret ERROR_DETECTED.

Definition debug_libs_of (w : world) (spec : package_spec) (paths : vcpkg_paths)
  : list path :=
  recursive_find_files_with_extension_in_dir (fs w)
    (packages paths // dir spec // "debug" // "lib") ".lib".

Definition release_libs_of (w : world) (spec : package_spec) (paths : vcpkg_paths)
  : list path :=
  recursive_find_files_with_extension_in_dir (fs w)
    (packages paths // dir spec // "lib") ".lib".

Definition debug_dlls_of (w : world) (spec : package_spec) (paths : vcpkg_paths)
  : list path :=
  recursive_find_files_with_extension_in_dir (fs w)
    (packages paths // dir spec // "debug" // "bin") ".dll".

Definition release_dlls_of (w : world) (spec : package_spec) (paths : vcpkg_paths)
  : list path :=
  recursive_find_files_with_extension_in_dir (fs w)
    (packages paths // dir spec // "bin") ".dll".

Definition common_checks (w : world) (spec : package_spec) (paths : vcpkg_paths)
  : list (result lint_status) :=
  [ check_for_files_in_include_directory w spec paths;
    check_for_files_in_debug_include_directory w spec paths;
    check_for_files_in_debug_share_directory w spec paths;
    check_folder_lib_cmake w spec paths;
    check_for_misplaced_cmake_files w spec paths;
    check_folder_debug_lib_cmake w spec paths;
    check_for_dlls_in_lib_dirs w spec paths;
    check_for_copyright_file w spec paths;
    check_for_exes w spec paths;
    check_matching_debug_and_release_binaries
      (debug_libs_of w spec paths) (release_libs_of w spec paths);
    check_lib_architecture w (architecture (target_triplet spec))
      (debug_libs_of w spec paths ++ release_libs_of w spec paths) ].

Definition linkage_checks (w : world) (spec : package_spec) (paths : vcpkg_paths)
  : list (result lint_status) :=
  let build_info := read_build_info w (build_info_file_path paths spec) in
  match linkage_type_value_of (library_linkage build_info) with
  | DYNAMIC =>
      let dlls := debug_dlls_of w spec paths ++ release_dlls_of w spec paths in
      [ check_matching_debug_and_release_binaries
          (debug_dlls_of w spec paths) (release_dlls_of w spec paths);
        check_exports_of_dlls w dlls;
        check_uwp_bit_of_dlls w (system (target_triplet spec)) dlls;
        check_dll_architecture w (architecture (target_triplet spec)) dlls ]
  | STATIC =>
      [ check_no_dlls_present
          (recursive_find_files_with_extension_in_dir (fs w)
             (packages paths // dir spec) ".dll");
        check_bin_folders_are_not_present_in_static_build w spec paths ]
  | UNKNOWN => [ unknown_library_linkage build_info ]
  end.

Definition battery (w : world) (spec : package_spec) (paths : vcpkg_paths)
  : list (result lint_status) :=
  common_checks w spec paths ++ linkage_checks w spec paths
  ++ [ check_no_empty_folders w (packages paths // dir spec) ].

(** A plain fold over the battery: one unit per [ERROR_DETECTED]. *)
Fixpoint run_checks (checks : list (result lint_status)) (error_count : Z)
  : result Z :=
  match checks with
  | [] => ret error_count
  | c :: checks' => s <- c ;; run_checks checks' (add_status error_count s)
  end.

Definition is_violation (r : lint_status * console) : bool :=
  match fst r with ERROR_DETECTED => true | SUCCESS => false end.

Definition violations (rs : list (lint_status * console)) : nat :=
  List.length (filter is_violation rs).

(** Check [c] ran to its end with status and output [r]. *)
Definition returns (c : result lint_status) (r : lint_status * console) : Prop :=
  c = Returned (fst r) (snd r).

Definition validation_header : color * string :=
  (plain, "-- Performing post-build validation").

Definition validation_done : color * string :=
  (plain, "-- Performing post-build validation done").

Definition error_report (spec : package_spec) (paths : vcpkg_paths) (n : nat)
  : color * string :=
  (error,
   ("Found " ++ to_string (Z.of_nat n)
    ++ " error(s). Please correct the portfile:" ++ nl ++ "    "
    ++ native (ports paths // name spec // "portfile.cmake"))%string).

(** What a run over checks with the results [rs] ends in. *)
Definition verdict (spec : package_spec) (paths : vcpkg_paths)
  (rs : list (lint_status * console)) : result unit :=
  let n := violations rs in
  if Nat.eqb n 0
  then Returned tt
         (validation_header :: List.concat (map snd rs) ++ [validation_done])%list
  else Exited EXIT_FAILURE
         (validation_header :: List.concat (map snd rs) ++ [error_report spec paths n])%list.

End MachineTypes.

(** ** Reading dumps and trees, for the statements *)

(** The dump of [file] in [mode] lacks [marker]. *)
Definition dump_lacks (w : world) (mode marker : string) (file : path) : bool :=
  is_npos (find (output (cmd_execute_and_capture_output w (dumpbin_cmd_line mode file)))
             marker).

Definition dump_succeeds (w : world) (mode : string) (file : path) : Prop :=
  exit_code (cmd_execute_and_capture_output w (dumpbin_cmd_line mode file)) = 0%Z.

(** The lines [print_vector_of_files] prints. *)
Definition printed_files (paths : list path) : console :=
  ((plain, "") :: map (fun p => (plain, ("    " ++ generic_string p)%string)) paths
  ++ [(plain, "")])%list.

(** A file, not a directory, with the extension [ext] lies at [p]. *)
Definition file_with_extension_at (root : node) (ext : string) (p : path) : Prop :=
  (exists size, lookup root p = Some (File size)) /\ extension p = ext.

(** [p] lies strictly below the directory path [dir]. *)
Definition below (dir p : path) : Prop :=
  exists rest, rest <> [] /\ p = dir ++ rest.

(** ** A concrete package

    The codes of the PE format for the five machine types, the reading of
    [library_linkage], and a small dynamic package [zlib] for [x86-windows]. *)
Definition pe_AMD64 : Z := 34404.
Definition pe_IA64 : Z := 512.
Definition pe_I386 : Z := 332.
Definition pe_ARM : Z := 448.
Definition pe_ARMNT : Z := 452.

Definition example_linkage_type_value_of (as_string : string) : LinkageType :=
  if String.eqb as_string "dynamic" then DYNAMIC
  else if String.eqb as_string "static" then STATIC
  else UNKNOWN.

Definition example_spec : package_spec :=
  {| name := "zlib";
     dir := "zlib_x86-windows";
     target_triplet := {| architecture := "x86"; system := "windows" |} |}.

Definition example_paths : vcpkg_paths :=
  {| packages := ["packages"];
     buildtrees := ["buildtrees"];
     ports := ["ports"];
     build_info_file_path := fun spec => ["packages"; dir spec; "BUILD_INFO"] |}.

(** The package directory with [extra] entries added at its end. *)
Definition example_tree (extra : list (string * node)) : node :=
  Dir [ ("packages",
         Dir [ ("zlib_x86-windows",
                Dir ([ ("BUILD_INFO", File 64);
                       ("include", Dir [ ("zlib.h", File 4096) ]);
                       ("share", Dir [ ("zlib", Dir [ ("copyright", File 1024) ]) ]);
                       ("lib", Dir [ ("zlib.lib", File 2048) ]);
                       ("bin", Dir [ ("zlib1.dll", File 8192) ]);
                       ("debug",
                        Dir [ ("lib", Dir [ ("zlibd.lib", File 2048) ]);
                              ("bin", Dir [ ("zlibd1.dll", File 8192) ]) ]) ]
                     ++ extra)) ]) ].

(** Every dumpbin run succeeds and prints an export table header, nothing
    else; every binary is reported with the machine types [machine_types]. *)
Definition example_world (extra : list (string * node)) (linkage : string)
  (machine_types : list Z) : world :=
  {| fs := example_tree extra;
     cmd_execute_and_capture_output := fun _ =>
       {| exit_code := 0; output := "    ordinal hint RVA      name" |};
     read_lib := fun _ => machine_types;
     read_dll := fun _ => hd 0%Z machine_types;
     read_build_info := fun _ =>
       {| library_linkage := linkage; crt_linkage := "dynamic" |} |}.

Definition example_perform_all_checks (w : world) : result unit :=
  perform_all_checks pe_AMD64 pe_IA64 pe_I386 pe_ARM pe_ARMNT
    example_linkage_type_value_of w example_spec example_paths.

(** The flag of the marker of build type [b]. *)
Definition found_crt (b : BuildType) (f : crt_flags) : bool :=
  match b with
  | DEBUG_STATIC => found_debug_static_crt f
  | DEBUG_DYNAMIC => found_debug_dynamic_crt f
  | RELEASE_STATIC => found_release_static_crt f
  | RELEASE_DYNAMIC => found_release_dynamic_crt f
  end.

(** [needle] occurs in [s], and [needle] occurs in [s] followed by a
    character other than [d]. *)
Definition occurs_in (needle s : string) : Prop :=
  exists pre post, s = (pre ++ needle ++ post)%string.

Definition occurs_not_followed_by (needle : string) (d : ascii) (s : string) : Prop :=
  exists pre c post, s = (pre ++ needle ++ String c post)%string /\ c <> d.

(** What the regular expression of build type [b] looks for in a text. *)
Definition marker_found (b : BuildType) (text : string) : Prop :=
  match b with
  | DEBUG_STATIC => occurs_in "/DEFAULTLIB:LIBCMTD" text
  | DEBUG_DYNAMIC => occurs_in "/DEFAULTLIB:MSVCRTD" text
  | RELEASE_STATIC => occurs_not_followed_by "/DEFAULTLIB:LIBCMT" "D" text
  | RELEASE_DYNAMIC => occurs_not_followed_by "/DEFAULTLIB:MSVCRT" "D" text
  end.

(** The first line of the report of mismatching counts. *)
Definition mismatching_number (debug_count release_count : nat) : string :=
  ("Mismatching number of debug and release binaries. Found "
   ++ to_string (Z.of_nat debug_count) ++ " for debug but "
   ++ to_string (Z.of_nat release_count) ++ " for release.")%string.

(** Three runs over the package above: as built, with the library linkage
    misspelt, and with libraries that carry code for two machines. *)
Definition example_dynamic_world : world := example_world [] "dynamic" [pe_I386].

Definition example_unknown_world : world := example_world [] "shared" [pe_I386].

Definition example_fat_lib_world : world :=
  example_world [] "dynamic" [pe_I386; pe_AMD64].

(** A static build of it that left its DLLs, a tool and an empty
    directory behind. *)
Definition example_static_world : world :=
  example_world [ ("tools", Dir [ ("minigzip.exe", File 512) ]); ("empty", Dir []) ]
    "static" [pe_I386].

Definition example_battery (w : world) : list (result lint_status) :=
  battery pe_AMD64 pe_IA64 pe_I386 pe_ARM pe_ARMNT example_linkage_type_value_of
    w example_spec example_paths.

(** Status and output of the checks of a list, for the checks that return. *)
Definition results_of (checks : list (result lint_status))
  : list (lint_status * console) :=
  flat_map
    (fun c => match c with Returned s out => [(s, out)] | _ => [] end)
    checks.

Definition example_dll : path := ["packages"; "zlib_x86-windows"; "bin"; "zlib1.dll"].

Definition example_exe : path :=
  ["packages"; "zlib_x86-windows"; "tools"; "minigzip.exe"].

(** The report of a dumpbin check over [dlls]. *)
Definition dll_report (first_line last_line : string) (dlls : list path)
  : result lint_status :=
  if is_empty_vec dlls then Returned SUCCESS []
  else Returned ERROR_DETECTED
         ((warning, first_line) :: printed_files dlls ++ [(warning, last_line)])%list.

(** The DLLs a dynamic build is checked on. *)
Definition dlls_of (w : world) (spec : package_spec) (paths : vcpkg_paths)
  : list path :=
  debug_dlls_of w spec paths ++ release_dlls_of w spec paths.

(** What the unknown linkage type adds to a run: one violation, one line. *)
Definition unknown_library_linkage_report (build_info : BuildInfo)
  : lint_status * console :=
  (ERROR_DETECTED,
   [(warning,
     ("Unknown library_linkage architecture: [ "
      ++ library_linkage build_info ++ " ]")%string)]).

(** The vector [exes] of [check_for_exes]. *)
Definition exes_of (w : world) (spec : package_spec) (paths : vcpkg_paths)
  : list path :=
  recursive_find_files_with_extension_in_dir_into (fs w)
    (packages paths // dir spec // "debug" // "bin") ".exe"
    (recursive_find_files_with_extension_in_dir_into (fs w)
       (packages paths // dir spec // "bin") ".exe" []).

(** A package that ships a tool two levels below [bin]. *)
Definition example_tool_world : world :=
  {| fs :=
       Dir [ ("packages",
              Dir [ ("zlib_x86-windows",
                     Dir [ ("bin",
                            Dir [ ("tools",
                                   Dir [ ("minigzip.exe", File 512) ]) ]) ]) ]) ];
     cmd_execute_and_capture_output := fun _ => {| exit_code := 0; output := "" |};
     read_lib := fun _ => [pe_I386];
     read_dll := fun _ => pe_I386;
     read_build_info := fun _ =>
       {| library_linkage := "dynamic"; crt_linkage := "dynamic" |} |}.

(** A check that passes prints nothing. *)
Definition silent_on_success (c : result lint_status) : Prop :=
  forall out, c = Returned SUCCESS out -> out = [].

(** A computation that prints nothing, however it ends. *)
Definition quiet {A : Type} (m : result A) : Prop :=
  match m with
  | Returned _ out => out = []
  | Exited _ out => out = []
  | Fatal _ out => out = []
  end.

(** Something, a file or a directory, lies at [p]; a directory lies at [p]. *)
Definition exists_at (root : node) (p : path) : Prop := lookup root p <> None.

Definition directory_at (root : node) (p : path) : Prop :=
  exists entries, lookup root p = Some (Dir entries).

(** A package whose build left things where they do not belong: a DLL and
    cmake files under [lib], headers under [debug/include], an empty
    directory, no copyright file; its sources carry two license files. *)
Definition example_messy_tree : node :=
  Dir [ ("packages",
         Dir [ ("zlib_x86-windows",
                Dir [ ("include", Dir [ ("zlib.h", File 4096) ]);
                      ("lib",
                       Dir [ ("zlib1.dll", File 8192);
                             ("cmake", Dir [ ("zlib-config.cmake", File 128) ]) ]);
                      ("debug",
                       Dir [ ("include", Dir [ ("zlib.h", File 4096);
                                               ("zlib.ifc", File 64) ]);
                             ("lib", Dir [ ("pkgconfig", Dir []) ]) ]) ]) ]);
        ("buildtrees",
         Dir [ ("zlib",
                Dir [ ("src",
                       Dir [ ("zlib-1.2.8",
                              Dir [ ("LICENSE", File 1024);
                                    ("contrib",
                                     Dir [ ("COPYING", File 512) ]) ]) ]) ]) ]) ].

Definition example_messy_world : world :=
  {| fs := example_messy_tree;
     cmd_execute_and_capture_output := fun _ => {| exit_code := 0; output := "" |};
     read_lib := fun _ => [pe_I386];
     read_dll := fun _ => pe_I386;
     read_build_info := fun _ =>
       {| library_linkage := "static"; crt_linkage := "static" |} |}.

(** The warning of [check_for_files_in_debug_include_directory]. *)
Definition debug_include_warning : color * string :=
  (warning,
   ("Include files should not be duplicated into the /debug/include directory. If this cannot be disabled in the project cmake, use"
    ++ nl ++ "    file(REMOVE_RECURSE ${CURRENT_PACKAGES_DIR}/debug/include)")%string).

(** The vector [potential_copyright_files] of [check_for_copyright_file], and
    the lines the check prints. *)
Definition potential_copyright_files_of
  (w : world) (spec : package_spec) (paths : vcpkg_paths) : list path :=
  filter
    (fun it =>
       if Nat.ltb 1 (depth (buildtrees paths // name spec // "src") it) then false
       else
         String.eqb (filename it) "LICENSE" || String.eqb (filename it) "LICENSE.txt"
         || String.eqb (filename it) "COPYING")
    (recursive_directory_iterator (fs w) (buildtrees paths // name spec // "src")).

Definition license_warning (spec : package_spec) : color * string :=
  (warning,
   ("The software license must be available at ${CURRENT_PACKAGES_DIR}/share/"
    ++ name spec ++ "/copyright .")%string).

Definition copy_instructions (spec : package_spec) (relative_path : path)
  (found_file : path) : color * string :=
  (plain,
   (nl ++ "    file(COPY ${CURRENT_BUILDTREES_DIR}/"
    ++ generic_string relative_path
    ++ " DESTINATION ${CURRENT_PACKAGES_DIR}/share/" ++ name spec ++ ")" ++ nl
    ++ "    file(RENAME ${CURRENT_PACKAGES_DIR}/share/" ++ name spec ++ "/"
    ++ filename found_file
    ++ " ${CURRENT_PACKAGES_DIR}/share/" ++ name spec ++ "/copyright)")%string).

(** What [print_invalid_architecture_files] prints. *)
Definition architecture_mismatch_report (expected_architecture : string)
  (binaries : list file_and_arch) : console :=
  (warning, "The following files were built for an incorrect architecture:"%string)
  :: (plain, ""%string)
  :: flat_map
       (fun b =>
          [ (plain, ("    " ++ generic_string (file b))%string);
            (plain, ("Expected " ++ expected_architecture ++ ", but was: "
                     ++ actual_arch b)%string);
            (plain, ""%string) ])
       binaries.

(** The outcome of an architecture check on the mismatching binaries. *)
Definition architecture_verdict (expected_architecture : string)
  (binaries : list file_and_arch) : result lint_status :=
  if is_empty_vec binaries then Returned SUCCESS []
  else Returned ERROR_DETECTED
         (architecture_mismatch_report expected_architecture binaries).

(** The /directives dump of a library, the libraries of a list that the loop
    of [check_crt_linkage_of_libs] sends to one vector, and the reports. *)
Definition directives_of (w : world) (lib : path) : string :=
  output (cmd_execute_and_capture_output w (dumpbin_cmd_line "/directives" lib)).

Definition crt_bucket_eqb (a b : crt_bucket) : bool :=
  match a, b with
  | libs_with_no_crts, libs_with_no_crts => true
  | libs_with_multiple_crts, libs_with_multiple_crts => true
  | libs_with_crt x, libs_with_crt y => BuildType_eqb x y
  | _, _ => false
  end.

Definition libs_in_bucket (w : world) (b : crt_bucket) (libs : list path)
  : list path :=
  filter (fun lib => crt_bucket_eqb (crt_bucket_of (directives_of w lib)) b) libs.

Definition crt_group_report (first_line : string) (group : list path) : console :=
  if is_empty_vec group then [] else (warning, first_line) :: printed_files group.

Definition crt_report (BuildType_toString : BuildType -> string) (w : world)
  (expected_build_type : BuildType) (libs : list path) : console :=
  crt_group_report "Could not detect the crt linkage in the following libs:"
    (libs_in_bucket w libs_with_no_crts libs)
  ++ crt_group_report "Detected multiple crt linkages for the following libs:"
       (libs_in_bucket w libs_with_multiple_crts libs)
  ++ flat_map
       (fun b =>
          if BuildType_eqb b expected_build_type then []
          else crt_group_report
                 ("Expected " ++ BuildType_toString expected_build_type
                  ++ " crt linkage, but the following libs had "
                  ++ BuildType_toString b ++ " crt linkage:")
                 (libs_in_bucket w (libs_with_crt b) libs))
       [DEBUG_STATIC; DEBUG_DYNAMIC; RELEASE_STATIC; RELEASE_DYNAMIC].

Definition crt_vector (b : crt_bucket) (v : crt_vectors) : list path :=
  match b with
  | libs_with_no_crts => no_crts v
  | libs_with_multiple_crts => multiple_crts v
  | libs_with_crt DEBUG_STATIC => debug_static_crt v
  | libs_with_crt DEBUG_DYNAMIC => debug_dynamic_crt v
  | libs_with_crt RELEASE_STATIC => release_static_crt v
  | libs_with_crt RELEASE_DYNAMIC => release_dynamic_crt v
  end.

(** One name for every build type, for the examples. *)
Definition example_BuildType_toString (b : BuildType) : string :=
  match b with
  | DEBUG_STATIC => "Debug,Static"
  | DEBUG_DYNAMIC => "Debug,Dynamic"
  | RELEASE_STATIC => "Release,Static"
  | RELEASE_DYNAMIC => "Release,Dynamic"
  end.

(** Libraries whose dumps name the release static CRT, the debug static one,
    both, and none. *)
Definition example_crt_world : world :=
  {| fs := Dir [];
     cmd_execute_and_capture_output := fun cmd_line =>
       {| exit_code := 0;
          output :=
            if is_npos (find cmd_line "mixed") then
              if is_npos (find cmd_line "plain") then
                if is_npos (find cmd_line "debug") then "   /DEFAULTLIB:LIBCMT "
                else "   /DEFAULTLIB:LIBCMTD "
              else "   /DEFAULTLIB:OLDNAMES "
            else "   /DEFAULTLIB:LIBCMTD    /DEFAULTLIB:MSVCRT " |};
     read_lib := fun _ => [pe_I386];
     read_dll := fun _ => pe_I386;
     read_build_info := fun _ =>
       {| library_linkage := "static"; crt_linkage := "static" |} |}.

Definition example_libs : list path :=
  [ ["lib"; "release.lib"]; ["lib"; "debug.lib"]; ["lib"; "mixed.lib"];
    ["lib"; "plain.lib"] ].

(** The last line of a report of [check_crt_linkage_of_libs]. *)
Definition crt_inspect_hint : color * string :=
  (warning,
   ("To inspect the lib files, use:" ++ nl
    ++ "    dumpbin.exe /directives mylibfile.lib")%string).

(** A computation that does not call [exit] itself: it returns or ends in a
    failed [check_exit]. *)
Definition never_exits {A : Type} (m : result A) : Prop :=
  forall status out, m <> Exited status out.

(** A dynamic build in which dumpbin cannot be run. *)
Definition example_no_dumpbin_world : world :=
  {| fs := example_tree [];
     cmd_execute_and_capture_output := fun _ =>
       {| exit_code := 1; output := "" |};
     read_lib := fun _ => [pe_I386];
     read_dll := fun _ => pe_I386;
     read_build_info := fun _ =>
       {| library_linkage := "dynamic"; crt_linkage := "dynamic" |} |}.

(** The checks of a dynamic build that run before [check_exports_of_dlls]. *)
Definition example_checks_before_exports : list (result lint_status) :=
  common_checks pe_AMD64 pe_IA64 pe_I386 pe_ARM pe_ARMNT
    example_no_dumpbin_world example_spec example_paths
  ++ [ check_matching_debug_and_release_binaries
         (debug_dlls_of example_no_dumpbin_world example_spec example_paths)
         (release_dlls_of example_no_dumpbin_world example_spec example_paths) ].

(** Status and output of a dumpbin check that found [dlls]. *)
Definition dll_findings (first_line last_line : string) (dlls : list path)
  : lint_status * console :=
  if is_empty_vec dlls then (SUCCESS, [])
  else (ERROR_DETECTED,
        ((warning, first_line) :: printed_files dlls ++ [(warning, last_line)])%list).

(** * Properties *)

(** ** Strings and searches *)

Open Scope string_scope.

Lemma string_app_assoc (a b c : string) : (a ++ b) ++ c = a ++ b ++ c.
Proof. induction a as [|x a IH]; simpl; [reflexivity | now rewrite IH]. Qed.

Lemma string_app_nil_r (a : string) : a ++ "" = a.
Proof. induction a as [|x a IH]; simpl; [reflexivity | now rewrite IH]. Qed.

Lemma string_length_app (a b : string) :
  String.length (a ++ b) = String.length a + String.length b.
Proof. induction a as [|x a IH]; simpl; [reflexivity | now rewrite IH]. Qed.

Lemma string_app_inv_length (a a' b b' : string) :
  a ++ b = a' ++ b' -> String.length a = String.length a' -> a = a' /\ b = b'.
Proof.
  revert a'. induction a as [|x a IH]; intros [|x' a'] E L; simpl in *;
    try discriminate.
  - now split.
  - injection E as -> E. injection L as L.
    destruct (IH _ E L) as [-> ->]. now split.
Qed.

Lemma starts_with_spec (needle s : string) :
  starts_with needle s = true <-> exists post, s = needle ++ post.
Proof.
  revert s. induction needle as [|a needle IH]; intros s; simpl.
  - split; [intros _; now exists s | reflexivity].
  - destruct s as [|c s].
    + split; [discriminate | intros [post E]; discriminate].
    + rewrite andb_true_iff, Ascii.eqb_eq, IH. split.
      * intros [-> [post ->]]. now exists post.
      * intros [post E]. injection E as -> ->. split; [reflexivity | now exists post].
Qed.

Lemma regex_search_spec (s : string) (r : regex) :
  regex_search s r = true <->
  exists pre post, s = pre ++ post /\ regex_match_here r post = true.
Proof.
  induction s as [|c s IH]; simpl; rewrite orb_true_iff.
  - split.
    + intros [H | H]; [| discriminate]. now exists "", "".
    + intros (pre & post & E & H). left.
      destruct pre; [simpl in E; now subst post | discriminate].
  - rewrite IH. split.
    + intros [H | (pre & post & -> & H)].
      * now exists "", (String c s).
      * now exists (String c pre), post.
    + intros (pre & post & E & H). destruct pre as [|x pre]; simpl in E.
      * left. now subst post.
      * right. injection E as -> ->. now exists pre, post.
Qed.

Lemma literal_cons (a : ascii) (s : string) :
  literal (String a s) = Chr a :: literal s.
Proof. reflexivity. Qed.

Lemma match_here_literal (needle s : string) :
  regex_match_here (literal needle) s = starts_with needle s.
Proof.
  revert s. induction needle as [|a needle IH]; intros s; [reflexivity |].
  rewrite literal_cons. simpl. destruct s as [|c s]; [reflexivity |].
  now rewrite IH.
Qed.

Lemma match_here_literal_not (needle : string) (d : ascii) (s : string) :
  regex_match_here (literal needle ++ [NotChr d])%list s = true <->
  exists c post, s = needle ++ String c post /\ c <> d.
Proof.
  revert s. induction needle as [|a needle IH]; intros s.
  - simpl. destruct s as [|c s].
    + split; [discriminate | intros (c & post & E & _); discriminate].
    + rewrite andb_true_r, negb_true_iff, Ascii.eqb_neq. split.
      * intros H. now exists c, s.
      * intros (c' & post & E & H). now injection E as -> ->.
  - rewrite literal_cons. simpl. destruct s as [|c s].
    + split; [discriminate | intros (c & post & E & _); discriminate].
    + rewrite andb_true_iff, Ascii.eqb_eq, IH. split.
      * intros [-> (c' & post & -> & H)]. now exists c', post.
      * intros (c' & post & E & H). injection E as -> ->.
        split; [reflexivity | now exists c', post].
Qed.

Lemma search_literal (needle s : string) :
  regex_search s (literal needle) = true <-> occurs_in needle s.
Proof.
  rewrite regex_search_spec. unfold occurs_in. split.
  - intros (pre & post & -> & H). rewrite match_here_literal in H.
    apply starts_with_spec in H as [post' ->]. now exists pre, post'.
  - intros (pre & post & ->). exists pre, (needle ++ post). split; [reflexivity |].
    rewrite match_here_literal. apply starts_with_spec. now exists post.
Qed.

Lemma search_literal_not (needle : string) (d : ascii) (s : string) :
  regex_search s (literal needle ++ [NotChr d])%list = true <->
  occurs_not_followed_by needle d s.
Proof.
  rewrite regex_search_spec. unfold occurs_not_followed_by. split.
  - intros (pre & post & -> & H).
    apply match_here_literal_not in H as (c & post' & -> & H).
    now exists pre, c, post'.
  - intros (pre & c & post & -> & H). exists pre, (needle ++ String c post).
    split; [reflexivity |]. apply match_here_literal_not. now exists c, post.
Qed.

Lemma In_occurrences_from (needle s : string) (k i : nat) :
  In i (occurrences_from k needle s) <->
  exists pre post, s = pre ++ needle ++ post /\ i = k + String.length pre.
Proof.
  revert k. induction s as [|c s IH]; intros k; simpl; rewrite in_app_iff.
  - split.
    + intros [H | []]. destruct (starts_with needle "") eqn:E; [| destruct H].
      destruct H as [<- | []]. apply starts_with_spec in E as [post E].
      exists "", post. simpl. split; [exact E | lia].
    + intros (pre & post & E & ->). left.
      destruct pre; [| discriminate]. simpl in E.
      assert (H : starts_with needle "" = true)
        by (apply starts_with_spec; now exists post).
      rewrite H. left. simpl. lia.
  - rewrite IH. split.
    + intros [H | (pre & post & -> & ->)].
      * destruct (starts_with needle (String c s)) eqn:E; [| destruct H].
        destruct H as [<- | []]. apply starts_with_spec in E as [post E].
        exists "", post. simpl. split; [exact E | lia].
      * exists (String c pre), post. simpl. split; [reflexivity | lia].
    + intros (pre & post & E & ->). destruct pre as [|x pre]; simpl in E.
      * left.
        assert (H : starts_with needle (String c s) = true)
          by (apply starts_with_spec; now exists post).
        rewrite H. left. simpl. lia.
      * right. injection E as -> ->. exists pre, post. simpl.
        split; [reflexivity | lia].
Qed.

Lemma In_occurrences (needle s : string) (i : nat) :
  In i (occurrences needle s) <->
  exists pre post, s = pre ++ needle ++ post /\ String.length pre = i.
Proof.
  unfold occurrences. rewrite In_occurrences_from. split.
  - intros (pre & post & E & ->). now exists pre, post.
  - intros (pre & post & E & <-). now exists pre, post.
Qed.

Lemma occurrences_nil (needle s : string) :
  occurrences needle s = [] <-> ~ occurs_in needle s.
Proof.
  split.
  - intros E (pre & post & H).
    assert (I : In (String.length pre) (occurrences needle s))
      by (apply In_occurrences; now exists pre, post).
    rewrite E in I. destruct I.
  - intros H. destruct (occurrences needle s) as [|i l] eqn:E; [reflexivity |].
    exfalso. apply H.
    assert (I : In i (occurrences needle s)) by (rewrite E; now left).
    apply In_occurrences in I as (pre & post & -> & _). now exists pre, post.
Qed.

(** ** The CRT linkage of one library *)

Lemma found_crt_iff (b : BuildType) (text : string) :
  found_crt b (crt_flags_of text) = true <-> marker_found b text.
Proof.
  destruct b; simpl.
  - apply search_literal.
  - apply search_literal.
  - apply (search_literal_not "/DEFAULTLIB:LIBCMT").
  - apply (search_literal_not "/DEFAULTLIB:MSVCRT").
Qed.

Lemma not_found_crt (b : BuildType) (text : string) :
  ~ marker_found b text -> found_crt b (crt_flags_of text) = false.
Proof.
  intros H. destruct (found_crt b (crt_flags_of text)) eqn:E; [| reflexivity].
  now apply found_crt_iff in E.
Qed.

Lemma bucket_of_flags_cases (f : crt_flags) :
  (crts_found_count f = 0 -> bucket_of_flags f = libs_with_no_crts) /\
  (2 <= crts_found_count f -> bucket_of_flags f = libs_with_multiple_crts) /\
  (crts_found_count f = 1 ->
   exists b, bucket_of_flags f = libs_with_crt b /\
             forall b', found_crt b' f = true <-> b' = b).
Proof.
  destruct f as [[] [] [] []]; cbv [crts_found_count bucket_of_flags Nat.b2n
    found_debug_static_crt found_debug_dynamic_crt found_release_static_crt
    found_release_dynamic_crt]; simpl;
    (split; [intros H; try reflexivity; discriminate H |
     split; [intros H; try reflexivity; lia |]]);
    intros H; try discriminate H; try lia.
  - exists DEBUG_STATIC. split; [reflexivity |].
    intros []; simpl; split; intros E; try reflexivity; discriminate E.
  - exists DEBUG_DYNAMIC. split; [reflexivity |].
    intros []; simpl; split; intros E; try reflexivity; discriminate E.
  - exists RELEASE_STATIC. split; [reflexivity |].
    intros []; simpl; split; intros E; try reflexivity; discriminate E.
  - exists RELEASE_DYNAMIC. split; [reflexivity |].
    intros []; simpl; split; intros E; try reflexivity; discriminate E.
Qed.

Lemma two_flags_multiple (f : crt_flags) (b b' : BuildType) :
  b <> b' -> found_crt b f = true -> found_crt b' f = true ->
  2 <= crts_found_count f.
Proof.
  destruct f as [f1 f2 f3 f4]. unfold crts_found_count.
  destruct b, b'; simpl; intros N; try (now elim N); intros E E';
    rewrite E, E'; repeat match goal with x : bool |- _ => destruct x end;
    simpl; lia.
Qed.

(** C1: the bucket of a directive text is decided by the number of markers
    found in it: none found, the library goes to the undetected ones; two or
    more, to the ones with multiple linkages; exactly one, to the vector of
    that marker's build type.  A marker is found exactly when its text occurs
    (for the release ones, followed by a character other than D), the count
    is the number of build types whose marker is found, and a text with both
    /DEFAULTLIB:LIBCMTD and /DEFAULTLIB:MSVCRT followed by a character other
    than D has multiple linkages. *)
Theorem crt_bucket_by_count (text : string) :
  (forall b, found_crt b (crt_flags_of text) = true <-> marker_found b text) /\
  crts_found_count (crt_flags_of text)
  = List.length
      (filter (fun b => found_crt b (crt_flags_of text))
         [DEBUG_STATIC; DEBUG_DYNAMIC; RELEASE_STATIC; RELEASE_DYNAMIC]) /\
  (crts_found_count (crt_flags_of text) = 0 ->
   crt_bucket_of text = libs_with_no_crts) /\
  (2 <= crts_found_count (crt_flags_of text) ->
   crt_bucket_of text = libs_with_multiple_crts) /\
  (crts_found_count (crt_flags_of text) = 1 ->
   exists b, crt_bucket_of text = libs_with_crt b /\
             forall b', marker_found b' text <-> b' = b) /\
  (occurs_in "/DEFAULTLIB:LIBCMTD" text ->
   occurs_not_followed_by "/DEFAULTLIB:MSVCRT" "D" text ->
   crt_bucket_of text = libs_with_multiple_crts).
Proof.
  destruct (bucket_of_flags_cases (crt_flags_of text)) as (H0 & H2 & H1).
  split; [intros b; apply found_crt_iff |].
  split.
  { unfold crts_found_count. simpl.
    destruct (regex_search text DEBUG_STATIC_CRT),
      (regex_search text DEBUG_DYNAMIC_CRT),
      (regex_search text RELEASE_STATIC_CRT),
      (regex_search text RELEASE_DYNAMIC_CRT); reflexivity. }
  split; [exact H0 |]. split; [exact H2 |]. split.
  - intros E. destruct (H1 E) as (b & Eb & Hb). exists b. split; [exact Eb |].
    intros b'. rewrite <- found_crt_iff. apply Hb.
  - intros A B. apply H2.
    apply (two_flags_multiple _ DEBUG_STATIC RELEASE_DYNAMIC);
      [discriminate | now apply found_crt_iff | now apply found_crt_iff].
Qed.

Lemma occurs_in_longer (needle tail s : string) :
  occurs_in (needle ++ tail) s -> occurs_in needle s.
Proof.
  intros (pre & post & ->). exists pre, (tail ++ post).
  now rewrite string_app_assoc.
Qed.

Lemma occurs_not_followed_by_occurs (needle : string) (d : ascii) (s : string) :
  occurs_not_followed_by needle d s -> occurs_in needle s.
Proof. intros (pre & c & post & -> & _). now exists pre, (String c post). Qed.

(** C2: when every occurrence of LIBCMT in a text lies inside an occurrence
    of /DEFAULTLIB:LIBCMTD, the release-static marker is not found; when the
    text moreover has such an occurrence and no /DEFAULTLIB:MSVCRT, exactly
    one marker is found and the library is classified debug-static. *)
Theorem debug_static_marker_is_not_release_static (text : string) :
  Forall (fun i => 12 <= i /\ In (i - 12) (occurrences "/DEFAULTLIB:LIBCMTD" text))
         (occurrences "LIBCMT" text) ->
  found_release_static_crt (crt_flags_of text) = false /\
  (occurrences "/DEFAULTLIB:LIBCMTD" text <> [] ->
   occurrences "/DEFAULTLIB:MSVCRT" text = [] ->
   crts_found_count (crt_flags_of text) = 1 /\
   crt_bucket_of text = libs_with_crt DEBUG_STATIC).
Proof.
  intros H.
  assert (RS : found_release_static_crt (crt_flags_of text) = false).
  { apply (not_found_crt RELEASE_STATIC). intros (pre & c & post & E & N).
    rewrite Forall_forall in H.
    destruct (H (String.length pre + 12)) as [_ I].
    - apply In_occurrences. exists (pre ++ "/DEFAULTLIB:"), (String c post).
      split; [| rewrite string_length_app; reflexivity].
      rewrite E, (string_app_assoc pre). reflexivity.
    - replace (String.length pre + 12 - 12) with (String.length pre) in I by lia.
      apply In_occurrences in I as (pre' & post' & E' & L). rewrite E in E'.
      destruct (string_app_inv_length _ _ _ _ E' (eq_sym L)) as [_ E2].
      simpl in E2. injection E2 as -> _. now apply N. }
  split; [exact RS |]. intros D M.
  assert (DS : found_debug_static_crt (crt_flags_of text) = true).
  { apply (found_crt_iff DEBUG_STATIC). simpl.
    destruct (occurrences "/DEFAULTLIB:LIBCMTD" text) as [|i l] eqn:E; [now elim D |].
    assert (I : In i (occurrences "/DEFAULTLIB:LIBCMTD" text)) by (rewrite E; now left).
    apply In_occurrences in I as (pre & post & -> & _). now exists pre, post. }
  apply occurrences_nil in M.
  assert (DD : found_debug_dynamic_crt (crt_flags_of text) = false).
  { apply (not_found_crt DEBUG_DYNAMIC). intros O. apply M.
    now apply (occurs_in_longer "/DEFAULTLIB:MSVCRT" "D"). }
  assert (RD : found_release_dynamic_crt (crt_flags_of text) = false).
  { apply (not_found_crt RELEASE_DYNAMIC). intros O. apply M.
    now apply occurs_not_followed_by_occurs in O. }
  unfold crt_bucket_of, bucket_of_flags, crts_found_count.
  rewrite RS, DS, DD, RD. split; reflexivity.
Qed.

Lemma debug_static_marker_alone :
  Forall (fun i => 12 <= i
                   /\ In (i - 12) (occurrences "/DEFAULTLIB:LIBCMTD" "/DEFAULTLIB:LIBCMTD"))
         (occurrences "LIBCMT" "/DEFAULTLIB:LIBCMTD") /\
  found_release_static_crt (crt_flags_of "/DEFAULTLIB:LIBCMTD") = false /\
  crts_found_count (crt_flags_of "/DEFAULTLIB:LIBCMTD") = 1 /\
  crt_bucket_of "/DEFAULTLIB:LIBCMTD" = libs_with_crt DEBUG_STATIC.
Proof.
  assert (H : Forall (fun i => 12 <= i
                   /\ In (i - 12) (occurrences "/DEFAULTLIB:LIBCMTD" "/DEFAULTLIB:LIBCMTD"))
         (occurrences "LIBCMT" "/DEFAULTLIB:LIBCMTD")).
  { vm_compute. constructor; [split; [lia | now left] | constructor]. }
  split; [exact H |].
  destruct (debug_static_marker_is_not_release_static "/DEFAULTLIB:LIBCMTD" H)
    as [RS K].
  split; [exact RS |]. apply K; [vm_compute; discriminate | reflexivity].
Defined.

Lemma release_regex_before_the_end (marker pre : string) :
  regex_search (pre ++ marker) (literal marker ++ [NotChr "D"%char])%list = true <->
  exists i,
    In i (occurrences marker (pre ++ marker))
    /\ i <> String.length pre
    /\ ~ In i (occurrences (marker ++ "D") (pre ++ marker)).
Proof.
  rewrite search_literal_not. split.
  - intros (p & c & post & T & N). exists (String.length p). split; [| split].
    + apply In_occurrences. now exists p, (String c post).
    + intros L.
      assert (K : String.length (pre ++ marker)
                  = String.length (p ++ marker ++ String c post))
        by now rewrite T.
      rewrite !string_length_app in K. simpl in K. lia.
    + intros I. apply In_occurrences in I as (p' & post' & T' & L).
      rewrite T in T'.
      destruct (string_app_inv_length _ _ _ _ T' (eq_sym L)) as [_ E].
      rewrite string_app_assoc in E.
      destruct (string_app_inv_length _ _ _ _ E eq_refl) as [_ E'].
      simpl in E'. injection E' as -> _. now apply N.
  - intros (i & I & L & N).
    apply In_occurrences in I as (p & post & T & <-).
    destruct post as [| c post].
    + exfalso. apply L.
      assert (K : String.length (pre ++ marker)
                  = String.length (p ++ marker ++ ""))
        by now rewrite T.
      rewrite !string_length_app in K. simpl in K. lia.
    + exists p, c, post. split; [exact T |]. intros ->. apply N.
      apply In_occurrences. exists p, post. split; [| reflexivity].
      rewrite T, (string_app_assoc marker). reflexivity.
Qed.

Lemma occurrence_at_the_end (marker pre : string) :
  In (String.length pre) (occurrences marker (pre ++ marker)).
Proof.
  apply In_occurrences. exists pre, "". split; [| reflexivity].
  now rewrite string_app_nil_r.
Qed.

Lemma debug_regex_needs_occurrence_before_the_end (marker pre : string) :
  (forall i, In i (occurrences marker (pre ++ marker)) -> i = String.length pre) ->
  regex_search (pre ++ marker) (literal (marker ++ "D")) = false.
Proof.
  intros O. destruct (regex_search (pre ++ marker) (literal (marker ++ "D"))) eqn:F;
    [| reflexivity].
  apply search_literal in F as (p & post & T). rewrite string_app_assoc in T.
  assert (L : String.length p = String.length pre).
  { apply O, In_occurrences. now exists p, ("D" ++ post). }
  assert (K : String.length (pre ++ marker)
              = String.length (p ++ marker ++ "D" ++ post))
    by now rewrite T.
  rewrite !string_length_app in K. simpl in K. lia.
Qed.

Lemma no_occurrence_no_marker (other text : string) :
  occurrences other text = [] ->
  regex_search text (literal (other ++ "D")) = false
  /\ regex_search text (literal other ++ [NotChr "D"%char])%list = false.
Proof.
  intros O. apply occurrences_nil in O. split.
  - destruct (regex_search text (literal (other ++ "D"))) eqn:F; [| reflexivity].
    apply search_literal in F. now apply occurs_in_longer in F.
  - destruct (regex_search text (literal other ++ [NotChr "D"%char])%list) eqn:F;
      [| reflexivity].
    apply search_literal_not in F. now apply occurs_not_followed_by_occurs in F.
Qed.

(** C10, as the code has it: in a text that ends with /DEFAULTLIB:LIBCMT the
    occurrence at the end is never what the release-static regular expression
    matches, since [^D] needs one more character: the release-static marker
    is found exactly when /DEFAULTLIB:LIBCMT also occurs before the end
    without being the start of /DEFAULTLIB:LIBCMTD.  When the end is its only
    occurrence and /DEFAULTLIB:MSVCRT does not occur, no marker is found and
    the library goes to the ones with no detected linkage.  The same holds
    with /DEFAULTLIB:MSVCRT and the release-dynamic marker. *)
Theorem release_marker_ending_a_text (pre : string) :
  (In (String.length pre)
      (occurrences "/DEFAULTLIB:LIBCMT" (pre ++ "/DEFAULTLIB:LIBCMT")) /\
   (found_release_static_crt (crt_flags_of (pre ++ "/DEFAULTLIB:LIBCMT")) = true <->
    exists i,
      In i (occurrences "/DEFAULTLIB:LIBCMT" (pre ++ "/DEFAULTLIB:LIBCMT"))
      /\ i <> String.length pre
      /\ ~ In i (occurrences "/DEFAULTLIB:LIBCMTD" (pre ++ "/DEFAULTLIB:LIBCMT"))) /\
   ((forall i,
       In i (occurrences "/DEFAULTLIB:LIBCMT" (pre ++ "/DEFAULTLIB:LIBCMT")) ->
       i = String.length pre) ->
    found_release_static_crt (crt_flags_of (pre ++ "/DEFAULTLIB:LIBCMT")) = false /\
    found_debug_static_crt (crt_flags_of (pre ++ "/DEFAULTLIB:LIBCMT")) = false /\
    (occurrences "/DEFAULTLIB:MSVCRT" (pre ++ "/DEFAULTLIB:LIBCMT") = [] ->
     crts_found_count (crt_flags_of (pre ++ "/DEFAULTLIB:LIBCMT")) = 0 /\
     crt_bucket_of (pre ++ "/DEFAULTLIB:LIBCMT") = libs_with_no_crts))) /\
  (In (String.length pre)
      (occurrences "/DEFAULTLIB:MSVCRT" (pre ++ "/DEFAULTLIB:MSVCRT")) /\
   (found_release_dynamic_crt (crt_flags_of (pre ++ "/DEFAULTLIB:MSVCRT")) = true <->
    exists i,
      In i (occurrences "/DEFAULTLIB:MSVCRT" (pre ++ "/DEFAULTLIB:MSVCRT"))
      /\ i <> String.length pre
      /\ ~ In i (occurrences "/DEFAULTLIB:MSVCRTD" (pre ++ "/DEFAULTLIB:MSVCRT"))) /\
   ((forall i,
       In i (occurrences "/DEFAULTLIB:MSVCRT" (pre ++ "/DEFAULTLIB:MSVCRT")) ->
       i = String.length pre) ->
    found_release_dynamic_crt (crt_flags_of (pre ++ "/DEFAULTLIB:MSVCRT")) = false /\
    found_debug_dynamic_crt (crt_flags_of (pre ++ "/DEFAULTLIB:MSVCRT")) = false /\
    (occurrences "/DEFAULTLIB:LIBCMT" (pre ++ "/DEFAULTLIB:MSVCRT") = [] ->
     crts_found_count (crt_flags_of (pre ++ "/DEFAULTLIB:MSVCRT")) = 0 /\
     crt_bucket_of (pre ++ "/DEFAULTLIB:MSVCRT") = libs_with_no_crts))).
Proof.
  split.
  - pose proof (release_regex_before_the_end "/DEFAULTLIB:LIBCMT" pre) as R.
    split; [apply occurrence_at_the_end |]. split; [exact R |]. intros O.
    assert (RS : found_release_static_crt (crt_flags_of (pre ++ "/DEFAULTLIB:LIBCMT"))
                 = false).
    { destruct (found_release_static_crt _) eqn:F; [| reflexivity].
      apply R in F as (i & I & L & _). now elim L; apply O. }
    assert (DS : found_debug_static_crt (crt_flags_of (pre ++ "/DEFAULTLIB:LIBCMT"))
                 = false)
      by exact (debug_regex_needs_occurrence_before_the_end _ _ O).
    split; [exact RS |]. split; [exact DS |]. intros M.
    destruct (no_occurrence_no_marker _ _ M) as [DD RD].
    unfold crt_bucket_of, bucket_of_flags, crts_found_count.
    rewrite RS, DS.
    change (found_debug_dynamic_crt (crt_flags_of (pre ++ "/DEFAULTLIB:LIBCMT")))
      with (regex_search (pre ++ "/DEFAULTLIB:LIBCMT")
              (literal ("/DEFAULTLIB:MSVCRT" ++ "D"))).
    change (found_release_dynamic_crt (crt_flags_of (pre ++ "/DEFAULTLIB:LIBCMT")))
      with (regex_search (pre ++ "/DEFAULTLIB:LIBCMT")
              (literal "/DEFAULTLIB:MSVCRT" ++ [NotChr "D"%char])%list).
    rewrite DD, RD. split; reflexivity.
  - pose proof (release_regex_before_the_end "/DEFAULTLIB:MSVCRT" pre) as R.
    split; [apply occurrence_at_the_end |]. split; [exact R |]. intros O.
    assert (RD : found_release_dynamic_crt (crt_flags_of (pre ++ "/DEFAULTLIB:MSVCRT"))
                 = false).
    { destruct (found_release_dynamic_crt _) eqn:F; [| reflexivity].
      apply R in F as (i & I & L & _). now elim L; apply O. }
    assert (DD : found_debug_dynamic_crt (crt_flags_of (pre ++ "/DEFAULTLIB:MSVCRT"))
                 = false)
      by exact (debug_regex_needs_occurrence_before_the_end _ _ O).
    split; [exact RD |]. split; [exact DD |]. intros M.
    destruct (no_occurrence_no_marker _ _ M) as [DS RS].
    unfold crt_bucket_of, bucket_of_flags, crts_found_count.
    rewrite RD, DD.
    change (found_debug_static_crt (crt_flags_of (pre ++ "/DEFAULTLIB:MSVCRT")))
      with (regex_search (pre ++ "/DEFAULTLIB:MSVCRT")
              (literal ("/DEFAULTLIB:LIBCMT" ++ "D"))).
    change (found_release_static_crt (crt_flags_of (pre ++ "/DEFAULTLIB:MSVCRT")))
      with (regex_search (pre ++ "/DEFAULTLIB:MSVCRT")
              (literal "/DEFAULTLIB:LIBCMT" ++ [NotChr "D"%char])%list).
    rewrite DS, RS. split; reflexivity.
Qed.

Lemma release_static_marker_at_end :
  found_release_static_crt (crt_flags_of "/DEFAULTLIB:LIBCMT") = false /\
  crts_found_count (crt_flags_of "/DEFAULTLIB:LIBCMT") = 0 /\
  crt_bucket_of "/DEFAULTLIB:LIBCMT" = libs_with_no_crts /\
  found_release_static_crt
    (crt_flags_of "/DEFAULTLIB:LIBCMTD /DEFAULTLIB:LIBCMT") = false /\
  found_release_dynamic_crt (crt_flags_of "/DEFAULTLIB:MSVCRT") = false /\
  crt_bucket_of "/DEFAULTLIB:MSVCRT" = libs_with_no_crts.
Proof.
  destruct (release_marker_ending_a_text "") as [(_ & _ & S) (_ & _ & D)].
  destruct S as (RS & _ & KS).
  { intros i I. vm_compute in I. destruct I as [<- | []]. reflexivity. }
  destruct D as (RD & _ & KD).
  { intros i I. vm_compute in I. destruct I as [<- | []]. reflexivity. }
  destruct (KS eq_refl) as [CS BS]. destruct (KD eq_refl) as [_ BD].
  split; [exact RS |]. split; [exact CS |]. split; [exact BS |].
  split; [| split; [exact RD | exact BD]].
  destruct (release_marker_ending_a_text "/DEFAULTLIB:LIBCMTD ")
    as [(_ & R & _) _].
  apply Bool.not_true_is_false. intros F.
  apply R in F as (i & I & L & N). vm_compute in I.
  destruct I as [<- | [<- | []]]; [apply N; vm_compute; now left | now apply L].
Defined.

(** The claim C10 as it stands fails: a text can end with /DEFAULTLIB:LIBCMT,
    nothing following it, and hold no debug or dynamic marker, and still the
    release-static marker is found, in an earlier occurrence followed by a
    space; the library is then classified release-static. *)
Lemma release_marker_found_before_the_end :
  "/DEFAULTLIB:LIBCMT /DEFAULTLIB:LIBCMT"%string
  = ("/DEFAULTLIB:LIBCMT " ++ "/DEFAULTLIB:LIBCMT")%string /\
  occurrences "/DEFAULTLIB:LIBCMT" "/DEFAULTLIB:LIBCMT /DEFAULTLIB:LIBCMT"
  = [0; 19] /\
  found_debug_static_crt
    (crt_flags_of "/DEFAULTLIB:LIBCMT /DEFAULTLIB:LIBCMT") = false /\
  found_debug_dynamic_crt
    (crt_flags_of "/DEFAULTLIB:LIBCMT /DEFAULTLIB:LIBCMT") = false /\
  found_release_dynamic_crt
    (crt_flags_of "/DEFAULTLIB:LIBCMT /DEFAULTLIB:LIBCMT") = false /\
  found_release_static_crt
    (crt_flags_of "/DEFAULTLIB:LIBCMT /DEFAULTLIB:LIBCMT") = true /\
  crts_found_count (crt_flags_of "/DEFAULTLIB:LIBCMT /DEFAULTLIB:LIBCMT") = 1 /\
  crt_bucket_of "/DEFAULTLIB:LIBCMT /DEFAULTLIB:LIBCMT"
  = libs_with_crt RELEASE_STATIC /\
  crt_bucket_of "/DEFAULTLIB:LIBCMT /DEFAULTLIB:LIBCMT" <> libs_with_no_crts.
Proof.
  repeat split; try reflexivity. discriminate.
Qed.

(** ** Machine types *)

Lemma decimal_value_acc_pos (d : Decimal.uint) (acc : positive) :
  decimal_value_acc (Z.pos acc) (NilEmpty.string_of_uint d)
  = Some (Z.pos (Pos.of_uint_acc d acc)).
Proof.
  revert acc.
  induction d as [| d IH | d IH | d IH | d IH | d IH | d IH | d IH | d IH
                  | d IH | d IH]; intros acc;
    [reflexivity | ..];
    cbn [NilEmpty.string_of_uint decimal_value_acc Pos.of_uint_acc];
    match goal with
    | |- context [digit_value ?c] =>
        let v := eval vm_compute in (digit_value c) in
        change (digit_value c) with v
    end;
    cbv iota beta; rewrite <- IH; f_equal; lia.
Qed.

Lemma decimal_value_acc_zero (d : Decimal.uint) :
  decimal_value_acc 0 (NilEmpty.string_of_uint d)
  = Some (Z.of_N (Pos.of_uint d)).
Proof.
  induction d as [| d IH | d IH | d IH | d IH | d IH | d IH | d IH | d IH
                  | d IH | d IH];
    [reflexivity | exact IH | ..];
    cbn [NilEmpty.string_of_uint decimal_value_acc Pos.of_uint];
    match goal with
    | |- context [digit_value ?c] =>
        let v := eval vm_compute in (digit_value c) in
        change (digit_value c) with v
    end;
    cbv iota beta; apply decimal_value_acc_pos.
Qed.

Lemma decimal_value_to_string (n : Z) :
  (0 <= n)%Z -> decimal_value (to_string n) = Some n.
Proof.
  intros H. destruct n as [| p | p]; [reflexivity | | lia].
  unfold to_string. cbn [Z.to_int NilZero.string_of_int NilZero.string_of_uint].
  pose proof (DecimalPos.Unsigned.of_to p) as E.
  pose proof (decimal_value_acc_zero (Pos.to_uint p)) as V. rewrite E in V.
  destruct (Pos.to_uint p) eqn:U; try discriminate E;
    cbn [NilEmpty.string_of_uint decimal_value] in *; exact V.
Qed.

Section MachineTypeCodes.

Variables AMD64 IA64 I386 ARM ARMNT : Z.

(** C3: on a 16-bit code, with the five enumerators standing for different
    codes, [get_actual_architecture] gives x64 for AMD64 and IA64, x86 for
    I386, arm for ARM and ARMNT, and for every other code the text
    "Machine Type Code = " followed by decimal digits that denote the code.
    It is a total function: it gives a string on every code. *)
Theorem get_actual_architecture_table (code : Z) :
  NoDup [AMD64; IA64; I386; ARM; ARMNT] ->
  (0 <= code < 2 ^ 16)%Z ->
  (code = AMD64 \/ code = IA64 ->
   get_actual_architecture AMD64 IA64 I386 ARM ARMNT code = "x64") /\
  (code = I386 ->
   get_actual_architecture AMD64 IA64 I386 ARM ARMNT code = "x86") /\
  (code = ARM \/ code = ARMNT ->
   get_actual_architecture AMD64 IA64 I386 ARM ARMNT code = "arm") /\
  (~ In code [AMD64; IA64; I386; ARM; ARMNT] ->
   exists digits,
     get_actual_architecture AMD64 IA64 I386 ARM ARMNT code
     = "Machine Type Code = " ++ digits
     /\ decimal_value digits = Some code).
Proof.
  intros D R. unfold get_actual_architecture.
  assert (N : forall x y, x <> y -> Z.eqb x y = false)
    by (intros x y; apply Z.eqb_neq).
  inversion D as [| ? ? D1 Da]; subst. inversion Da as [| ? ? D2 Db]; subst.
  inversion Db as [| ? ? D3 Dc]; subst. inversion Dc as [| ? ? D4 _]; subst.
  simpl in D1, D2, D3, D4.
  repeat split.
  - intros [-> | ->]; [now rewrite Z.eqb_refl |].
    rewrite Z.eqb_refl. now rewrite orb_true_r.
  - intros ->. rewrite Z.eqb_refl.
    rewrite (N I386 AMD64), (N I386 IA64); [reflexivity | |]; intros E;
      rewrite E in *; tauto.
  - intros [-> | ->].
    + rewrite Z.eqb_refl.
      rewrite (N ARM AMD64), (N ARM IA64), (N ARM I386); [reflexivity | | |];
        intros E; rewrite E in *; tauto.
    + rewrite Z.eqb_refl.
      rewrite (N ARMNT AMD64), (N ARMNT IA64), (N ARMNT I386), orb_true_r;
        [reflexivity | | |]; intros E; rewrite E in *; tauto.
  - intros O. simpl in O.
    rewrite (N code AMD64), (N code IA64), (N code I386), (N code ARM),
      (N code ARMNT) by (intros E; apply O; rewrite E; tauto).
    simpl. exists (to_string code).
    rewrite Z.mod_small by exact R.
    split; [reflexivity | apply decimal_value_to_string; lia].
Qed.

End MachineTypeCodes.

Lemma get_actual_architecture_pe_codes :
  NoDup [pe_AMD64; pe_IA64; pe_I386; pe_ARM; pe_ARMNT] /\
  (0 <= 43620 < 2 ^ 16)%Z /\
  get_actual_architecture pe_AMD64 pe_IA64 pe_I386 pe_ARM pe_ARMNT pe_IA64 = "x64" /\
  get_actual_architecture pe_AMD64 pe_IA64 pe_I386 pe_ARM pe_ARMNT 43620
  = "Machine Type Code = 43620".
Proof.
  assert (D : NoDup [pe_AMD64; pe_IA64; pe_I386; pe_ARM; pe_ARMNT]).
  { repeat constructor; simpl; intros H;
      repeat (destruct H as [H | H]; [discriminate H |]); exact H. }
  assert (R : (0 <= 43620 < 2 ^ 16)%Z) by (split; [discriminate | reflexivity]).
  assert (R' : (0 <= pe_IA64 < 2 ^ 16)%Z)
    by (split; [discriminate | reflexivity]).
  split; [exact D |]. split; [exact R |]. split.
  - destruct (get_actual_architecture_table
                pe_AMD64 pe_IA64 pe_I386 pe_ARM pe_ARMNT pe_IA64 D R') as (X & _).
    apply X. now right.
  - reflexivity.
Defined.

(** ** Output of the printing helpers *)

Lemma In_join_occurs (sep c : string) (p : path) :
  In c p -> occurs_in c (join sep p).
Proof.
  induction p as [| x p IH]; intros I; [destruct I |].
  destruct p as [| y p].
  - destruct I as [-> | []]. exists ""%string, ""%string.
    cbn [join]. now rewrite string_app_nil_r.
  - change (join sep (x :: y :: p)) with (x ++ sep ++ join sep (y :: p))%string.
    destruct I as [-> | I].
    + now exists ""%string, (sep ++ join sep (y :: p))%string.
    + destruct (IH I) as (a & b & E). rewrite E.
      exists (x ++ sep ++ a)%string, b. now rewrite !string_app_assoc.
Qed.

Open Scope list_scope.

Lemma for_each_cons {A S : Type} (body : A -> S -> result S) (x : A)
  (l : list A) (s : S) :
  for_each body (x :: l) s = bind (body x s) (fun s' => for_each body l s').
Proof. reflexivity. Qed.

Lemma for_each_println {A : Type} (f : A -> string) (l : list A) :
  for_each (fun x (_ : unit) => println plain (f x)) l tt
  = Returned tt (map (fun x => (plain, f x)) l).
Proof.
  induction l as [|x l IH]; [reflexivity |].
  rewrite for_each_cons. unfold println at 1. cbn [bind]. rewrite IH. reflexivity.
Qed.

Lemma print_vector_of_files_eq (paths : list path) :
  print_vector_of_files paths = Returned tt (printed_files paths).
Proof.
  unfold print_vector_of_files, printed_files.
  rewrite for_each_println. reflexivity.
Qed.

Lemma In_printed_files_plain (c : color) (text : string) (paths : list path) :
  In (c, text) (printed_files paths) -> c = plain.
Proof.
  unfold printed_files. intros [E | H].
  - now injection E as <- _.
  - apply in_app_iff in H as [H | [E | []]].
    + apply in_map_iff in H as (p & E & _). now injection E as <- _.
    + now injection E as <- _.
Qed.

(** ** Matching numbers of debug and release binaries *)

Lemma check_matching_debug_and_release_binaries_eq
  (debug_binaries release_binaries : list path) :
  check_matching_debug_and_release_binaries debug_binaries release_binaries
  = if Nat.eqb (List.length debug_binaries) (List.length release_binaries)
    then Returned SUCCESS []
    else Returned ERROR_DETECTED
           ((warning, mismatching_number (List.length debug_binaries)
                        (List.length release_binaries))
            :: (plain, "Debug binaries") :: printed_files debug_binaries
            ++ (plain, "Release binaries") :: printed_files release_binaries
            ++ (if Nat.eqb (List.length debug_binaries) 0
                then [(warning, "Debug binaries were not found")] else [])
            ++ (if Nat.eqb (List.length release_binaries) 0
                then [(warning, "Release binaries were not found")] else [])
            ++ [(plain, "")]).
Proof.
  unfold check_matching_debug_and_release_binaries.
  destruct (Nat.eqb (List.length debug_binaries) (List.length release_binaries));
    [reflexivity |].
  rewrite !print_vector_of_files_eq.
  destruct (Nat.eqb (List.length debug_binaries) 0),
    (Nat.eqb (List.length release_binaries) 0);
    cbn [bind println ret app]; rewrite ?app_nil_r; reflexivity.
Qed.

(** C7: the parity check passes exactly when the two vectors have the same
    length, printing nothing; otherwise it reports, with a line that gives
    both counts in decimal, and it says that the debug (release) binaries
    were not found exactly when the debug (release) count is zero. *)
Theorem check_matching_debug_and_release_binaries_counts
  (debug_binaries release_binaries : list path) :
  exists s out,
    check_matching_debug_and_release_binaries debug_binaries release_binaries
    = Returned s out /\
    (s = SUCCESS <-> List.length debug_binaries = List.length release_binaries) /\
    (s = SUCCESS -> out = []) /\
    (s = ERROR_DETECTED ->
     In (warning, mismatching_number (List.length debug_binaries)
                    (List.length release_binaries)) out /\
     decimal_value (to_string (Z.of_nat (List.length debug_binaries)))
     = Some (Z.of_nat (List.length debug_binaries)) /\
     decimal_value (to_string (Z.of_nat (List.length release_binaries)))
     = Some (Z.of_nat (List.length release_binaries)) /\
     (In (warning, "Debug binaries were not found"%string) out
      <-> List.length debug_binaries = 0) /\
     (In (warning, "Release binaries were not found"%string) out
      <-> List.length release_binaries = 0)).
Proof.
  rewrite check_matching_debug_and_release_binaries_eq.
  destruct (Nat.eqb (List.length debug_binaries) (List.length release_binaries))
    eqn:E.
  - apply Nat.eqb_eq in E. exists SUCCESS, []. repeat split; auto; discriminate.
  - apply Nat.eqb_neq in E. eexists ERROR_DETECTED, _.
    split; [reflexivity |]. split; [split; [discriminate | intros; now elim E] |].
    split; [discriminate |]. intros _.
    split; [now left |].
    split; [apply decimal_value_to_string; lia |].
    split; [apply decimal_value_to_string; lia |].
    assert (K : forall text : string,
      text = "Debug binaries were not found"%string
      \/ text = "Release binaries were not found"%string ->
      forall rest : console,
      In (warning, text)
        ((warning, mismatching_number (List.length debug_binaries)
                     (List.length release_binaries))
         :: (plain, "Debug binaries"%string) :: printed_files debug_binaries
         ++ (plain, "Release binaries"%string) :: printed_files release_binaries
         ++ rest)
      -> In (warning, text) rest).
    { intros text T rest [H | [H | H]].
      - exfalso. unfold mismatching_number in H. simpl in H.
        destruct T as [-> | ->]; discriminate H.
      - discriminate H.
      - apply in_app_iff in H as [H | [H | H]].
        + apply In_printed_files_plain in H. discriminate H.
        + discriminate H.
        + apply in_app_iff in H as [H | H]; [| exact H].
          apply In_printed_files_plain in H. discriminate H. }
    split.
    + split.
      * intros H. apply K in H; [| now left].
        destruct (Nat.eqb (List.length debug_binaries) 0) eqn:D;
          [now apply Nat.eqb_eq in D |].
        exfalso. simpl in H.
        destruct (Nat.eqb (List.length release_binaries) 0);
          simpl in H; intuition discriminate.
      * intros D. rewrite D. right. right. apply in_or_app. right.
        right. apply in_or_app. right. now left.
    + split.
      * intros H. apply K in H; [| now right].
        destruct (Nat.eqb (List.length release_binaries) 0) eqn:D;
          [now apply Nat.eqb_eq in D |].
        exfalso.
        destruct (Nat.eqb (List.length debug_binaries) 0);
          simpl in H; intuition discriminate.
      * intros D. rewrite D. right. right. apply in_or_app. right.
        right. apply in_or_app. right. apply in_or_app. right. now left.
Qed.

Example two_debug_three_release :
  exists out,
    check_matching_debug_and_release_binaries
      [["debug"; "bin"; "a.dll"]; ["debug"; "bin"; "b.dll"]]
      [["bin"; "a.dll"]; ["bin"; "b.dll"]; ["bin"; "c.dll"]]
    = Returned ERROR_DETECTED
        ((warning,
          "Mismatching number of debug and release binaries. Found 2 for debug but 3 for release."%string)
         :: out).
Proof. eexists. reflexivity. Qed.

(** ** Checks that pass are silent *)

Lemma for_each_quiet {A S : Type} (body : A -> S -> result S) (l : list A) (s : S) :
  (forall x s, quiet (body x s)) -> quiet (for_each body l s).
Proof.
  intros Q. revert s. induction l as [|x l IH]; intros s; [reflexivity |].
  rewrite for_each_cons. specialize (Q x s).
  destruct (body x s) as [s' o | st o | m o]; cbn [bind quiet] in *; subst o;
    [| reflexivity ..].
  specialize (IH s'). destruct (for_each body l s'); cbn [quiet] in *;
    subst; reflexivity.
Qed.

Ltac split_ifs :=
  repeat match goal with
         | |- context [if ?b then _ else _] => destruct b
         end.

Ltac close_silent :=
  cbn [bind println ret app]; intros ? H;
  first [ discriminate H | now injection H as <- ].

Ltac silent_layout_check :=
  rewrite ?print_vector_of_files_eq; split_ifs; close_silent.

Lemma check_for_files_in_include_directory_silent w spec paths :
  silent_on_success (check_for_files_in_include_directory w spec paths).
Proof. unfold silent_on_success, check_for_files_in_include_directory. silent_layout_check. Qed.

Lemma check_for_files_in_debug_include_directory_silent w spec paths :
  silent_on_success (check_for_files_in_debug_include_directory w spec paths).
Proof.
  unfold silent_on_success, check_for_files_in_debug_include_directory.
  silent_layout_check.
Qed.

Lemma check_for_files_in_debug_share_directory_silent w spec paths :
  silent_on_success (check_for_files_in_debug_share_directory w spec paths).
Proof.
  unfold silent_on_success, check_for_files_in_debug_share_directory.
  silent_layout_check.
Qed.

Lemma check_folder_lib_cmake_silent w spec paths :
  silent_on_success (check_folder_lib_cmake w spec paths).
Proof. unfold silent_on_success, check_folder_lib_cmake. silent_layout_check. Qed.

Lemma check_for_misplaced_cmake_files_silent w spec paths :
  silent_on_success (check_for_misplaced_cmake_files w spec paths).
Proof.
  unfold silent_on_success, check_for_misplaced_cmake_files. cbv zeta.
  silent_layout_check.
Qed.

Lemma check_folder_debug_lib_cmake_silent w spec paths :
  silent_on_success (check_folder_debug_lib_cmake w spec paths).
Proof. unfold silent_on_success, check_folder_debug_lib_cmake. silent_layout_check. Qed.

Lemma check_for_dlls_in_lib_dirs_silent w spec paths :
  silent_on_success (check_for_dlls_in_lib_dirs w spec paths).
Proof.
  unfold silent_on_success, check_for_dlls_in_lib_dirs. cbv zeta.
  silent_layout_check.
Qed.

Lemma check_for_copyright_file_silent w spec paths :
  silent_on_success (check_for_copyright_file w spec paths).
Proof.
  unfold silent_on_success, check_for_copyright_file. cbv zeta.
  destruct (fs_exists _ _); [close_silent |].
  match goal with
  | |- context [match ?l with [] => _ | _ :: _ => _ end] =>
      destruct l as [| ? [| ? ?]]
  end; rewrite ?print_vector_of_files_eq; split_ifs; close_silent.
Qed.

Lemma check_for_exes_silent w spec paths :
  silent_on_success (check_for_exes w spec paths).
Proof. unfold silent_on_success, check_for_exes. cbv zeta. silent_layout_check. Qed.

Lemma check_matching_debug_and_release_binaries_silent d r :
  silent_on_success (check_matching_debug_and_release_binaries d r).
Proof.
  unfold silent_on_success.
  rewrite check_matching_debug_and_release_binaries_eq. split_ifs; close_silent.
Qed.

Lemma check_no_dlls_present_silent dlls :
  silent_on_success (check_no_dlls_present dlls).
Proof. unfold silent_on_success, check_no_dlls_present. silent_layout_check. Qed.

Lemma check_bin_folders_silent w spec paths :
  silent_on_success (check_bin_folders_are_not_present_in_static_build w spec paths).
Proof.
  unfold silent_on_success, check_bin_folders_are_not_present_in_static_build.
  cbv zeta. silent_layout_check.
Qed.

Lemma check_no_empty_folders_silent w dir :
  silent_on_success (check_no_empty_folders w dir).
Proof. unfold silent_on_success, check_no_empty_folders. cbv zeta. silent_layout_check. Qed.

Lemma check_exit_quiet (e : bool) (msg : string) : quiet (check_exit e msg).
Proof. destruct e; reflexivity. Qed.

(** A loop that prints nothing, followed by a report or by [ret SUCCESS]. *)
Lemma loop_then_report_silent {S : Type} (loop : result S)
  (report : S -> result lint_status) :
  quiet loop ->
  (forall v, silent_on_success (report v)) ->
  silent_on_success (v <- loop ;; report v).
Proof.
  intros Q R out. destruct loop as [v o | st o | m o]; cbn [bind quiet] in *;
    [| discriminate ..].
  subst o. specialize (R v). destruct (report v) as [s o' | |]; [| discriminate ..].
  cbn [app]. intros H. injection H as -> <-. now apply R.
Qed.

Lemma dumpbin_loop_quiet w mode marker dlls :
  quiet
    (for_each
       (fun dll acc =>
          let cmd_line := dumpbin_cmd_line mode dll in
          let ec_data := cmd_execute_and_capture_output w cmd_line in
          check_exit (Z.eqb (exit_code ec_data) 0) (running_command_failed cmd_line) ;;
          if is_npos (find (output ec_data) marker)
          then ret (acc ++ [dll]) else ret acc)
       dlls []).
Proof.
  apply for_each_quiet. intros x s. cbv zeta.
  destruct (Z.eqb _ _); cbn [check_exit bind ret quiet]; [| reflexivity].
  destruct (is_npos _); reflexivity.
Qed.

Lemma check_exports_of_dlls_silent w dlls :
  silent_on_success (check_exports_of_dlls w dlls).
Proof.
  unfold check_exports_of_dlls. apply loop_then_report_silent.
  - apply dumpbin_loop_quiet.
  - intros v. unfold silent_on_success. silent_layout_check.
Qed.

Lemma check_uwp_bit_of_dlls_silent w expected_system_name dlls :
  silent_on_success (check_uwp_bit_of_dlls w expected_system_name dlls).
Proof.
  unfold check_uwp_bit_of_dlls.
  destruct (negb (String.eqb expected_system_name "uwp"));
    [unfold silent_on_success; close_silent |].
  apply loop_then_report_silent.
  - apply dumpbin_loop_quiet.
  - intros v. unfold silent_on_success. silent_layout_check.
Qed.

Lemma for_each_prints {A : Type} (f : A -> console) (body : A -> unit -> result unit)
  (l : list A) :
  (forall x, body x tt = Returned tt (f x)) ->
  for_each body l tt = Returned tt (flat_map f l).
Proof.
  intros B. induction l as [|x l IH]; [reflexivity |].
  rewrite for_each_cons, B. cbn [bind]. rewrite IH. reflexivity.
Qed.

Lemma print_invalid_architecture_files_returns expected_architecture binaries :
  exists out,
    print_invalid_architecture_files expected_architecture binaries
    = Returned tt out.
Proof.
  unfold print_invalid_architecture_files.
  erewrite for_each_prints by (intros x; reflexivity).
  eexists. reflexivity.
Qed.

(** ** The orchestrator as a fold over the battery *)

Section Orchestrator.

Variables AMD64 IA64 I386 ARM ARMNT : Z.
Variable linkage_type_value_of : string -> LinkageType.

Local Notation perform :=
  (perform_all_checks AMD64 IA64 I386 ARM ARMNT linkage_type_value_of).
Local Notation the_battery :=
  (battery AMD64 IA64 I386 ARM ARMNT linkage_type_value_of).
Local Notation the_common_checks := (common_checks AMD64 IA64 I386 ARM ARMNT).

Tactic Notation "step_check" open_constr(pat) :=
  match goal with
  | |- context [bind ?c _] => unify c pat; destruct c as [? ? | ? ? | ? ?]
  end;
  cbn [bind println ret run_checks app exit];
  [ | rewrite <- ?app_assoc; reflexivity ..].

Ltac step_common_checks :=
  step_check (check_for_files_in_include_directory _ _ _);
  step_check (check_for_files_in_debug_include_directory _ _ _);
  step_check (check_for_files_in_debug_share_directory _ _ _);
  step_check (check_folder_lib_cmake _ _ _);
  step_check (check_for_misplaced_cmake_files _ _ _);
  step_check (check_folder_debug_lib_cmake _ _ _);
  step_check (check_for_dlls_in_lib_dirs _ _ _);
  step_check (check_for_copyright_file _ _ _);
  step_check (check_for_exes _ _ _);
  step_check (check_matching_debug_and_release_binaries _ _);
  step_check (check_lib_architecture _ _ _ _ _ _ _ _).

Lemma perform_all_checks_as_battery
  (w : world) (spec : package_spec) (paths : vcpkg_paths) :
  perform w spec paths
  = (println plain "-- Performing post-build validation" ;;
     error_count <- run_checks (the_battery w spec paths) 0%Z ;;
     if negb (Z.eqb error_count 0) then
       println error
         ("Found " ++ to_string error_count
          ++ " error(s). Please correct the portfile:" ++ nl ++ "    "
          ++ native (ports paths // name spec // "portfile.cmake")) ;;
       exit EXIT_FAILURE
     else println plain "-- Performing post-build validation done").
Proof.
  unfold perform_all_checks, battery, common_checks,
    linkage_checks, unknown_library_linkage, debug_libs_of, release_libs_of,
    debug_dlls_of, release_dlls_of, recursive_find_files_with_extension_in_dir.
  cbv zeta.
  destruct (linkage_type_value_of _); cbn [app]; step_common_checks.
  - step_check (check_matching_debug_and_release_binaries _ _).
    step_check (check_exports_of_dlls _ _).
    step_check (check_uwp_bit_of_dlls _ _ _).
    step_check (check_dll_architecture _ _ _ _ _ _ _ _).
    step_check (check_no_empty_folders _ _).
    rewrite ?app_nil_r.
    match goal with |- context [negb ?b] => destruct b end;
      cbn [negb bind println exit app]; rewrite <- ?app_assoc; reflexivity.
  - step_check (check_no_dlls_present _).
    step_check (check_bin_folders_are_not_present_in_static_build _ _ _).
    step_check (check_no_empty_folders _ _).
    rewrite ?app_nil_r.
    match goal with |- context [negb ?b] => destruct b end;
      cbn [negb bind println exit app]; rewrite <- ?app_assoc; reflexivity.
  - step_check (check_no_empty_folders _ _).
    rewrite ?app_nil_r. cbv [add_status lint_status_value].
    match goal with |- context [negb ?b] => destruct b end;
      cbn [negb bind println exit app]; rewrite <- ?app_assoc; reflexivity.
Qed.

Lemma check_dll_architecture_silent w expected_architecture files :
  silent_on_success
    (check_dll_architecture AMD64 IA64 I386 ARM ARMNT w expected_architecture files).
Proof.
  unfold check_dll_architecture. apply loop_then_report_silent.
  - apply for_each_quiet. intros x s. cbv zeta.
    destruct (String.eqb (extension x) ".dll"); cbn [check_exit bind ret quiet];
      [| reflexivity].
    destruct (negb _); reflexivity.
  - intros v. unfold silent_on_success.
    destruct (print_invalid_architecture_files_returns expected_architecture v)
      as [o ->].
    split_ifs; close_silent.
Qed.

Lemma check_lib_architecture_silent w expected_architecture files :
  silent_on_success
    (check_lib_architecture AMD64 IA64 I386 ARM ARMNT w expected_architecture files).
Proof.
  unfold check_lib_architecture. apply loop_then_report_silent.
  - apply for_each_quiet. intros x s. cbv zeta.
    destruct (String.eqb (extension x) ".lib"); cbn [check_exit bind ret quiet];
      [| reflexivity].
    destruct (Nat.eqb _ 1); cbn [bind ret quiet app]; [| reflexivity].
    destruct (negb _); reflexivity.
  - intros v. unfold silent_on_success.
    destruct (print_invalid_architecture_files_returns expected_architecture v)
      as [o ->].
    split_ifs; close_silent.
Qed.

Lemma battery_silent (w : world) (spec : package_spec) (paths : vcpkg_paths) :
  Forall silent_on_success (the_battery w spec paths).
Proof.
  unfold battery, common_checks, linkage_checks.
  apply Forall_app; split; [| apply Forall_app; split].
  - repeat constructor;
      auto using check_for_files_in_include_directory_silent,
        check_for_files_in_debug_include_directory_silent,
        check_for_files_in_debug_share_directory_silent,
        check_folder_lib_cmake_silent, check_for_misplaced_cmake_files_silent,
        check_folder_debug_lib_cmake_silent, check_for_dlls_in_lib_dirs_silent,
        check_for_copyright_file_silent, check_for_exes_silent,
        check_matching_debug_and_release_binaries_silent,
        check_lib_architecture_silent.
  - destruct (linkage_type_value_of _); repeat constructor;
      auto using check_matching_debug_and_release_binaries_silent,
        check_exports_of_dlls_silent, check_uwp_bit_of_dlls_silent,
        check_dll_architecture_silent, check_no_dlls_present_silent,
        check_bin_folders_silent.
    unfold unknown_library_linkage, silent_on_success. close_silent.
  - repeat constructor. apply check_no_empty_folders_silent.
Qed.

Lemma battery_length (w : world) (spec : package_spec) (paths : vcpkg_paths) :
  (List.length (the_battery w spec paths) <= 16)%nat.
Proof.
  unfold battery, common_checks, linkage_checks.
  rewrite !length_app. destruct (linkage_type_value_of _); simpl; lia.
Qed.

Lemma violations_cons (r : lint_status * console) (rs : list (lint_status * console)) :
  Z.of_nat (violations (r :: rs))
  = (lint_status_value (fst r) + Z.of_nat (violations rs))%Z.
Proof.
  unfold violations. cbn [filter]. unfold is_violation at 1.
  destruct (fst r); cbn [List.length lint_status_value]; lia.
Qed.

Lemma violations_app (rs rs' : list (lint_status * console)) :
  violations (rs ++ rs') = (violations rs + violations rs')%nat.
Proof. unfold violations. now rewrite filter_app, length_app. Qed.

Lemma violations_le_length (rs : list (lint_status * console)) :
  (violations rs <= List.length rs)%nat.
Proof. apply filter_length_le. Qed.

(** The counter of a run over checks that all return: as long as it stays
    below 2^64 it is the number of violations. *)
Lemma run_checks_returns (checks : list (result lint_status))
  (rs : list (lint_status * console)) (error_count : Z) :
  Forall2 returns checks rs ->
  (0 <= error_count)%Z ->
  (error_count + Z.of_nat (List.length checks) < 2 ^ 64)%Z ->
  run_checks checks error_count
  = Returned (error_count + Z.of_nat (violations rs))%Z (List.concat (map snd rs)).
Proof.
  intros F. revert error_count.
  induction F as [| c r cs rs R F IH]; intros error_count P B.
  - cbn [run_checks violations filter List.length map List.concat].
    unfold ret. f_equal. simpl. lia.
  - cbn [run_checks]. rewrite R. cbn [bind].
    cbn [List.length] in B.
    assert (V : (0 <= lint_status_value (fst r) <= 1)%Z)
      by (destruct (fst r); simpl; lia).
    assert (A : add_status error_count (fst r)
                = (error_count + lint_status_value (fst r))%Z).
    { unfold add_status. apply Z.mod_small. lia. }
    rewrite IH by (rewrite A; lia).
    rewrite A, violations_cons. cbn [map List.concat]. f_equal. lia.
Qed.

Lemma verdict_of_run (spec : package_spec) (paths : vcpkg_paths)
  (rs : list (lint_status * console)) :
  (println plain "-- Performing post-build validation" ;;
   error_count <-
     Returned (0 + Z.of_nat (violations rs))%Z (List.concat (map snd rs)) ;;
   if negb (Z.eqb error_count 0) then
     println error
       ("Found " ++ to_string error_count
        ++ " error(s). Please correct the portfile:" ++ nl ++ "    "
        ++ native (ports paths // name spec // "portfile.cmake")) ;;
     exit EXIT_FAILURE
   else println plain "-- Performing post-build validation done")
  = verdict spec paths rs.
Proof.
  unfold verdict, error_report, validation_header, validation_done.
  rewrite Z.add_0_l.
  destruct (violations rs) as [|n] eqn:E.
  - reflexivity.
  - replace (Z.eqb (Z.of_nat (S n)) 0) with false by (symmetry; apply Z.eqb_neq; lia).
    reflexivity.
Qed.

Lemma perform_all_checks_verdict
  (w : world) (spec : package_spec) (paths : vcpkg_paths)
  (rs : list (lint_status * console)) :
  Forall2 returns (the_battery w spec paths) rs ->
  perform w spec paths = verdict spec paths rs.
Proof.
  intros F. rewrite perform_all_checks_as_battery.
  rewrite (run_checks_returns _ rs) by
    (try exact F; try lia;
     pose proof (battery_length w spec paths);
     change (2 ^ 64)%Z with 18446744073709551616%Z; lia).
  apply verdict_of_run.
Qed.

Lemma no_violations_no_output (checks : list (result lint_status))
  (rs : list (lint_status * console)) :
  Forall2 returns checks rs -> Forall silent_on_success checks ->
  violations rs = 0%nat -> List.concat (map snd rs) = [].
Proof.
  induction 1 as [| c r cs rs R F IH]; intros S V; [reflexivity |].
  inversion S as [| ? ? Sc Scs]; subst.
  unfold violations in V. cbn [filter] in V. unfold is_violation at 1 in V.
  unfold returns in R. destruct r as [s o]. cbn [fst snd] in *.
  destruct s; [| discriminate V].
  cbn [map List.concat snd]. rewrite (Sc o R), (IH Scs V). reflexivity.
Qed.

(** C4: when every check of the battery runs to its end (no dumpbin run or
    file reading is fatal), whatever the checks report, [perform_all_checks]
    has run all of them in the order of the battery: its output is the
    header, the output of every check in that order, and a last line; its
    counter is the number of checks that reported a violation.  With no
    violation it returns, the last line being the closing one (and nothing
    else printed between header and closing line); otherwise it exits with
    EXIT_FAILURE, which is not zero, the last line being the error report:
    an error line that gives the count in decimal and in which every
    component of [<ports>/<name>/portfile.cmake] occurs. *)
Theorem perform_all_checks_runs_whole_battery
  (w : world) (spec : package_spec) (paths : vcpkg_paths)
  (rs : list (lint_status * console)) :
  Forall2 returns (the_battery w spec paths) rs ->
  perform w spec paths = verdict spec paths rs /\
  (violations rs = 0%nat <->
   perform w spec paths = Returned tt [validation_header; validation_done]) /\
  (violations rs <> 0%nat <->
   perform w spec paths
   = Exited EXIT_FAILURE
       (validation_header :: List.concat (map snd rs)
        ++ [error_report spec paths (violations rs)])) /\
  EXIT_FAILURE <> 0%Z /\
  fst (error_report spec paths (violations rs)) = error /\
  (exists before,
     snd (error_report spec paths (violations rs))
     = ("Found " ++ to_string (Z.of_nat (violations rs)) ++ before)%string
     /\ decimal_value (to_string (Z.of_nat (violations rs)))
        = Some (Z.of_nat (violations rs))) /\
  (forall c,
     In c (ports paths ++ [name spec; "portfile.cmake"%string]) ->
     occurs_in c (snd (error_report spec paths (violations rs)))).
Proof.
  intros F. pose proof (perform_all_checks_verdict w spec paths rs F) as E.
  split; [exact E |].
  assert (T : (violations rs = 0%nat <->
               verdict spec paths rs
               = Returned tt [validation_header; validation_done]) /\
              (violations rs <> 0%nat <->
               verdict spec paths rs
               = Exited EXIT_FAILURE
                   (validation_header :: List.concat (map snd rs)
                    ++ [error_report spec paths (violations rs)]))).
  { unfold verdict.
    destruct (violations rs) as [|n] eqn:V; cbn [Nat.eqb].
    - rewrite (no_violations_no_output _ rs F (battery_silent w spec paths) V).
      split; split; intros H; try reflexivity; try discriminate H. now elim H.
    - split; split; intros H; try reflexivity; try discriminate H. discriminate. }
  rewrite E. destruct T as [T0 T1].
  split; [exact T0 |]. split; [exact T1 |]. split; [discriminate |].
  split; [reflexivity |]. split.
  - eexists. split; [reflexivity |]. apply decimal_value_to_string. lia.
  - intros c I. unfold error_report. cbn [snd].
    assert (J : occurs_in c (native (ports paths // name spec // "portfile.cmake"))).
    { apply In_join_occurs. unfold path_append. rewrite <- app_assoc. exact I. }
    destruct J as (a & b & ->).
    exists ("Found " ++ to_string (Z.of_nat (violations rs))
            ++ " error(s). Please correct the portfile:" ++ nl ++ "    " ++ a)%string,
      b.
    now rewrite !string_app_assoc.
Qed.


(** ** An unknown linkage type *)

Lemma returns_intro (c : result lint_status) (s : lint_status) (o : console) :
  c = Returned s o -> exists r, returns c r.
Proof. intros ->. now exists (s, o). Qed.

Ltac layout_check_returns :=
  cbv zeta; rewrite ?print_vector_of_files_eq; split_ifs;
  cbn [bind println ret app]; eapply returns_intro; reflexivity.

Lemma check_no_empty_folders_returns w dir :
  exists r, returns (check_no_empty_folders w dir) r.
Proof. unfold check_no_empty_folders. layout_check_returns. Qed.

Lemma Forall2_returns_app (cs cs' : list (result lint_status))
  (rs rs' : list (lint_status * console)) :
  Forall2 returns cs rs -> Forall2 returns cs' rs' ->
  Forall2 returns (cs ++ cs') (rs ++ rs').
Proof. intros F F'. now apply Forall2_app. Qed.

(** C8: when [library_linkage] is read as UNKNOWN, the run is not cut short:
    after the common checks the unknown value counts as one violation, with
    its warning, then [check_no_empty_folders] runs, and the run ends as any
    other run does, on the common violations plus one plus what the last
    check found. *)
Theorem unknown_library_linkage_is_one_violation
  (w : world) (spec : package_spec) (paths : vcpkg_paths)
  (rs : list (lint_status * console)) :
  linkage_type_value_of
    (library_linkage (read_build_info w (build_info_file_path paths spec)))
  = UNKNOWN ->
  Forall2 returns (the_common_checks w spec paths) rs ->
  exists last,
    returns (check_no_empty_folders w (packages paths // dir spec)) last /\
    perform w spec paths
    = verdict spec paths
        (rs ++ [unknown_library_linkage_report
                  (read_build_info w (build_info_file_path paths spec));
                last]) /\
    violations
      (rs ++ [unknown_library_linkage_report
                (read_build_info w (build_info_file_path paths spec));
              last])
    = (violations rs + 1 + violations [last])%nat.
Proof.
  intros U F.
  destruct (check_no_empty_folders_returns w (packages paths // dir spec))
    as [last L].
  exists last. split; [exact L |]. split.
  - apply perform_all_checks_verdict. unfold battery, linkage_checks.
    rewrite U. apply Forall2_returns_app; [exact F |].
    constructor; [reflexivity | constructor; [exact L | constructor]].
  - rewrite violations_app.
    change [?a; last] with ([a] ++ [last]). rewrite violations_app.
    unfold violations at 2. cbn. lia.
Qed.

(** ** Libraries with several machine types *)

Lemma check_lib_architecture_loop
  (w : world) (expected_architecture : string) (files : list path)
  (acc : list file_and_arch) :
  (Forall (fun f => extension f = ".lib"%string
                    /\ List.length (read_lib w f) = 1%nat) files
   /\ exists acc',
       for_each
         (fun file binaries_with_invalid_architecture =>
            check_exit (String.eqb (extension file) ".lib")
              ("The file extension was not .lib: " ++ generic_string file) ;;
            let machine_types := read_lib w file in
            check_exit (Nat.eqb (List.length machine_types) 1)
              ("Found more than 1 architecture in file " ++ generic_string file) ;;
            let actual_architecture :=
              get_actual_architecture AMD64 IA64 I386 ARM ARMNT
                (hd 0%Z machine_types) in
            if negb (String.eqb expected_architecture actual_architecture)
            then ret (binaries_with_invalid_architecture
                      ++ [{| file := file; actual_arch := actual_architecture |}])
            else ret binaries_with_invalid_architecture)
         files acc
       = Returned acc' [])
  \/ (exists f,
       In f files /\
       for_each
         (fun file binaries_with_invalid_architecture =>
            check_exit (String.eqb (extension file) ".lib")
              ("The file extension was not .lib: " ++ generic_string file) ;;
            let machine_types := read_lib w file in
            check_exit (Nat.eqb (List.length machine_types) 1)
              ("Found more than 1 architecture in file " ++ generic_string file) ;;
            let actual_architecture :=
              get_actual_architecture AMD64 IA64 I386 ARM ARMNT
                (hd 0%Z machine_types) in
            if negb (String.eqb expected_architecture actual_architecture)
            then ret (binaries_with_invalid_architecture
                      ++ [{| file := file; actual_arch := actual_architecture |}])
            else ret binaries_with_invalid_architecture)
         files acc
       = Fatal
           (if String.eqb (extension f) ".lib"
            then "Found more than 1 architecture in file " ++ generic_string f
            else "The file extension was not .lib: " ++ generic_string f)%string
           []
       /\ (extension f = ".lib"%string -> List.length (read_lib w f) <> 1%nat)).
Proof.
  cbv zeta. revert acc. induction files as [|x files IH]; intros acc.
  - left. split; [constructor | now exists acc].
  - rewrite for_each_cons. cbv beta.
    destruct (String.eqb (extension x) ".lib") eqn:X.
    + destruct (Nat.eqb (List.length (read_lib w x)) 1) eqn:N.
      * cbn [check_exit bind ret app].
        apply String.eqb_eq in X. apply Nat.eqb_eq in N.
        match goal with
        | |- context [if ?b then ret ?a else ret ?a'] =>
            replace (if b then ret a else ret a')
              with (Returned (if b then a else a') (@nil (color * string)))
              by (destruct b; reflexivity);
            destruct (IH (if b then a else a')) as [[F [acc' E]] | (f & I & E & L)]
        end.
        -- left. split; [constructor; [now split | exact F] |].
           exists acc'. cbn [bind app]. now rewrite E.
        -- right. exists f. split; [now right |]. split; [| exact L].
           cbn [bind app]. now rewrite E.
      * right. exists x. split; [now left |]. rewrite X. split.
        -- reflexivity.
        -- intros _. now apply Nat.eqb_neq in N.
    + right. exists x. split; [now left |]. rewrite X. split.
      * reflexivity.
      * intros E. apply String.eqb_eq in E. congruence.
Qed.

Lemma found_files_have_extension (root : node) (dir : path) (ext : string)
  (f : path) :
  In f (recursive_find_files_with_extension_in_dir root dir ext) ->
  extension f = ext.
Proof.
  unfold recursive_find_files_with_extension_in_dir,
    recursive_find_files_with_extension_in_dir_into,
    recursive_find_matching_paths_in_dir_into.
  cbn [app]. intros H. apply filter_In in H as [_ H].
  apply andb_true_iff in H as [_ H]. now apply String.eqb_eq.
Qed.


Lemma layout_checks_return (w : world) (spec : package_spec) (paths : vcpkg_paths) :
  exists rs,
    Forall2 returns
      [ check_for_files_in_include_directory w spec paths;
        check_for_files_in_debug_include_directory w spec paths;
        check_for_files_in_debug_share_directory w spec paths;
        check_folder_lib_cmake w spec paths;
        check_for_misplaced_cmake_files w spec paths;
        check_folder_debug_lib_cmake w spec paths;
        check_for_dlls_in_lib_dirs w spec paths;
        check_for_copyright_file w spec paths;
        check_for_exes w spec paths;
        check_matching_debug_and_release_binaries
          (debug_libs_of w spec paths) (release_libs_of w spec paths) ]
      rs.
Proof.
  assert (R1 : exists r, returns (check_for_files_in_include_directory w spec paths) r)
    by (unfold check_for_files_in_include_directory; layout_check_returns).
  assert (R2 : exists r,
             returns (check_for_files_in_debug_include_directory w spec paths) r)
    by (unfold check_for_files_in_debug_include_directory; layout_check_returns).
  assert (R3 : exists r,
             returns (check_for_files_in_debug_share_directory w spec paths) r)
    by (unfold check_for_files_in_debug_share_directory; layout_check_returns).
  assert (R4 : exists r, returns (check_folder_lib_cmake w spec paths) r)
    by (unfold check_folder_lib_cmake; layout_check_returns).
  assert (R5 : exists r, returns (check_for_misplaced_cmake_files w spec paths) r)
    by (unfold check_for_misplaced_cmake_files; layout_check_returns).
  assert (R6 : exists r, returns (check_folder_debug_lib_cmake w spec paths) r)
    by (unfold check_folder_debug_lib_cmake; layout_check_returns).
  assert (R7 : exists r, returns (check_for_dlls_in_lib_dirs w spec paths) r)
    by (unfold check_for_dlls_in_lib_dirs; layout_check_returns).
  assert (R8 : exists r, returns (check_for_copyright_file w spec paths) r).
  { unfold check_for_copyright_file. cbv zeta.
    destruct (fs_exists _ _); [eapply returns_intro; reflexivity |].
    match goal with
    | |- context [match ?l with [] => _ | _ :: _ => _ end] =>
        destruct l as [| ? [| ? ?]]
    end; layout_check_returns. }
  assert (R9 : exists r, returns (check_for_exes w spec paths) r)
    by (unfold check_for_exes; layout_check_returns).
  assert (R10 : exists r,
             returns (check_matching_debug_and_release_binaries
                        (debug_libs_of w spec paths) (release_libs_of w spec paths)) r)
    by (rewrite check_matching_debug_and_release_binaries_eq;
        destruct (Nat.eqb _ _); eapply returns_intro; reflexivity).
  destruct R1 as [r1 R1], R2 as [r2 R2], R3 as [r3 R3], R4 as [r4 R4],
    R5 as [r5 R5], R6 as [r6 R6], R7 as [r7 R7], R8 as [r8 R8], R9 as [r9 R9],
    R10 as [r10 R10].
  exists [r1; r2; r3; r4; r5; r6; r7; r8; r9; r10].
  repeat (constructor; [assumption |]). constructor.
Qed.

Lemma run_checks_fatal (checks rest : list (result lint_status))
  (rs : list (lint_status * console)) (c : result lint_status)
  (msg : string) (o : console) (error_count : Z) :
  Forall2 returns checks rs -> c = Fatal msg o ->
  run_checks (checks ++ c :: rest) error_count
  = Fatal msg (List.concat (map snd rs) ++ o).
Proof.
  intros F ->. revert error_count.
  induction F as [| c' r cs rs R F IH]; intros error_count.
  - reflexivity.
  - cbn [app run_checks]. rewrite R. cbn [bind]. rewrite IH.
    cbn [map List.concat]. now rewrite app_assoc.
Qed.

Lemma failed_dumpbin_run_is_fatal (w : world) (dll : path) (dlls : list path) :
  exit_code (cmd_execute_and_capture_output w (dumpbin_cmd_line "/exports" dll))
  <> 0%Z ->
  check_exports_of_dlls w (dll :: dlls)
  = Fatal (running_command_failed (dumpbin_cmd_line "/exports" dll)) [].
Proof.
  intros E. apply Z.eqb_neq in E. unfold check_exports_of_dlls. cbv zeta.
  rewrite for_each_cons. cbv beta. rewrite E. reflexivity.
Qed.

(** C9: a library for which the COFF reader reports several machine types
    makes [check_lib_architecture] end in a fatal exit, on whatever list of
    files it stands, and with it the whole of [perform_all_checks], which
    reports "Found more than 1 architecture" for a library whose number of
    machine types is not one; no error is counted.  When the check returns,
    every file it compared had exactly one machine type. *)
Theorem several_machine_types_are_fatal
  (w : world) (spec : package_spec) (paths : vcpkg_paths) (lib : path) :
  In lib (debug_libs_of w spec paths ++ release_libs_of w spec paths) ->
  (1 < List.length (read_lib w lib))%nat ->
  (forall expected_architecture files,
     In lib files ->
     exists msg out,
       check_lib_architecture AMD64 IA64 I386 ARM ARMNT w expected_architecture files
       = Fatal msg out) /\
  (exists f out,
     In f (debug_libs_of w spec paths ++ release_libs_of w spec paths) /\
     List.length (read_lib w f) <> 1%nat /\
     perform w spec paths
     = Fatal ("Found more than 1 architecture in file " ++ generic_string f) out) /\
  (forall expected_architecture files s out,
     check_lib_architecture AMD64 IA64 I386 ARM ARMNT w expected_architecture files
     = Returned s out ->
     Forall (fun f => List.length (read_lib w f) = 1%nat) files).
Proof.
  intros I N.
  assert (K : forall expected_architecture files,
    (Forall (fun f => extension f = ".lib"%string
                      /\ List.length (read_lib w f) = 1%nat) files
     /\ exists s out,
         check_lib_architecture AMD64 IA64 I386 ARM ARMNT w
           expected_architecture files = Returned s out)
    \/ (exists f,
         In f files /\
         check_lib_architecture AMD64 IA64 I386 ARM ARMNT w
           expected_architecture files
         = Fatal
             (if String.eqb (extension f) ".lib"
              then "Found more than 1 architecture in file " ++ generic_string f
              else "The file extension was not .lib: " ++ generic_string f)%string
             []
         /\ (extension f = ".lib"%string -> List.length (read_lib w f) <> 1%nat))).
  { intros e files.
    pose proof (check_lib_architecture_loop w e files []) as H. cbv zeta in H.
    unfold check_lib_architecture. cbv zeta.
    destruct H as [[F [acc' E]] | (f & If & E & L)]; rewrite E.
    - left. split; [exact F |].
      destruct (print_invalid_architecture_files_returns e acc') as [o P].
      cbn [bind]. rewrite P.
      destruct (negb (is_empty_vec acc')); cbn [bind ret app];
        eexists _, _; reflexivity.
    - right. exists f. split; [exact If |]. split; [reflexivity | exact L]. }
  split; [| split].
  - intros e files If. destruct (K e files) as [[F _] | (f & _ & E & _)].
    + rewrite Forall_forall in F. apply F in If. lia.
    + eexists _, _. exact E.
  - destruct (K (architecture (target_triplet spec))
                (debug_libs_of w spec paths ++ release_libs_of w spec paths))
      as [[F _] | (f & If & E & L)].
    + rewrite Forall_forall in F. apply F in I. lia.
    + assert (X : extension f = ".lib"%string).
      { apply in_app_iff in If as [If | If];
          now apply found_files_have_extension in If. }
      rewrite X, String.eqb_refl in E.
      destruct (layout_checks_return w spec paths) as [rs R].
      exists f. eexists. split; [exact If |]. split; [now apply L |].
      rewrite perform_all_checks_as_battery. unfold battery, common_checks.
      match goal with
      | |- context [run_checks ?l] =>
          change (run_checks l)
            with (run_checks
                    ([ check_for_files_in_include_directory w spec paths;
                       check_for_files_in_debug_include_directory w spec paths;
                       check_for_files_in_debug_share_directory w spec paths;
                       check_folder_lib_cmake w spec paths;
                       check_for_misplaced_cmake_files w spec paths;
                       check_folder_debug_lib_cmake w spec paths;
                       check_for_dlls_in_lib_dirs w spec paths;
                       check_for_copyright_file w spec paths;
                       check_for_exes w spec paths;
                       check_matching_debug_and_release_binaries
                         (debug_libs_of w spec paths) (release_libs_of w spec paths) ]
                     ++ check_lib_architecture AMD64 IA64 I386 ARM ARMNT w
                          (architecture (target_triplet spec))
                          (debug_libs_of w spec paths ++ release_libs_of w spec paths)
                        :: (linkage_checks AMD64 IA64 I386 ARM ARMNT
                              linkage_type_value_of w spec paths
                            ++ [check_no_empty_folders w (packages paths // dir spec)])))
      end.
      rewrite (run_checks_fatal _ _ rs _ _ _ _ R E). reflexivity.
  - intros e files s out E. destruct (K e files) as [[F _] | (f & _ & E' & _)].
    + apply Forall_impl with (2 := F). now intros a [_ H].
    + rewrite E' in E. discriminate E.
Qed.

End Orchestrator.

Lemma perform_all_checks_on_static_example :
  Forall2 returns (example_battery example_static_world)
    (results_of (example_battery example_static_world)) /\
  violations (results_of (example_battery example_static_world)) = 3%nat /\
  example_perform_all_checks example_static_world
  = verdict example_spec example_paths
      (results_of (example_battery example_static_world)) /\
  example_perform_all_checks example_static_world
  = Exited 1
      (validation_header
       :: List.concat (map snd (results_of (example_battery example_static_world)))
       ++ [(error,
            ("Found 3 error(s). Please correct the portfile:"
             ++ String "010"%char "    ports\zlib\portfile.cmake")%string)]).
Proof.
  assert (F : Forall2 returns (example_battery example_static_world)
                (results_of (example_battery example_static_world))).
  { vm_compute. repeat (constructor; [reflexivity |]). constructor. }
  assert (V : violations (results_of (example_battery example_static_world))
              = 3%nat) by reflexivity.
  split; [exact F |]. split; [exact V |].
  destruct (perform_all_checks_runs_whole_battery
              pe_AMD64 pe_IA64 pe_I386 pe_ARM pe_ARMNT
              example_linkage_type_value_of
              example_static_world example_spec example_paths _ F)
    as (E & _ & X & _).
  split; [exact E |].
  unfold example_perform_all_checks.
  rewrite (proj1 X) by (rewrite V; discriminate).
  rewrite V. reflexivity.
Defined.

Lemma unknown_library_linkage_example :
  example_linkage_type_value_of
    (library_linkage
       (read_build_info example_unknown_world
          (build_info_file_path example_paths example_spec)))
  = UNKNOWN /\
  Forall2 returns
    (common_checks pe_AMD64 pe_IA64 pe_I386 pe_ARM pe_ARMNT
       example_unknown_world example_spec example_paths)
    (results_of
       (common_checks pe_AMD64 pe_IA64 pe_I386 pe_ARM pe_ARMNT
          example_unknown_world example_spec example_paths)) /\
  exists last,
    example_perform_all_checks example_unknown_world
    = verdict example_spec example_paths
        (results_of
           (common_checks pe_AMD64 pe_IA64 pe_I386 pe_ARM pe_ARMNT
              example_unknown_world example_spec example_paths)
         ++ [(ERROR_DETECTED,
              [(warning, "Unknown library_linkage architecture: [ shared ]"%string)]);
             last]) /\
    violations
      (results_of
         (common_checks pe_AMD64 pe_IA64 pe_I386 pe_ARM pe_ARMNT
            example_unknown_world example_spec example_paths)
       ++ [(ERROR_DETECTED,
            [(warning, "Unknown library_linkage architecture: [ shared ]"%string)]);
           last])
    = (0 + 1 + violations [last])%nat.
Proof.
  assert (U : example_linkage_type_value_of
                (library_linkage
                   (read_build_info example_unknown_world
                      (build_info_file_path example_paths example_spec)))
              = UNKNOWN) by reflexivity.
  assert (F : Forall2 returns
                (common_checks pe_AMD64 pe_IA64 pe_I386 pe_ARM pe_ARMNT
                   example_unknown_world example_spec example_paths)
                (results_of
                   (common_checks pe_AMD64 pe_IA64 pe_I386 pe_ARM pe_ARMNT
                      example_unknown_world example_spec example_paths))).
  { vm_compute. repeat (constructor; [reflexivity |]). constructor. }
  split; [exact U |]. split; [exact F |].
  destruct (unknown_library_linkage_is_one_violation
              pe_AMD64 pe_IA64 pe_I386 pe_ARM pe_ARMNT example_linkage_type_value_of
              example_unknown_world example_spec example_paths _ U F)
    as (last & _ & E & V).
  exists last. split; [exact E | exact V].
Defined.

Lemma fat_library_example :
  In ["packages"; "zlib_x86-windows"; "lib"; "zlib.lib"]
     (debug_libs_of example_fat_lib_world example_spec example_paths
      ++ release_libs_of example_fat_lib_world example_spec example_paths) /\
  (1 < List.length
         (read_lib example_fat_lib_world
            ["packages"; "zlib_x86-windows"; "lib"; "zlib.lib"]))%nat /\
  exists f out,
    example_perform_all_checks example_fat_lib_world
    = Fatal ("Found more than 1 architecture in file " ++ generic_string f) out.
Proof.
  assert (I : In ["packages"; "zlib_x86-windows"; "lib"; "zlib.lib"]
                (debug_libs_of example_fat_lib_world example_spec example_paths
                 ++ release_libs_of example_fat_lib_world example_spec example_paths))
    by (vm_compute; auto).
  assert (N : (1 < List.length
                     (read_lib example_fat_lib_world
                        ["packages"; "zlib_x86-windows"; "lib"; "zlib.lib"]))%nat)
    by (simpl; lia).
  split; [exact I |]. split; [exact N |].
  destruct (several_machine_types_are_fatal
              pe_AMD64 pe_IA64 pe_I386 pe_ARM pe_ARMNT example_linkage_type_value_of
              example_fat_lib_world example_spec example_paths _ I N)
    as (_ & (f & out & _ & _ & E) & _).
  exists f, out. exact E.
Defined.

(** ** The dumpbin checks of a dynamic build *)

Lemma dumpbin_loop_returns (w : world) (mode marker : string) (dlls acc : list path) :
  Forall (dump_succeeds w mode) dlls ->
  for_each
    (fun dll acc =>
       let cmd_line := dumpbin_cmd_line mode dll in
       let ec_data := cmd_execute_and_capture_output w cmd_line in
       check_exit (Z.eqb (exit_code ec_data) 0) (running_command_failed cmd_line) ;;
       if is_npos (find (output ec_data) marker)
       then ret (acc ++ [dll]) else ret acc)
    dlls acc
  = Returned (acc ++ filter (dump_lacks w mode marker) dlls) [].
Proof.
  cbv zeta. intros F. revert acc.
  induction F as [| dll dlls D F IH]; intros acc.
  - cbn [for_each filter]. now rewrite app_nil_r.
  - rewrite for_each_cons. cbv beta. unfold dump_succeeds in D. rewrite D.
    cbn [Z.eqb check_exit bind ret filter].
    change (is_npos
              (find (output (cmd_execute_and_capture_output w
                               (dumpbin_cmd_line mode dll))) marker))
      with (dump_lacks w mode marker dll).
    destruct (dump_lacks w mode marker dll); cbn [bind ret app]; rewrite IH;
      [rewrite <- app_assoc |]; reflexivity.
Qed.

Lemma dll_report_eq (first_line last_line : string) (v : list path) :
  (if negb (is_empty_vec v) then
     println warning first_line ;;
     print_vector_of_files v ;;
     println warning last_line ;;
     ret ERROR_DETECTED
   else ret SUCCESS)
  = dll_report first_line last_line v.
Proof.
  unfold dll_report. rewrite print_vector_of_files_eq.
  destruct (is_empty_vec v); cbn [negb bind println ret app]; reflexivity.
Qed.

(** The claim C6 as it stands fails: on a triplet whose system is not [uwp],
    a DLL of the package whose /headers dump lacks "App Container" is not
    reported, and the run is accepted. *)
Lemma app_container_not_checked_on_windows :
  In example_dll (dlls_of example_dynamic_world example_spec example_paths) /\
  dump_succeeds example_dynamic_world "/headers" example_dll /\
  dump_lacks example_dynamic_world "/headers" "App Container" example_dll = true /\
  check_uwp_bit_of_dlls example_dynamic_world
    (system (target_triplet example_spec))
    (dlls_of example_dynamic_world example_spec example_paths)
  = Returned SUCCESS [] /\
  example_perform_all_checks example_dynamic_world
  = Returned tt [validation_header; validation_done].
Proof.
  split; [vm_compute; auto |]. repeat split; reflexivity.
Qed.

(** ** The recursive iteration and the tree *)

Lemma node_rect_entries (P : node -> Prop) :
  (forall size, P (File size)) ->
  (forall es, Forall (fun e => P (snd e)) es -> P (Dir es)) ->
  forall n, P n.
Proof.
  intros HF HD. fix IH 1. intros [size | es]; [apply HF |].
  apply HD. induction es as [| [name c] es IHes]; constructor;
    [apply IH | exact IHes].
Qed.

Lemma walk_cons (pre : path) (name : string) (c : node)
  (es : list (string * node)) :
  walk pre (Dir ((name, c) :: es))
  = (pre // name) :: walk (pre // name) c ++ walk pre (Dir es).
Proof. reflexivity. Qed.

Lemma unique_names_cons (name : string) (c : node) (es : list (string * node)) :
  unique_names (Dir ((name, c) :: es))
  = negb (existsb (fun e => String.eqb (fst e) name) es)
    && unique_names c && unique_names (Dir es).
Proof. reflexivity. Qed.

Lemma find_entry_existsb (name : string) (es : list (string * node)) (c : node) :
  find_entry name es = Some c ->
  existsb (fun e => String.eqb (fst e) name) es = true.
Proof.
  induction es as [| [n c'] es IH]; cbn [find_entry existsb fst]; [discriminate |].
  destruct (String.eqb n name); [reflexivity | exact IH].
Qed.

Lemma lookup_cons_entry (name r0 : string) (c : node) (es : list (string * node))
  (rest : path) :
  lookup (Dir ((name, c) :: es)) (r0 :: rest)
  = if String.eqb name r0 then lookup c rest else lookup (Dir es) (r0 :: rest).
Proof. cbn [lookup find_entry]. destruct (String.eqb name r0); reflexivity. Qed.

Lemma In_walk (n : node) :
  forall pre p,
    unique_names n = true ->
    (In p (walk pre n) <->
     exists rest, rest <> [] /\ p = pre ++ rest /\ lookup n rest <> None).
Proof.
  induction n as [size | es H] using node_rect_entries; intros pre p U.
  - split; [intros [] |]. intros ([| r0 rest] & N & _ & L); [now elim N |].
    now elim L.
  - revert U. induction es as [| [name c] es IHes]; intros U.
    + split; [intros [] |]. intros ([| r0 rest] & N & _ & L); [now elim N |].
      now elim L.
    + rewrite unique_names_cons in U.
      apply andb_true_iff in U as [U Ues]. apply andb_true_iff in U as [U1 Uc].
      apply negb_true_iff in U1.
      inversion H as [| ? ? Hc Hes]; subst. cbn [snd] in Hc.
      specialize (IHes Hes Ues). rewrite walk_cons. cbn [In].
      rewrite in_app_iff, (Hc (pre // name) p Uc), IHes. split.
      * intros [<- | [(rest & N & -> & L) | (rest & N & -> & L)]].
        -- exists [name]. split; [discriminate |]. split; [reflexivity |].
           rewrite lookup_cons_entry, String.eqb_refl. discriminate.
        -- exists (name :: rest). split; [discriminate |].
           split; [unfold path_append; now rewrite <- app_assoc |].
           now rewrite lookup_cons_entry, String.eqb_refl.
        -- exists rest. split; [exact N |]. split; [reflexivity |].
           destruct rest as [| r0 rest]; [now elim N |].
           rewrite lookup_cons_entry.
           destruct (String.eqb name r0) eqn:E; [| exact L].
           apply String.eqb_eq in E. subst r0. exfalso.
           cbn [lookup] in L. destruct (find_entry name es) as [c' |] eqn:F;
             [| now elim L].
           apply find_entry_existsb in F. congruence.
      * intros ([| r0 rest] & N & -> & L); [now elim N |].
        rewrite lookup_cons_entry in L.
        destruct (String.eqb name r0) eqn:E.
        -- apply String.eqb_eq in E. subst r0.
           destruct rest as [| r1 rest]; [now left |].
           right. left. exists (r1 :: rest). split; [discriminate |].
           split; [unfold path_append; now rewrite <- app_assoc | exact L].
        -- right. right. exists (r0 :: rest). now repeat split.
Qed.

Lemma lookup_app (root : node) (dir rest : path) :
  lookup root (dir ++ rest)
  = match lookup root dir with
    | Some n => lookup n rest
    | None => None
    end.
Proof.
  revert root. induction dir as [| c dir IH]; intros root; [reflexivity |].
  cbn [app lookup]. destruct root as [size | es]; [reflexivity |].
  destruct (find_entry c es) as [n |]; [apply IH | reflexivity].
Qed.

Lemma unique_names_entry (name : string) (es : list (string * node)) (c : node) :
  unique_names (Dir es) = true -> find_entry name es = Some c ->
  unique_names c = true.
Proof.
  induction es as [| [n c'] es IH]; intros U F; [discriminate F |].
  rewrite unique_names_cons in U.
  apply andb_true_iff in U as [U Ues]. apply andb_true_iff in U as [_ Uc].
  cbn [find_entry] in F. destruct (String.eqb n name).
  - now injection F as <-.
  - now apply IH.
Qed.

Lemma unique_names_lookup (root : node) (dir : path) (n : node) :
  unique_names root = true -> lookup root dir = Some n -> unique_names n = true.
Proof.
  revert root. induction dir as [| c dir IH]; intros root U L.
  - cbn [lookup] in L. now injection L as <-.
  - cbn [lookup] in L. destruct root as [size | es]; [discriminate L |].
    destruct (find_entry c es) as [n' |] eqn:F; [| discriminate L].
    apply (IH n'); [| exact L]. now apply (unique_names_entry c es).
Qed.

Lemma In_recursive_directory_iterator (root : node) (dir p : path) :
  unique_names root = true ->
  (In p (recursive_directory_iterator root dir) <->
   below dir p /\ lookup root p <> None).
Proof.
  intros U. unfold recursive_directory_iterator, below.
  destruct (lookup root dir) as [n |] eqn:L.
  - rewrite (In_walk n dir p (unique_names_lookup root dir n U L)). split.
    + intros (rest & N & -> & R). split; [now exists rest |].
      now rewrite lookup_app, L.
    + intros [(rest & N & ->) R]. exists rest. rewrite lookup_app, L in R.
      now repeat split.
  - split; [intros [] |]. intros [(rest & N & ->) R].
    rewrite lookup_app, L in R. now elim R.
Qed.

Lemma In_find_files_with_extension (root : node) (dir : path) (ext : string)
  (output : list path) (p : path) :
  unique_names root = true ->
  (In p (recursive_find_files_with_extension_in_dir_into root dir ext output) <->
   In p output \/ (below dir p /\ file_with_extension_at root ext p)).
Proof.
  intros U.
  unfold recursive_find_files_with_extension_in_dir_into,
    recursive_find_matching_paths_in_dir_into, file_with_extension_at.
  rewrite in_app_iff, filter_In, (In_recursive_directory_iterator root dir p U),
    andb_true_iff, negb_true_iff, String.eqb_eq.
  unfold fs_is_directory.
  split; (intros [H | H]; [now left | right]).
  - destruct H as [[B L] [D E]]. split; [exact B |]. split; [| exact E].
    destruct (lookup root p) as [[size | es] |]; [now exists size | discriminate D |
      now elim L].
  - destruct H as [B [[size L] E]]. rewrite L.
    repeat split; [exact B | discriminate | exact E].
Qed.

(** ** Executables *)

Lemma check_for_exes_eq (w : world) (spec : package_spec) (paths : vcpkg_paths) :
  check_for_exes w spec paths
  = if is_empty_vec (exes_of w spec paths) then Returned SUCCESS []
    else Returned ERROR_DETECTED
           ((warning,
             "The following EXEs were found in /bin and /debug/bin. EXEs are not valid distribution targets."%string)
            :: printed_files (exes_of w spec paths)).
Proof.
  unfold check_for_exes. cbv zeta. fold (exes_of w spec paths).
  rewrite print_vector_of_files_eq.
  destruct (is_empty_vec (exes_of w spec paths)); cbn [negb bind println ret app];
    [reflexivity | now rewrite app_nil_r].
Qed.

(** C5, as the code has it: in a tree whose directories list no name twice,
    [check_for_exes] collects exactly the files with the extension .exe that
    lie, at any depth, below [bin] or [debug/bin] of the package; it reports
    a violation that lists them when there is one, and passes silently when
    there is none.  Files elsewhere in the package are not looked at. *)
Theorem check_for_exes_scans_bin_directories
  (w : world) (spec : package_spec) (paths : vcpkg_paths) :
  unique_names (fs w) = true ->
  (forall p,
     In p (exes_of w spec paths) <->
     (below (packages paths // dir spec // "bin") p
      \/ below (packages paths // dir spec // "debug" // "bin") p)
     /\ file_with_extension_at (fs w) ".exe" p) /\
  ((exists p,
      (below (packages paths // dir spec // "bin") p
       \/ below (packages paths // dir spec // "debug" // "bin") p)
      /\ file_with_extension_at (fs w) ".exe" p) ->
   check_for_exes w spec paths
   = Returned ERROR_DETECTED
       ((warning,
         "The following EXEs were found in /bin and /debug/bin. EXEs are not valid distribution targets."%string)
        :: printed_files (exes_of w spec paths))) /\
  (~ (exists p,
        (below (packages paths // dir spec // "bin") p
         \/ below (packages paths // dir spec // "debug" // "bin") p)
        /\ file_with_extension_at (fs w) ".exe" p) ->
   check_for_exes w spec paths = Returned SUCCESS []).
Proof.
  intros U.
  assert (M : forall p,
    In p (exes_of w spec paths) <->
    (below (packages paths // dir spec // "bin") p
     \/ below (packages paths // dir spec // "debug" // "bin") p)
    /\ file_with_extension_at (fs w) ".exe" p).
  { intros p. unfold exes_of.
    rewrite !(In_find_files_with_extension (fs w) _ ".exe" _ p U). cbn [In].
    tauto. }
  split; [exact M |]. rewrite check_for_exes_eq. split.
  - intros [p Hp]. apply M in Hp.
    destruct (exes_of w spec paths); [destruct Hp | reflexivity].
  - intros N. destruct (exes_of w spec paths) as [| p l] eqn:E; [reflexivity |].
    exfalso. apply N. exists p. apply M. now left.
Qed.

Lemma check_for_exes_on_tool_example :
  unique_names (fs example_tool_world) = true /\
  check_for_exes example_tool_world example_spec example_paths
  = Returned ERROR_DETECTED
      [ (warning,
         "The following EXEs were found in /bin and /debug/bin. EXEs are not valid distribution targets."%string);
        (plain, ""%string);
        (plain, "    packages/zlib_x86-windows/bin/tools/minigzip.exe"%string);
        (plain, ""%string) ].
Proof.
  assert (U : unique_names (fs example_tool_world) = true) by reflexivity.
  split; [exact U |].
  destruct (check_for_exes_scans_bin_directories
              example_tool_world example_spec example_paths U) as (_ & E & _).
  rewrite E; [reflexivity |].
  exists ["packages"; "zlib_x86-windows"; "bin"; "tools"; "minigzip.exe"].
  split.
  - left. exists ["tools"; "minigzip.exe"]. split; [discriminate | reflexivity].
  - split; [now exists 512%N | reflexivity].
Defined.

(** The claim C5 as it stands fails: an executable below the package root
    but outside [bin] and [debug/bin] is not reported. *)
Lemma exe_outside_bin_not_reported :
  unique_names (fs example_static_world) = true /\
  below (packages example_paths // dir example_spec) example_exe /\
  file_with_extension_at (fs example_static_world) ".exe" example_exe /\
  check_for_exes example_static_world example_spec example_paths
  = Returned SUCCESS [].
Proof.
  split; [reflexivity |]. split.
  - exists ["tools"; "minigzip.exe"]. split; [discriminate | reflexivity].
  - split; [| reflexivity]. split; [now exists 512%N | reflexivity].
Qed.

(** * Further properties of the checks *)

(** ** What the recursive searches find *)

Lemma walk_below (n : node) :
  forall pre p, In p (walk pre n) -> exists rest, rest <> [] /\ p = pre ++ rest.
Proof.
  induction n as [size | es H] using node_rect_entries; intros pre p; [intros [] |].
  induction es as [| [name c] es IHes]; [intros [] |].
  inversion H as [| ? ? Hc Hes]; subst. cbn [snd] in Hc.
  rewrite walk_cons. cbn [In]. rewrite in_app_iff.
  intros [<- | [I | I]].
  - exists [name]. split; [discriminate | reflexivity].
  - destruct (Hc _ _ I) as (rest & _ & ->). exists (name :: rest).
    split; [discriminate |]. unfold path_append. now rewrite <- app_assoc.
  - now apply IHes.
Qed.

Lemma path_append_neq_longer (pre : path) (name : string) (rest : path) :
  rest <> [] -> pre // name <> (pre // name) ++ rest.
Proof.
  intros N E. apply (f_equal (@List.length string)) in E.
  rewrite length_app in E. destruct rest; [now elim N | simpl in E; lia].
Qed.

Lemma walk_NoDup (n : node) :
  forall pre, unique_names n = true -> NoDup (walk pre n).
Proof.
  induction n as [size | es H] using node_rect_entries; intros pre U;
    [constructor |].
  revert U. induction es as [| [name c] es IHes]; intros U; [constructor |].
  rewrite unique_names_cons in U.
  apply andb_true_iff in U as [U Ues]. apply andb_true_iff in U as [U1 Uc].
  apply negb_true_iff in U1.
  inversion H as [| ? ? Hc Hes]; subst. cbn [snd] in Hc.
  assert (S : forall rest,
             In (pre ++ name :: rest) (walk pre (Dir es)) -> False).
  { intros rest I. apply (In_walk (Dir es) pre _ Ues) in I
      as (rest' & _ & E & L).
    apply app_inv_head in E. subst rest'. cbn [lookup] in L.
    destruct (find_entry name es) as [c' |] eqn:F; [| now elim L].
    apply find_entry_existsb in F. congruence. }
  rewrite walk_cons. constructor.
  - rewrite in_app_iff. intros [I | I].
    + apply walk_below in I as (rest & N & E).
      now apply (path_append_neq_longer pre name rest).
    + now apply (S []).
  - apply NoDup_app; [now apply Hc | now apply IHes |].
    intros p I I'. apply walk_below in I as (rest & _ & ->).
    unfold path_append in I'. rewrite <- app_assoc in I'. now apply (S rest).
Qed.

Lemma In_find_matching (root : node) (dir : path) (predicate : path -> bool)
  (output : list path) (p : path) :
  unique_names root = true ->
  (In p (recursive_find_matching_paths_in_dir_into root dir predicate output) <->
   In p output \/ (below dir p /\ exists_at root p /\ predicate p = true)).
Proof.
  intros U. unfold recursive_find_matching_paths_in_dir_into, exists_at.
  rewrite in_app_iff, filter_In, (In_recursive_directory_iterator root dir p U).
  tauto.
Qed.

Lemma recursive_directory_iterator_NoDup (root : node) (dir : path) :
  unique_names root = true -> NoDup (recursive_directory_iterator root dir).
Proof.
  intros U. unfold recursive_directory_iterator.
  destruct (lookup root dir) as [n |] eqn:L; [| constructor].
  apply walk_NoDup. now apply (unique_names_lookup root dir).
Qed.

(** X1: in a tree whose directories list no name twice, the search for files
    with an extension keeps what the vector held and appends, each once, the
    files (not directories) with that extension that lie at any depth below
    the directory; below a path that does not exist it appends nothing. *)
Theorem recursive_find_files_appends_the_files
  (root : node) (dir : path) (ext : string) (output : list path) :
  unique_names root = true ->
  exists found,
    recursive_find_files_with_extension_in_dir_into root dir ext output
    = output ++ found /\
    NoDup found /\
    (forall p, In p found <-> below dir p /\ file_with_extension_at root ext p) /\
    (lookup root dir = None -> found = []).
Proof.
  intros U.
  exists (recursive_find_files_with_extension_in_dir_into root dir ext []).
  split; [reflexivity |]. split; [| split].
  - unfold recursive_find_files_with_extension_in_dir_into,
      recursive_find_matching_paths_in_dir_into. cbn [app].
    apply NoDup_filter. now apply recursive_directory_iterator_NoDup.
  - intros p. rewrite (In_find_files_with_extension root dir ext [] p U).
    cbn [In]. tauto.
  - intros L. unfold recursive_find_files_with_extension_in_dir_into,
      recursive_find_matching_paths_in_dir_into, recursive_directory_iterator.
    now rewrite L.
Qed.

Lemma recursive_find_files_in_example :
  unique_names (fs example_static_world) = true /\
  recursive_find_files_with_extension_in_dir_into (fs example_static_world)
    ["packages"; "zlib_x86-windows"] ".dll" [["kept"]]
  = [ ["kept"];
      ["packages"; "zlib_x86-windows"; "bin"; "zlib1.dll"];
      ["packages"; "zlib_x86-windows"; "debug"; "bin"; "zlibd1.dll"] ].
Proof.
  assert (U : unique_names (fs example_static_world) = true) by reflexivity.
  split; [exact U |].
  destruct (recursive_find_files_appends_the_files
              (fs example_static_world) ["packages"; "zlib_x86-windows"] ".dll"
              [["kept"]] U) as (found & E & _).
  rewrite E. apply (f_equal (skipn 1)) in E. cbn [skipn app] in E.
  now rewrite <- E.
Defined.

(** ** Layout checks over the tree *)

Lemma In_printed_files (p : path) (v : list path) :
  In p v -> In (plain, ("    " ++ generic_string p)%string) (printed_files v).
Proof.
  intros I. unfold printed_files. right. apply in_or_app. left.
  apply in_map_iff. now exists p.
Qed.

(** A check that reports the vector [v] when it is not empty. *)
Lemma vector_report_spec (c : result lint_status) (v : list path)
  (Q : path -> Prop) (out0 : console) :
  c = (if is_empty_vec v then Returned SUCCESS []
       else Returned ERROR_DETECTED out0) ->
  (forall x, In x (printed_files v) -> In x out0) ->
  (forall p, In p v <-> Q p) ->
  ((exists p, Q p) ->
   exists out, c = Returned ERROR_DETECTED out /\
               forall p, Q p ->
                 In (plain, ("    " ++ generic_string p)%string) out) /\
  (~ (exists p, Q p) -> c = Returned SUCCESS []).
Proof.
  intros -> L M. split.
  - intros [p Hp]. apply M in Hp. destruct v as [| x v]; [destruct Hp |].
    exists out0. split; [reflexivity |].
    intros q Hq. apply L, In_printed_files. now apply M.
  - intros N. destruct v as [| x v]; [reflexivity |].
    exfalso. apply N. exists x. apply M. now left.
Qed.

Ltac vector_report_eq :=
  cbv zeta; rewrite ?print_vector_of_files_eq;
  match goal with
  | |- context [is_empty_vec ?v] => destruct (is_empty_vec v)
  end;
  cbn [negb bind println ret app]; rewrite ?app_nil_r; reflexivity.

Lemma check_for_dlls_in_lib_dirs_eq (w : world) (spec : package_spec)
  (paths : vcpkg_paths) :
  check_for_dlls_in_lib_dirs w spec paths
  = if is_empty_vec
         (recursive_find_files_with_extension_in_dir_into (fs w)
            (packages paths // dir spec // "debug" // "lib") ".dll"
            (recursive_find_files_with_extension_in_dir_into (fs w)
               (packages paths // dir spec // "lib") ".dll" []))
    then Returned SUCCESS []
    else Returned ERROR_DETECTED
           ((warning,
             (nl ++ "The following dlls were found in /lib and /debug/lib. Please move them to /bin or /debug/bin, respectively.")%string)
            :: printed_files
                 (recursive_find_files_with_extension_in_dir_into (fs w)
                    (packages paths // dir spec // "debug" // "lib") ".dll"
                    (recursive_find_files_with_extension_in_dir_into (fs w)
                       (packages paths // dir spec // "lib") ".dll" []))).
Proof. unfold check_for_dlls_in_lib_dirs. vector_report_eq. Qed.

(** X2: in a tree whose directories list no name twice,
    [check_for_dlls_in_lib_dirs] reports exactly when a file with the
    extension .dll lies at some depth below [lib] or [debug/lib] of the
    package, and then prints the path of every such file; otherwise it
    passes and prints nothing. *)
Theorem check_for_dlls_in_lib_dirs_finds_dlls
  (w : world) (spec : package_spec) (paths : vcpkg_paths) :
  unique_names (fs w) = true ->
  ((exists p,
      (below (packages paths // dir spec // "lib") p
       \/ below (packages paths // dir spec // "debug" // "lib") p)
      /\ file_with_extension_at (fs w) ".dll" p) ->
   exists out,
     check_for_dlls_in_lib_dirs w spec paths = Returned ERROR_DETECTED out /\
     forall p,
       (below (packages paths // dir spec // "lib") p
        \/ below (packages paths // dir spec // "debug" // "lib") p)
       /\ file_with_extension_at (fs w) ".dll" p ->
       In (plain, ("    " ++ generic_string p)%string) out) /\
  (~ (exists p,
        (below (packages paths // dir spec // "lib") p
         \/ below (packages paths // dir spec // "debug" // "lib") p)
        /\ file_with_extension_at (fs w) ".dll" p) ->
   check_for_dlls_in_lib_dirs w spec paths = Returned SUCCESS []).
Proof.
  intros U.
  apply (vector_report_spec _ _ _ _ (check_for_dlls_in_lib_dirs_eq w spec paths)).
  - intros x I. now right.
  - intros p. rewrite !(In_find_files_with_extension (fs w) _ ".dll" _ p U).
    cbn [In]. tauto.
Qed.

Lemma check_for_dlls_in_lib_dirs_on_example :
  unique_names (fs example_messy_world) = true /\
  exists out,
    check_for_dlls_in_lib_dirs example_messy_world example_spec example_paths
    = Returned ERROR_DETECTED out /\
    In (plain, "    packages/zlib_x86-windows/lib/zlib1.dll"%string) out.
Proof.
  assert (U : unique_names (fs example_messy_world) = true) by reflexivity.
  split; [exact U |].
  assert (Q : (below (packages example_paths // dir example_spec // "lib")
                 ["packages"; "zlib_x86-windows"; "lib"; "zlib1.dll"]
               \/ below (packages example_paths // dir example_spec // "debug" // "lib")
                    ["packages"; "zlib_x86-windows"; "lib"; "zlib1.dll"])
              /\ file_with_extension_at (fs example_messy_world) ".dll"
                   ["packages"; "zlib_x86-windows"; "lib"; "zlib1.dll"]).
  { split.
    - left. exists ["zlib1.dll"]. split; [discriminate | reflexivity].
    - split; [now exists 8192%N | reflexivity]. }
  destruct (proj1 (check_for_dlls_in_lib_dirs_finds_dlls
                     example_messy_world example_spec example_paths U)
              (ex_intro _ _ Q)) as (out & E & L).
  exists out. split; [exact E |]. exact (L _ Q).
Defined.

Lemma check_for_misplaced_cmake_files_eq (w : world) (spec : package_spec)
  (paths : vcpkg_paths) :
  check_for_misplaced_cmake_files w spec paths
  = if is_empty_vec
         (recursive_find_files_with_extension_in_dir_into (fs w)
            (packages paths // dir spec // "debug" // "lib" // "cmake") ".cmake"
            (recursive_find_files_with_extension_in_dir_into (fs w)
               (packages paths // dir spec // "lib" // "cmake") ".cmake"
               (recursive_find_files_with_extension_in_dir_into (fs w)
                  (packages paths // dir spec // "debug" // "cmake") ".cmake"
                  (recursive_find_files_with_extension_in_dir_into (fs w)
                     (packages paths // dir spec // "cmake") ".cmake" []))))
    then Returned SUCCESS []
    else Returned ERROR_DETECTED
           ((warning,
             ("The following cmake files were found outside /share/" ++ name spec
              ++ ". Please place cmake files in /share/" ++ name spec ++ ".")%string)
            :: printed_files
                 (recursive_find_files_with_extension_in_dir_into (fs w)
                    (packages paths // dir spec // "debug" // "lib" // "cmake")
                    ".cmake"
                    (recursive_find_files_with_extension_in_dir_into (fs w)
                       (packages paths // dir spec // "lib" // "cmake") ".cmake"
                       (recursive_find_files_with_extension_in_dir_into (fs w)
                          (packages paths // dir spec // "debug" // "cmake") ".cmake"
                          (recursive_find_files_with_extension_in_dir_into (fs w)
                             (packages paths // dir spec // "cmake") ".cmake"
                             []))))).
Proof. unfold check_for_misplaced_cmake_files. vector_report_eq. Qed.

(** X3: in a tree whose directories list no name twice,
    [check_for_misplaced_cmake_files] reports exactly when a file with the
    extension .cmake lies at some depth below one of [cmake], [debug/cmake],
    [lib/cmake] and [debug/lib/cmake] of the package, and then prints the
    path of every such file; .cmake files anywhere else, [share] included,
    are not looked for. *)
Theorem check_for_misplaced_cmake_files_finds_cmake_files
  (w : world) (spec : package_spec) (paths : vcpkg_paths) :
  unique_names (fs w) = true ->
  ((exists p,
      (below (packages paths // dir spec // "cmake") p
       \/ below (packages paths // dir spec // "debug" // "cmake") p
       \/ below (packages paths // dir spec // "lib" // "cmake") p
       \/ below (packages paths // dir spec // "debug" // "lib" // "cmake") p)
      /\ file_with_extension_at (fs w) ".cmake" p) ->
   exists out,
     check_for_misplaced_cmake_files w spec paths = Returned ERROR_DETECTED out /\
     forall p,
       (below (packages paths // dir spec // "cmake") p
        \/ below (packages paths // dir spec // "debug" // "cmake") p
        \/ below (packages paths // dir spec // "lib" // "cmake") p
        \/ below (packages paths // dir spec // "debug" // "lib" // "cmake") p)
       /\ file_with_extension_at (fs w) ".cmake" p ->
       In (plain, ("    " ++ generic_string p)%string) out) /\
  (~ (exists p,
        (below (packages paths // dir spec // "cmake") p
         \/ below (packages paths // dir spec // "debug" // "cmake") p
         \/ below (packages paths // dir spec // "lib" // "cmake") p
         \/ below (packages paths // dir spec // "debug" // "lib" // "cmake") p)
        /\ file_with_extension_at (fs w) ".cmake" p) ->
   check_for_misplaced_cmake_files w spec paths = Returned SUCCESS []).
Proof.
  intros U.
  apply (vector_report_spec _ _ _ _
           (check_for_misplaced_cmake_files_eq w spec paths)).
  - intros x I. now right.
  - intros p. rewrite !(In_find_files_with_extension (fs w) _ ".cmake" _ p U).
    cbn [In]. tauto.
Qed.

Lemma check_for_misplaced_cmake_files_on_example :
  unique_names (fs example_messy_world) = true /\
  exists out,
    check_for_misplaced_cmake_files example_messy_world example_spec example_paths
    = Returned ERROR_DETECTED out /\
    In (plain, "    packages/zlib_x86-windows/lib/cmake/zlib-config.cmake"%string)
       out.
Proof.
  assert (U : unique_names (fs example_messy_world) = true) by reflexivity.
  split; [exact U |].
  assert (Q : (below (packages example_paths // dir example_spec // "cmake")
                 ["packages"; "zlib_x86-windows"; "lib"; "cmake"; "zlib-config.cmake"]
               \/ below (packages example_paths // dir example_spec // "debug" // "cmake")
                    ["packages"; "zlib_x86-windows"; "lib"; "cmake"; "zlib-config.cmake"]
               \/ below (packages example_paths // dir example_spec // "lib" // "cmake")
                    ["packages"; "zlib_x86-windows"; "lib"; "cmake"; "zlib-config.cmake"]
               \/ below (packages example_paths // dir example_spec // "debug" // "lib"
                         // "cmake")
                    ["packages"; "zlib_x86-windows"; "lib"; "cmake"; "zlib-config.cmake"])
              /\ file_with_extension_at (fs example_messy_world) ".cmake"
                   ["packages"; "zlib_x86-windows"; "lib"; "cmake"; "zlib-config.cmake"]).
  { split.
    - right. right. left. exists ["zlib-config.cmake"].
      split; [discriminate | reflexivity].
    - split; [now exists 128%N | reflexivity]. }
  destruct (proj1 (check_for_misplaced_cmake_files_finds_cmake_files
                     example_messy_world example_spec example_paths U)
              (ex_intro _ _ Q)) as (out & E & L).
  exists out. split; [exact E |]. exact (L _ Q).
Defined.

Lemma below_exists (root : node) (dir p : path) :
  below dir p -> exists_at root p -> fs_exists root dir = true.
Proof.
  intros (rest & _ & ->) L. unfold exists_at in L. rewrite lookup_app in L.
  unfold fs_exists. destruct (lookup root dir); [reflexivity | now elim L].
Qed.

(** X4: whatever lies below [lib/cmake] of the package makes
    [check_folder_lib_cmake] report, and a .cmake file there (in a tree whose
    directories list no name twice) makes [check_for_misplaced_cmake_files]
    report as well: such a file is counted as two errors.  The same holds for
    [debug/lib/cmake] and [check_folder_debug_lib_cmake]. *)
Theorem cmake_file_below_lib_is_reported_twice
  (w : world) (spec : package_spec) (paths : vcpkg_paths) (p : path) :
  unique_names (fs w) = true ->
  file_with_extension_at (fs w) ".cmake" p ->
  (below (packages paths // dir spec // "lib" // "cmake") p ->
   (exists out, check_folder_lib_cmake w spec paths = Returned ERROR_DETECTED out)
   /\ exists out,
        check_for_misplaced_cmake_files w spec paths = Returned ERROR_DETECTED out) /\
  (below (packages paths // dir spec // "debug" // "lib" // "cmake") p ->
   (exists out,
      check_folder_debug_lib_cmake w spec paths = Returned ERROR_DETECTED out)
   /\ exists out,
        check_for_misplaced_cmake_files w spec paths = Returned ERROR_DETECTED out).
Proof.
  intros U F.
  assert (X : exists_at (fs w) p).
  { destruct F as [[size L] _]. unfold exists_at. rewrite L. discriminate. }
  assert (M : forall d,
             d = packages paths // dir spec // "lib" // "cmake"
             \/ d = packages paths // dir spec // "debug" // "lib" // "cmake" ->
             below d p ->
             exists out,
               check_for_misplaced_cmake_files w spec paths
               = Returned ERROR_DETECTED out).
  { intros d D B. rewrite check_for_misplaced_cmake_files_eq.
    match goal with
    | |- context [is_empty_vec ?v] =>
        assert (I : In p v);
        [| destruct v; [destruct I | eexists; reflexivity]]
    end.
    rewrite !(In_find_files_with_extension (fs w) _ ".cmake" _ p U).
    destruct D as [-> | ->]; tauto. }
  split; intros B.
  - split; [| now apply (M _ (or_introl eq_refl))].
    unfold check_folder_lib_cmake. cbv zeta.
    rewrite (below_exists _ _ _ B X). eexists. reflexivity.
  - split; [| now apply (M _ (or_intror eq_refl))].
    unfold check_folder_debug_lib_cmake. cbv zeta.
    rewrite (below_exists _ _ _ B X). eexists. reflexivity.
Qed.

Lemma cmake_file_below_lib_on_example :
  unique_names (fs example_messy_world) = true /\
  file_with_extension_at (fs example_messy_world) ".cmake"
    ["packages"; "zlib_x86-windows"; "lib"; "cmake"; "zlib-config.cmake"] /\
  (exists out,
     check_folder_lib_cmake example_messy_world example_spec example_paths
     = Returned ERROR_DETECTED out) /\
  exists out,
    check_for_misplaced_cmake_files example_messy_world example_spec example_paths
    = Returned ERROR_DETECTED out.
Proof.
  assert (U : unique_names (fs example_messy_world) = true) by reflexivity.
  assert (F : file_with_extension_at (fs example_messy_world) ".cmake"
                ["packages"; "zlib_x86-windows"; "lib"; "cmake"; "zlib-config.cmake"])
    by (split; [now exists 128%N | reflexivity]).
  split; [exact U |]. split; [exact F |].
  apply (cmake_file_below_lib_is_reported_twice
           example_messy_world example_spec example_paths _ U F).
  exists ["zlib-config.cmake"]. split; [discriminate | reflexivity].
Defined.

(** X5: in a tree whose directories list no name twice,
    [check_for_files_in_debug_include_directory] reports, with its one
    warning and without listing anything, exactly when some file whose
    extension is not .ifc lies at some depth below [debug/include]; a
    [debug/include] that holds only directories and .ifc files, or does not
    exist, passes. *)
Theorem check_for_files_in_debug_include_directory_spec
  (w : world) (spec : package_spec) (paths : vcpkg_paths) :
  unique_names (fs w) = true ->
  ((exists p,
      below (packages paths // dir spec // "debug" // "include") p
      /\ (exists size, lookup (fs w) p = Some (File size))
      /\ extension p <> ".ifc"%string) ->
   check_for_files_in_debug_include_directory w spec paths
   = Returned ERROR_DETECTED [debug_include_warning]) /\
  (~ (exists p,
        below (packages paths // dir spec // "debug" // "include") p
        /\ (exists size, lookup (fs w) p = Some (File size))
        /\ extension p <> ".ifc"%string) ->
   check_for_files_in_debug_include_directory w spec paths
   = Returned SUCCESS []).
Proof.
  intros U. unfold check_for_files_in_debug_include_directory. cbv zeta.
  match goal with
  | |- context [is_empty_vec ?v] =>
      assert (M : forall p,
                In p v <->
                below (packages paths // dir spec // "debug" // "include") p
                /\ (exists size, lookup (fs w) p = Some (File size))
                /\ extension p <> ".ifc"%string);
      [| destruct v as [| x l]]
  end.
  - intros p. rewrite (In_find_matching (fs w) _ _ [] p U). cbn [In].
    unfold exists_at, fs_is_directory.
    rewrite andb_true_iff, !negb_true_iff, String.eqb_neq.
    split.
    + intros [[] | (B & X & D & E)]. split; [exact B |]. split; [| exact E].
      destruct (lookup (fs w) p) as [[size | es] |];
        [now exists size | discriminate D | now elim X].
    + intros (B & [size L] & E). right. rewrite L.
      repeat split; [exact B | discriminate | exact E].
  - split; [intros [p Hp]; apply M in Hp; destruct Hp | reflexivity].
  - split; [reflexivity |]. intros N. exfalso. apply N. exists x. apply M.
    now left.
Qed.

Lemma check_for_files_in_debug_include_directory_on_example :
  unique_names (fs example_messy_world) = true /\
  check_for_files_in_debug_include_directory example_messy_world example_spec
    example_paths
  = Returned ERROR_DETECTED [debug_include_warning].
Proof.
  assert (U : unique_names (fs example_messy_world) = true) by reflexivity.
  split; [exact U |].
  apply (check_for_files_in_debug_include_directory_spec
           example_messy_world example_spec example_paths U).
  exists ["packages"; "zlib_x86-windows"; "debug"; "include"; "zlib.h"].
  split; [exists ["zlib.h"]; split; [discriminate | reflexivity] |].
  split; [now exists 4096%N | discriminate].
Defined.

Lemma check_no_empty_folders_eq (w : world) (dir : path) :
  check_no_empty_folders w dir
  = if is_empty_vec
         (recursive_find_matching_paths_in_dir (fs w) dir
            (fun current =>
               fs_is_directory (fs w) current && fs_is_empty (fs w) current))
    then Returned SUCCESS []
    else Returned ERROR_DETECTED
           ((warning,
             ("There should be no empty directories in " ++ generic_string dir)%string)
            :: (plain, "The following empty directories were found: "%string)
            :: printed_files
                 (recursive_find_matching_paths_in_dir (fs w) dir
                    (fun current =>
                       fs_is_directory (fs w) current
                       && fs_is_empty (fs w) current))
            ++ [(warning,
                 ("If a directory should be populated but is not, this might indicate an error in the portfile." ++ nl
                  ++ "If the directories are not needed and their creation cannot be disabled, use something like this in the portfile to remove them)" ++ nl
                  ++ nl
                  ++ "    file(REMOVE_RECURSE ${CURRENT_PACKAGES_DIR}/a/dir ${CURRENT_PACKAGES_DIR}/some/other/dir)" ++ nl
                  ++ nl)%string)]).
Proof. unfold check_no_empty_folders. vector_report_eq. Qed.

(** X6: in a tree whose directories list no name twice,
    [check_no_empty_folders] reports exactly when a directory without
    entries lies at some depth below [dir], and then prints the path of
    every such directory.  [dir] itself is not looked at: when it is an
    empty directory, or does not exist, the check passes. *)
Theorem check_no_empty_folders_finds_empty_directories
  (w : world) (dir : path) :
  unique_names (fs w) = true ->
  ((exists p, below dir p /\ lookup (fs w) p = Some (Dir [])) ->
   exists out,
     check_no_empty_folders w dir = Returned ERROR_DETECTED out /\
     forall p, below dir p /\ lookup (fs w) p = Some (Dir []) ->
               In (plain, ("    " ++ generic_string p)%string) out) /\
  (~ (exists p, below dir p /\ lookup (fs w) p = Some (Dir [])) ->
   check_no_empty_folders w dir = Returned SUCCESS []) /\
  (lookup (fs w) dir = Some (Dir []) \/ lookup (fs w) dir = None ->
   check_no_empty_folders w dir = Returned SUCCESS []).
Proof.
  intros U.
  assert (S : ((exists p, below dir p /\ lookup (fs w) p = Some (Dir [])) ->
               exists out,
                 check_no_empty_folders w dir = Returned ERROR_DETECTED out /\
                 forall p, below dir p /\ lookup (fs w) p = Some (Dir []) ->
                           In (plain, ("    " ++ generic_string p)%string) out) /\
              (~ (exists p, below dir p /\ lookup (fs w) p = Some (Dir [])) ->
               check_no_empty_folders w dir = Returned SUCCESS [])).
  { apply (vector_report_spec _ _ _ _ (check_no_empty_folders_eq w dir)).
    - intros x I. right. right. apply in_or_app. now left.
    - intros p. unfold recursive_find_matching_paths_in_dir.
      rewrite (In_find_matching (fs w) dir _ [] p U). cbn [In].
      unfold exists_at, fs_is_directory, fs_is_empty. rewrite andb_true_iff.
      split.
      + intros [[] | (B & _ & D & E)]. split; [exact B |].
        destruct (lookup (fs w) p) as [[size | [| e es]] |];
          try discriminate D; try discriminate E. reflexivity.
      + intros [B L]. right. rewrite L.
        repeat split; [exact B | discriminate]. }
  destruct S as [S1 S2]. split; [exact S1 |]. split; [exact S2 |].
  intros D. apply S2. intros (p & (rest & N & ->) & L).
  rewrite lookup_app in L. destruct D as [D | D]; rewrite D in L.
  - destruct rest; [now elim N | discriminate L].
  - discriminate L.
Qed.

Lemma check_no_empty_folders_on_example :
  unique_names (fs example_messy_world) = true /\
  exists out,
    check_no_empty_folders example_messy_world
      (packages example_paths // dir example_spec)
    = Returned ERROR_DETECTED out /\
    In (plain, "    packages/zlib_x86-windows/debug/lib/pkgconfig"%string) out.
Proof.
  assert (U : unique_names (fs example_messy_world) = true) by reflexivity.
  split; [exact U |].
  assert (Q : below (packages example_paths // dir example_spec)
                ["packages"; "zlib_x86-windows"; "debug"; "lib"; "pkgconfig"]
              /\ lookup (fs example_messy_world)
                   ["packages"; "zlib_x86-windows"; "debug"; "lib"; "pkgconfig"]
                 = Some (Dir [])).
  { split; [| reflexivity]. exists ["debug"; "lib"; "pkgconfig"].
    split; [discriminate | reflexivity]. }
  destruct (proj1 (check_no_empty_folders_finds_empty_directories
                     example_messy_world
                     (packages example_paths // dir example_spec) U)
              (ex_intro _ _ Q)) as (out & E & L).
  exists out. split; [exact E |]. exact (L _ Q).
Defined.

Lemma check_no_subdirectories_eq (w : world) (dir : path) :
  check_no_subdirectories w dir
  = if is_empty_vec
         (recursive_find_matching_paths_in_dir (fs w) dir
            (fun current => fs_is_directory (fs w) current))
    then Returned SUCCESS []
    else Returned ERROR_DETECTED
           ((warning,
             ("Directory " ++ generic_string dir
              ++ " should have no subdirectories")%string)
            :: (plain, "The following subdirectories were found: "%string)
            :: printed_files
                 (recursive_find_matching_paths_in_dir (fs w) dir
                    (fun current => fs_is_directory (fs w) current))).
Proof. unfold check_no_subdirectories. vector_report_eq. Qed.

(** X7: in a tree whose directories list no name twice,
    [check_no_subdirectories] reports exactly when a directory lies at some
    depth below [dir], and then prints the path of every such directory;
    a [dir] that holds only files, or does not exist, passes. *)
Theorem check_no_subdirectories_finds_directories (w : world) (dir : path) :
  unique_names (fs w) = true ->
  ((exists p, below dir p /\ directory_at (fs w) p) ->
   exists out,
     check_no_subdirectories w dir = Returned ERROR_DETECTED out /\
     forall p, below dir p /\ directory_at (fs w) p ->
               In (plain, ("    " ++ generic_string p)%string) out) /\
  (~ (exists p, below dir p /\ directory_at (fs w) p) ->
   check_no_subdirectories w dir = Returned SUCCESS []).
Proof.
  intros U.
  apply (vector_report_spec _ _ _ _ (check_no_subdirectories_eq w dir)).
  - intros x I. right. now right.
  - intros p. unfold recursive_find_matching_paths_in_dir.
    rewrite (In_find_matching (fs w) dir _ [] p U). cbn [In].
    unfold exists_at, fs_is_directory, directory_at. split.
    + intros [[] | (B & _ & D)]. split; [exact B |].
      destruct (lookup (fs w) p) as [[size | es] |]; try discriminate D.
      now exists es.
    + intros [B [es L]]. right. rewrite L.
      repeat split; [exact B | discriminate].
Qed.

Lemma check_no_subdirectories_on_example :
  unique_names (fs example_messy_world) = true /\
  exists out,
    check_no_subdirectories example_messy_world
      (packages example_paths // dir example_spec // "lib")
    = Returned ERROR_DETECTED out /\
    In (plain, "    packages/zlib_x86-windows/lib/cmake"%string) out.
Proof.
  assert (U : unique_names (fs example_messy_world) = true) by reflexivity.
  split; [exact U |].
  assert (Q : below (packages example_paths // dir example_spec // "lib")
                ["packages"; "zlib_x86-windows"; "lib"; "cmake"]
              /\ directory_at (fs example_messy_world)
                   ["packages"; "zlib_x86-windows"; "lib"; "cmake"]).
  { split; [exists ["cmake"]; split; [discriminate | reflexivity] |].
    eexists. reflexivity. }
  destruct (proj1 (check_no_subdirectories_finds_directories
                     example_messy_world
                     (packages example_paths // dir example_spec // "lib") U)
              (ex_intro _ _ Q)) as (out & E & L).
  exists out. split; [exact E |]. exact (L _ Q).
Defined.

(** ** The copyright file *)

Lemma In_potential_copyright_files (w : world) (spec : package_spec)
  (paths : vcpkg_paths) (p : path) :
  unique_names (fs w) = true ->
  (In p (potential_copyright_files_of w spec paths) <->
   (exists rest,
      p = (buildtrees paths // name spec // "src") ++ rest
      /\ (List.length rest = 1 \/ List.length rest = 2)%nat)
   /\ exists_at (fs w) p
   /\ (filename p = "LICENSE" \/ filename p = "LICENSE.txt"
       \/ filename p = "COPYING")%string).
Proof.
  intros U. unfold potential_copyright_files_of.
  rewrite filter_In, (In_recursive_directory_iterator _ _ p U).
  unfold below, exists_at, depth. split.
  - intros [[(rest & N & ->) X] F]. rewrite length_app in F.
    destruct (Nat.ltb 1 _) eqn:D; [discriminate F |].
    apply Nat.ltb_ge in D.
    rewrite !orb_true_iff, !String.eqb_eq in F.
    split; [| split; [exact X | tauto]].
    exists rest. split; [reflexivity |].
    destruct rest as [| r0 [| r1 [| r2 rest]]]; [now elim N | | |];
      simpl in *; lia.
  - intros [(rest & -> & L) [X F]]. split.
    + split; [| exact X]. exists rest. split; [| reflexivity].
      destruct rest; [simpl in L; lia | discriminate].
    + rewrite length_app.
      replace (Nat.ltb 1 _) with false by (symmetry; apply Nat.ltb_ge; lia).
      rewrite !orb_true_iff, !String.eqb_eq. tauto.
Qed.

Lemma skipn_length_app {A : Type} (a b : list A) :
  skipn (List.length a) (a ++ b) = b.
Proof. induction a as [| x a IH]; [reflexivity | exact IH]. Qed.

(** X8: [check_for_copyright_file] passes silently exactly when something
    lies at [share/<name>/copyright] of the package, and reports otherwise,
    whatever the sources hold.  The candidates it then looks for are the
    entries (files or directories) named LICENSE, LICENSE.txt or COPYING one
    or two levels below [<buildtrees>/<name>/src]; deeper ones are not
    candidates.  With exactly one candidate it prints, after the warning,
    only the instructions to copy it, with the path of the candidate from
    [src] on. *)
Theorem check_for_copyright_file_spec
  (w : world) (spec : package_spec) (paths : vcpkg_paths) :
  unique_names (fs w) = true ->
  (forall p,
     In p (potential_copyright_files_of w spec paths) <->
     (exists rest,
        p = (buildtrees paths // name spec // "src") ++ rest
        /\ (List.length rest = 1 \/ List.length rest = 2)%nat)
     /\ exists_at (fs w) p
     /\ (filename p = "LICENSE" \/ filename p = "LICENSE.txt"
         \/ filename p = "COPYING")%string) /\
  (exists_at (fs w)
     (packages paths // dir spec // "share" // name spec // "copyright") ->
   check_for_copyright_file w spec paths = Returned SUCCESS []) /\
  (~ exists_at (fs w)
       (packages paths // dir spec // "share" // name spec // "copyright") ->
   (exists out,
      check_for_copyright_file w spec paths
      = Returned ERROR_DETECTED (license_warning spec :: out)) /\
   forall rest,
     potential_copyright_files_of w spec paths
     = [(buildtrees paths // name spec // "src") ++ rest] ->
     check_for_copyright_file w spec paths
     = Returned ERROR_DETECTED
         [ license_warning spec;
           copy_instructions spec ("src" :: rest)
             ((buildtrees paths // name spec // "src") ++ rest) ]).
Proof.
  intros U. split; [intros p; now apply In_potential_copyright_files |].
  unfold exists_at, check_for_copyright_file, fs_exists. cbv zeta.
  fold (potential_copyright_files_of w spec paths).
  destruct (lookup (fs w) _) as [n |]; split.
  - reflexivity.
  - intros N. now elim N.
  - intros N. now elim N.
  - intros _. split.
    + destruct (potential_copyright_files_of w spec paths) as [| f [| g l]];
        rewrite ?print_vector_of_files_eq; split_ifs;
        cbn [bind println ret app]; eexists; reflexivity.
    + intros rest ->. cbn [bind println ret app].
      assert (E : (buildtrees paths // name spec // "src") ++ rest
                  = (buildtrees paths // name spec) ++ "src" :: rest)
        by (unfold path_append; now rewrite <- !app_assoc).
      rewrite E, skipn_length_app. reflexivity.
Qed.

Lemma check_for_copyright_file_on_example :
  unique_names (fs example_messy_world) = true /\
  ~ exists_at (fs example_messy_world)
      (packages example_paths // dir example_spec // "share" // name example_spec
       // "copyright") /\
  potential_copyright_files_of example_messy_world example_spec example_paths
  = [["buildtrees"; "zlib"; "src"; "zlib-1.2.8"; "LICENSE"]] /\
  check_for_copyright_file example_messy_world example_spec example_paths
  = Returned ERROR_DETECTED
      [ license_warning example_spec;
        copy_instructions example_spec ["src"; "zlib-1.2.8"; "LICENSE"]
          ["buildtrees"; "zlib"; "src"; "zlib-1.2.8"; "LICENSE"] ].
Proof.
  assert (U : unique_names (fs example_messy_world) = true) by reflexivity.
  assert (N : ~ exists_at (fs example_messy_world)
                  (packages example_paths // dir example_spec // "share"
                   // name example_spec // "copyright"))
    by (intros X; now apply X).
  assert (P : potential_copyright_files_of example_messy_world example_spec
                example_paths
              = [(buildtrees example_paths // name example_spec // "src")
                 ++ ["zlib-1.2.8"; "LICENSE"]]) by reflexivity.
  split; [exact U |]. split; [exact N |]. split; [exact P |].
  destruct (check_for_copyright_file_spec
              example_messy_world example_spec example_paths U) as (_ & _ & K).
  exact (proj2 (K N) _ P).
Defined.

(** ** Architecture checks *)

Lemma print_invalid_architecture_files_eq (expected_architecture : string)
  (binaries : list file_and_arch) :
  print_invalid_architecture_files expected_architecture binaries
  = Returned tt (architecture_mismatch_report expected_architecture binaries).
Proof.
  unfold print_invalid_architecture_files, architecture_mismatch_report.
  erewrite for_each_prints by (intros x; reflexivity). reflexivity.
Qed.

Lemma architecture_verdict_eq (expected_architecture : string)
  (v : list file_and_arch) :
  (if negb (is_empty_vec v) then
     print_invalid_architecture_files expected_architecture v ;;
     ret ERROR_DETECTED
   else ret SUCCESS)
  = architecture_verdict expected_architecture v.
Proof.
  unfold architecture_verdict. rewrite print_invalid_architecture_files_eq.
  destruct (is_empty_vec v); cbn [negb bind ret app];
    [reflexivity | now rewrite app_nil_r].
Qed.

Section ArchitectureChecks.

Variables AMD64 IA64 I386 ARM ARMNT : Z.

Local Notation actual_architecture_of :=
  (get_actual_architecture AMD64 IA64 I386 ARM ARMNT).

Lemma check_dll_architecture_loop
  (w : world) (expected_architecture : string) (files : list path)
  (acc : list file_and_arch) :
  Forall (fun f => extension f = ".dll"%string) files ->
  for_each
    (fun file binaries_with_invalid_architecture =>
       check_exit (String.eqb (extension file) ".dll")
         ("The file extension was not .dll: " ++ generic_string file) ;;
       let info := read_dll w file in
       let actual_architecture := actual_architecture_of info in
       if negb (String.eqb expected_architecture actual_architecture)
       then ret (binaries_with_invalid_architecture
                 ++ [{| file := file; actual_arch := actual_architecture |}])
       else ret binaries_with_invalid_architecture)
    files acc
  = Returned
      (acc ++ map (fun f => {| file := f;
                               actual_arch := actual_architecture_of (read_dll w f) |})
                (filter (fun f => negb (String.eqb expected_architecture
                                          (actual_architecture_of (read_dll w f))))
                   files))
      [].
Proof.
  cbv zeta. intros F. revert acc.
  induction F as [| f files X F IH]; intros acc.
  - cbn [for_each filter map]. now rewrite app_nil_r.
  - rewrite for_each_cons. cbv beta. rewrite X, String.eqb_refl.
    cbn [check_exit bind ret filter].
    destruct (negb (String.eqb expected_architecture
                      (actual_architecture_of (read_dll w f))));
      cbn [bind ret app map]; rewrite IH; [rewrite <- app_assoc |]; reflexivity.
Qed.

(** X9: on files that all carry the extension .dll,
    [check_dll_architecture] reports exactly the files whose machine type
    reads as another architecture than the expected one, each once and in
    the order of the list, with the architecture that was read; it passes
    silently when there is none, in particular on no files.  A file with
    another extension ends the run with a fatal exit, and nothing of what
    the loop had found before it is printed. *)
Theorem check_dll_architecture_reports_mismatches
  (w : world) (expected_architecture : string) (files : list path) :
  (Forall (fun f => extension f = ".dll"%string) files ->
   check_dll_architecture AMD64 IA64 I386 ARM ARMNT w expected_architecture files
   = architecture_verdict expected_architecture
       (map (fun f => {| file := f;
                         actual_arch := actual_architecture_of (read_dll w f) |})
          (filter (fun f => negb (String.eqb expected_architecture
                                    (actual_architecture_of (read_dll w f))))
             files))) /\
  (forall before f after,
     files = before ++ f :: after ->
     Forall (fun f => extension f = ".dll"%string) before ->
     extension f <> ".dll"%string ->
     check_dll_architecture AMD64 IA64 I386 ARM ARMNT w expected_architecture files
     = Fatal ("The file extension was not .dll: " ++ generic_string f) []).
Proof.
  split.
  - intros F. unfold check_dll_architecture.
    pose proof (check_dll_architecture_loop w expected_architecture files [] F)
      as L. cbv zeta in L. cbv zeta. rewrite L. cbn [bind app].
    rewrite architecture_verdict_eq.
    unfold architecture_verdict. destruct (is_empty_vec _); reflexivity.
  - intros before f after -> F X. unfold check_dll_architecture. cbv zeta.
    assert (S : forall acc,
      for_each
        (fun file binaries_with_invalid_architecture =>
           check_exit (String.eqb (extension file) ".dll")
             ("The file extension was not .dll: " ++ generic_string file) ;;
           (if negb (String.eqb expected_architecture
                       (actual_architecture_of (read_dll w file)))
            then ret (binaries_with_invalid_architecture
                      ++ [{| file := file;
                             actual_arch := actual_architecture_of (read_dll w file) |}])
            else ret binaries_with_invalid_architecture))
        (before ++ f :: after) acc
      = Fatal ("The file extension was not .dll: " ++ generic_string f) []).
    { induction F as [| g before G F IH]; intros acc.
      - cbn [app]. rewrite for_each_cons. cbv beta.
        apply String.eqb_neq in X. rewrite X. reflexivity.
      - cbn [app]. rewrite for_each_cons. cbv beta.
        rewrite G, String.eqb_refl. cbn [check_exit bind ret].
        destruct (negb _); cbn [bind ret app]; now rewrite IH. }
    now rewrite S.
Qed.

(** X10: on files that all carry the extension .lib and for each of which
    the COFF reader gives exactly one machine type,
    [check_lib_architecture] reports exactly the files whose machine type
    reads as another architecture than the expected one, each once and in
    the order of the list; it passes silently when there is none. *)
Theorem check_lib_architecture_reports_mismatches
  (w : world) (expected_architecture : string) (files : list path) :
  Forall (fun f => extension f = ".lib"%string
                   /\ List.length (read_lib w f) = 1%nat) files ->
  check_lib_architecture AMD64 IA64 I386 ARM ARMNT w expected_architecture files
  = architecture_verdict expected_architecture
      (map (fun f => {| file := f;
                        actual_arch :=
                          actual_architecture_of (hd 0%Z (read_lib w f)) |})
         (filter (fun f => negb (String.eqb expected_architecture
                                   (actual_architecture_of
                                      (hd 0%Z (read_lib w f)))))
            files)).
Proof.
  intros F. unfold check_lib_architecture. cbv zeta.
  assert (L : forall acc,
    for_each
      (fun file binaries_with_invalid_architecture =>
         check_exit (String.eqb (extension file) ".lib")
           ("The file extension was not .lib: " ++ generic_string file) ;;
         check_exit (Nat.eqb (List.length (read_lib w file)) 1)
           ("Found more than 1 architecture in file " ++ generic_string file) ;;
         (if negb (String.eqb expected_architecture
                     (actual_architecture_of (hd 0%Z (read_lib w file))))
          then ret (binaries_with_invalid_architecture
                    ++ [{| file := file;
                           actual_arch :=
                             actual_architecture_of (hd 0%Z (read_lib w file)) |}])
          else ret binaries_with_invalid_architecture))
      files acc
    = Returned
        (acc ++ map (fun f => {| file := f;
                                 actual_arch :=
                                   actual_architecture_of (hd 0%Z (read_lib w f)) |})
                  (filter (fun f => negb (String.eqb expected_architecture
                                            (actual_architecture_of
                                               (hd 0%Z (read_lib w f)))))
                     files))
        []).
  { induction F as [| f files [X N] F IH]; intros acc.
    - cbn [for_each filter map]. now rewrite app_nil_r.
    - rewrite for_each_cons. cbv beta. rewrite X, String.eqb_refl, N.
      cbn [Nat.eqb check_exit bind ret filter app].
      destruct (negb (String.eqb expected_architecture
                        (actual_architecture_of (hd 0%Z (read_lib w f)))));
        cbn [bind ret app map]; rewrite IH; [rewrite <- app_assoc |];
        reflexivity. }
  rewrite L. cbn [bind app]. rewrite architecture_verdict_eq.
  unfold architecture_verdict. destruct (is_empty_vec _); reflexivity.
Qed.

End ArchitectureChecks.

Lemma check_dll_architecture_on_example :
  Forall (fun f => extension f = ".dll"%string)
    (dlls_of example_dynamic_world example_spec example_paths) /\
  check_dll_architecture pe_AMD64 pe_IA64 pe_I386 pe_ARM pe_ARMNT
    example_dynamic_world "x64"
    (dlls_of example_dynamic_world example_spec example_paths)
  = Returned ERROR_DETECTED
      [ (warning, "The following files were built for an incorrect architecture:"%string);
        (plain, ""%string);
        (plain, "    packages/zlib_x86-windows/debug/bin/zlibd1.dll"%string);
        (plain, "Expected x64, but was: x86"%string);
        (plain, ""%string);
        (plain, "    packages/zlib_x86-windows/bin/zlib1.dll"%string);
        (plain, "Expected x64, but was: x86"%string);
        (plain, ""%string) ].
Proof.
  assert (F : Forall (fun f => extension f = ".dll"%string)
                (dlls_of example_dynamic_world example_spec example_paths)).
  { vm_compute. repeat (constructor; [reflexivity |]). constructor. }
  split; [exact F |].
  rewrite (proj1 (check_dll_architecture_reports_mismatches
                    pe_AMD64 pe_IA64 pe_I386 pe_ARM pe_ARMNT
                    example_dynamic_world "x64" _) F).
  reflexivity.
Defined.

Lemma check_lib_architecture_on_example :
  Forall (fun f => extension f = ".lib"%string
                   /\ List.length (read_lib example_dynamic_world f) = 1%nat)
    (debug_libs_of example_dynamic_world example_spec example_paths
     ++ release_libs_of example_dynamic_world example_spec example_paths) /\
  check_lib_architecture pe_AMD64 pe_IA64 pe_I386 pe_ARM pe_ARMNT
    example_dynamic_world "x86"
    (debug_libs_of example_dynamic_world example_spec example_paths
     ++ release_libs_of example_dynamic_world example_spec example_paths)
  = Returned SUCCESS [].
Proof.
  assert (F : Forall (fun f => extension f = ".lib"%string
                               /\ List.length (read_lib example_dynamic_world f)
                                  = 1%nat)
                (debug_libs_of example_dynamic_world example_spec example_paths
                 ++ release_libs_of example_dynamic_world example_spec
                      example_paths)).
  { vm_compute. repeat (constructor; [split; reflexivity |]). constructor. }
  split; [exact F |].
  rewrite (check_lib_architecture_reports_mismatches
             pe_AMD64 pe_IA64 pe_I386 pe_ARM pe_ARMNT
             example_dynamic_world "x86" _ F).
  reflexivity.
Defined.

Section ArchitectureNames.

Variables AMD64 IA64 I386 ARM ARMNT : Z.

(** X11: with the five enumerators standing for different codes, the three
    architecture names are given for their codes only: a 16-bit code reads as
    x64 exactly when it is AMD64 or IA64, as x86 exactly when it is I386, as
    arm exactly when it is ARM or ARMNT; and two 16-bit codes outside the
    five never read as the same text. *)
Theorem get_actual_architecture_names_are_exact (code code' : Z) :
  NoDup [AMD64; IA64; I386; ARM; ARMNT] ->
  (0 <= code < 2 ^ 16)%Z ->
  (0 <= code' < 2 ^ 16)%Z ->
  (get_actual_architecture AMD64 IA64 I386 ARM ARMNT code = "x64"%string
   <-> code = AMD64 \/ code = IA64) /\
  (get_actual_architecture AMD64 IA64 I386 ARM ARMNT code = "x86"%string
   <-> code = I386) /\
  (get_actual_architecture AMD64 IA64 I386 ARM ARMNT code = "arm"%string
   <-> code = ARM \/ code = ARMNT) /\
  (~ In code [AMD64; IA64; I386; ARM; ARMNT] ->
   ~ In code' [AMD64; IA64; I386; ARM; ARMNT] ->
   get_actual_architecture AMD64 IA64 I386 ARM ARMNT code
   = get_actual_architecture AMD64 IA64 I386 ARM ARMNT code' ->
   code = code').
Proof.
  intros D R R'.
  inversion D as [| ? ? D1 Da]; subst. inversion Da as [| ? ? D2 Db]; subst.
  inversion Db as [| ? ? D3 Dc]; subst. inversion Dc as [| ? ? D4 _]; subst.
  cbn [In] in D1, D2, D3, D4.
  assert (K : forall c, ~ In c [AMD64; IA64; I386; ARM; ARMNT] ->
                        get_actual_architecture AMD64 IA64 I386 ARM ARMNT c
                        = ("Machine Type Code = " ++ to_string (c mod 2 ^ 16))%string).
  { intros c O. cbn [In] in O. unfold get_actual_architecture.
    destruct (Z.eqb_spec c AMD64), (Z.eqb_spec c IA64), (Z.eqb_spec c I386),
      (Z.eqb_spec c ARM), (Z.eqb_spec c ARMNT);
      try solve [exfalso; intuition congruence]. reflexivity. }
  split; [| split; [| split]].
  - unfold get_actual_architecture.
    destruct (Z.eqb_spec code AMD64), (Z.eqb_spec code IA64),
      (Z.eqb_spec code I386), (Z.eqb_spec code ARM), (Z.eqb_spec code ARMNT);
      cbn [orb]; split; intros H; try reflexivity; try discriminate H;
      try solve [intuition congruence].
  - unfold get_actual_architecture.
    destruct (Z.eqb_spec code AMD64), (Z.eqb_spec code IA64),
      (Z.eqb_spec code I386), (Z.eqb_spec code ARM), (Z.eqb_spec code ARMNT);
      cbn [orb]; split; intros H; try reflexivity; try discriminate H;
      try solve [intuition congruence].
  - unfold get_actual_architecture.
    destruct (Z.eqb_spec code AMD64), (Z.eqb_spec code IA64),
      (Z.eqb_spec code I386), (Z.eqb_spec code ARM), (Z.eqb_spec code ARMNT);
      cbn [orb]; split; intros H; try reflexivity; try discriminate H;
      try solve [intuition congruence].
  - intros O O' E. rewrite (K code O), (K code' O') in E.
    rewrite !Z.mod_small in E by assumption.
    apply string_app_inv_length in E as [_ E]; [| reflexivity].
    apply (f_equal decimal_value) in E.
    rewrite !decimal_value_to_string in E by lia. now injection E.
Qed.

End ArchitectureNames.

Lemma get_actual_architecture_names_on_pe_codes :
  NoDup [pe_AMD64; pe_IA64; pe_I386; pe_ARM; pe_ARMNT] /\
  (0 <= 43620 < 2 ^ 16)%Z /\ (0 <= 467 < 2 ^ 16)%Z /\
  get_actual_architecture pe_AMD64 pe_IA64 pe_I386 pe_ARM pe_ARMNT 43620
  <> "x64"%string /\
  get_actual_architecture pe_AMD64 pe_IA64 pe_I386 pe_ARM pe_ARMNT 43620
  <> get_actual_architecture pe_AMD64 pe_IA64 pe_I386 pe_ARM pe_ARMNT 467.
Proof.
  assert (D : NoDup [pe_AMD64; pe_IA64; pe_I386; pe_ARM; pe_ARMNT]).
  { repeat constructor; simpl; intros H;
      repeat (destruct H as [H | H]; [discriminate H |]); exact H. }
  assert (R : (0 <= 43620 < 2 ^ 16)%Z) by (split; [discriminate | reflexivity]).
  assert (R' : (0 <= 467 < 2 ^ 16)%Z) by (split; [discriminate | reflexivity]).
  split; [exact D |]. split; [exact R |]. split; [exact R' |].
  destruct (get_actual_architecture_names_are_exact
              pe_AMD64 pe_IA64 pe_I386 pe_ARM pe_ARMNT 43620 467 D R R')
    as (X & _ & _ & J).
  split.
  - intros E. apply X in E. destruct E as [E | E]; discriminate E.
  - intros E. apply J in E; [discriminate E | |];
      simpl; intros H;
      repeat (destruct H as [H | H]; [discriminate H |]); exact H.
Defined.

Section ExtensionGuards.

Variables AMD64 IA64 I386 ARM ARMNT : Z.

(** X12: the extension guards of the two architecture checks cannot end a
    run of [perform_all_checks]: on the DLLs it collects,
    [check_dll_architecture] always returns, and on the libraries it
    collects [check_lib_architecture] returns when every library has exactly
    one machine type and otherwise ends the run with "Found more than 1
    architecture" for a library that has not. *)
Theorem extension_guards_hold_on_collected_files
  (w : world) (spec : package_spec) (paths : vcpkg_paths)
  (expected_architecture : string) :
  (exists s out,
     check_dll_architecture AMD64 IA64 I386 ARM ARMNT w expected_architecture
       (debug_dlls_of w spec paths ++ release_dlls_of w spec paths)
     = Returned s out) /\
  ((exists s out,
      check_lib_architecture AMD64 IA64 I386 ARM ARMNT w expected_architecture
        (debug_libs_of w spec paths ++ release_libs_of w spec paths)
      = Returned s out)
   \/ exists f,
        In f (debug_libs_of w spec paths ++ release_libs_of w spec paths)
        /\ List.length (read_lib w f) <> 1%nat
        /\ check_lib_architecture AMD64 IA64 I386 ARM ARMNT w expected_architecture
             (debug_libs_of w spec paths ++ release_libs_of w spec paths)
           = Fatal ("Found more than 1 architecture in file " ++ generic_string f)
               []).
Proof.
  split.
  - assert (F : Forall (fun f => extension f = ".dll"%string)
                  (debug_dlls_of w spec paths ++ release_dlls_of w spec paths)).
    { apply Forall_forall. intros f I.
      apply in_app_iff in I as [I | I]; now apply found_files_have_extension in I. }
    unfold check_dll_architecture.
    pose proof (check_dll_architecture_loop AMD64 IA64 I386 ARM ARMNT
                  w expected_architecture _ [] F) as L.
    cbv zeta in L. cbv zeta. rewrite L. cbn [bind app].
    rewrite architecture_verdict_eq. unfold architecture_verdict.
    destruct (is_empty_vec _); eexists _, _; reflexivity.
  - pose proof (check_lib_architecture_loop AMD64 IA64 I386 ARM ARMNT
                  w expected_architecture
                  (debug_libs_of w spec paths ++ release_libs_of w spec paths) [])
      as H. cbv zeta in H.
    unfold check_lib_architecture. cbv zeta.
    destruct H as [[_ [acc' E]] | (f & I & E & L)]; rewrite E.
    + left. cbn [bind]. rewrite architecture_verdict_eq.
      unfold architecture_verdict. destruct (is_empty_vec _);
        cbn [app]; eexists _, _; reflexivity.
    + right. exists f.
      assert (X : extension f = ".lib"%string).
      { apply in_app_iff in I as [I | I];
          now apply found_files_have_extension in I. }
      split; [exact I |]. split; [now apply L |].
      rewrite X, String.eqb_refl. reflexivity.
Qed.

End ExtensionGuards.

(** ** The CRT linkage check *)

Lemma crt_bucket_eqb_eq (a b : crt_bucket) : crt_bucket_eqb a b = true <-> a = b.
Proof.
  destruct a as [| | [] ], b as [| | [] ]; simpl; split; intros H;
    try reflexivity; try discriminate H.
Qed.

Lemma crt_vector_push_back (b b' : crt_bucket) (lib : path) (v : crt_vectors) :
  crt_vector b' (push_back_crt b lib v)
  = crt_vector b' v ++ (if crt_bucket_eqb b b' then [lib] else []).
Proof.
  destruct b as [| | [] ], b' as [| | [] ]; simpl;
    rewrite ?app_nil_r; reflexivity.
Qed.

Lemma crt_loop_returns (w : world) (libs : list path) (v : crt_vectors) :
  Forall (dump_succeeds w "/directives") libs ->
  exists v',
    for_each
      (fun lib v =>
         let cmd_line := dumpbin_cmd_line "/directives" lib in
         let ec_data := cmd_execute_and_capture_output w cmd_line in
         check_exit (Z.eqb (exit_code ec_data) 0) (running_command_failed cmd_line) ;;
         ret (push_back_crt (crt_bucket_of (output ec_data)) lib v))
      libs v
    = Returned v' [] /\
    forall b, crt_vector b v' = crt_vector b v ++ libs_in_bucket w b libs.
Proof.
  cbv zeta. intros F. revert v.
  induction F as [| lib libs D F IH]; intros v.
  - exists v. split; [reflexivity |]. intros b. cbn. now rewrite app_nil_r.
  - rewrite for_each_cons. cbv beta. unfold dump_succeeds in D. rewrite D.
    cbn [Z.eqb check_exit bind ret app].
    destruct (IH (push_back_crt
                    (crt_bucket_of
                       (output (cmd_execute_and_capture_output w
                                  (dumpbin_cmd_line "/directives" lib)))) lib v))
      as (v' & E & V).
    exists v'. rewrite E. split; [reflexivity |].
    intros b. rewrite V, crt_vector_push_back, <- app_assoc.
    unfold libs_in_bucket, directives_of. cbn [filter].
    destruct (crt_bucket_eqb _ b); reflexivity.
Qed.

Lemma crt_report_after_loop (BuildType_toString : BuildType -> string)
  (expected_build_type : BuildType) (g1 g2 g3 g4 g5 g6 : list path) :
  (output_status <-
     (if negb (is_empty_vec g1) then
        println warning "Could not detect the crt linkage in the following libs:" ;;
        print_vector_of_files g1 ;;
        ret ERROR_DETECTED
      else ret SUCCESS) ;;
   output_status <-
     (if negb (is_empty_vec g2) then
        println warning "Detected multiple crt linkages for the following libs:" ;;
        print_vector_of_files g2 ;;
        ret ERROR_DETECTED
      else ret output_status) ;;
   output_status <-
     for_each
       (fun bif output_status =>
          if negb (is_empty_vec (files bif))
             && negb (BuildType_eqb (build_type bif) expected_build_type)
          then
            println warning
              ("Expected " ++ BuildType_toString expected_build_type
               ++ " crt linkage, but the following libs had "
               ++ BuildType_toString (build_type bif) ++ " crt linkage:") ;;
            print_vector_of_files (files bif) ;;
            ret ERROR_DETECTED
          else ret output_status)
       [ {| build_type := DEBUG_STATIC; files := g3 |};
         {| build_type := DEBUG_DYNAMIC; files := g4 |};
         {| build_type := RELEASE_STATIC; files := g5 |};
         {| build_type := RELEASE_DYNAMIC; files := g6 |} ]
       output_status ;;
   (match output_status with
    | ERROR_DETECTED =>
        println warning
          ("To inspect the lib files, use:" ++ nl
           ++ "    dumpbin.exe /directives mylibfile.lib")
    | SUCCESS => ret tt
    end) ;;
   ret output_status)
  = (if is_empty_vec
          (crt_group_report
             "Could not detect the crt linkage in the following libs:" g1
           ++ crt_group_report
                "Detected multiple crt linkages for the following libs:" g2
           ++ flat_map
                (fun bg =>
                   if BuildType_eqb (fst bg) expected_build_type then []
                   else crt_group_report
                          ("Expected " ++ BuildType_toString expected_build_type
                           ++ " crt linkage, but the following libs had "
                           ++ BuildType_toString (fst bg) ++ " crt linkage:")
                          (snd bg))
                [ (DEBUG_STATIC, g3); (DEBUG_DYNAMIC, g4);
                  (RELEASE_STATIC, g5); (RELEASE_DYNAMIC, g6) ])
     then Returned SUCCESS []
     else Returned ERROR_DETECTED
            ((crt_group_report
                "Could not detect the crt linkage in the following libs:" g1
              ++ crt_group_report
                   "Detected multiple crt linkages for the following libs:" g2
              ++ flat_map
                   (fun bg =>
                      if BuildType_eqb (fst bg) expected_build_type then []
                      else crt_group_report
                             ("Expected " ++ BuildType_toString expected_build_type
                              ++ " crt linkage, but the following libs had "
                              ++ BuildType_toString (fst bg) ++ " crt linkage:")
                             (snd bg))
                   [ (DEBUG_STATIC, g3); (DEBUG_DYNAMIC, g4);
                     (RELEASE_STATIC, g5); (RELEASE_DYNAMIC, g6) ])
             ++ [(warning,
                  ("To inspect the lib files, use:" ++ nl
                   ++ "    dumpbin.exe /directives mylibfile.lib")%string)])).
Proof.
  rewrite !print_vector_of_files_eq. unfold crt_group_report.
  cbn [for_each flat_map fst snd files build_type].
  rewrite !print_vector_of_files_eq.
  destruct expected_build_type;
    destruct g1 as [| x1 g1], g2 as [| x2 g2], g3 as [| x3 g3],
      g4 as [| x4 g4], g5 as [| x5 g5], g6 as [| x6 g6];
    cbn [BuildType_eqb is_empty_vec negb andb bind println ret app];
    repeat (first [rewrite <- app_assoc | rewrite app_nil_r | progress cbn [app]]);
    reflexivity.
Qed.

Lemma In_crt_group_report (first_line : string) (group : list path) (lib : path) :
  In lib group ->
  In (plain, ("    " ++ generic_string lib)%string)
     (crt_group_report first_line group).
Proof.
  intros I. unfold crt_group_report.
  destruct group as [| x l]; [destruct I |]. right. now apply In_printed_files.
Qed.

Lemma libs_in_other_bucket (w : world) (b b' : crt_bucket) (libs : list path) :
  Forall (fun lib => crt_bucket_of (directives_of w lib) = b) libs ->
  b <> b' -> libs_in_bucket w b' libs = [].
Proof.
  intros F N. unfold libs_in_bucket.
  induction F as [| lib libs E F IH]; [reflexivity |].
  cbn [filter]. rewrite E.
  destruct (crt_bucket_eqb b b') eqn:Q; [apply crt_bucket_eqb_eq in Q; now elim N |].
  exact IH.
Qed.

Section CrtLinkage.

Variable BuildType_toString : BuildType -> string.

(** X13: when every /directives dump succeeds,
    [check_crt_linkage_of_libs] passes silently exactly when every library
    has the expected linkage as its only one.  Otherwise its report is made,
    in this order, of the libraries without a marker, the ones with several,
    and the ones of each build type other than the expected one, each group
    being the libraries of the list so classified, in the order of the
    list; every library that is not of the expected linkage is listed, and
    the report ends with the hint. *)
Theorem check_crt_linkage_of_libs_groups
  (w : world) (expected_build_type : BuildType) (libs : list path) :
  Forall (dump_succeeds w "/directives") libs ->
  check_crt_linkage_of_libs BuildType_toString w expected_build_type libs
  = (if is_empty_vec (crt_report BuildType_toString w expected_build_type libs)
     then Returned SUCCESS []
     else Returned ERROR_DETECTED
            (crt_report BuildType_toString w expected_build_type libs
             ++ [crt_inspect_hint])) /\
  (crt_report BuildType_toString w expected_build_type libs = [] <->
   Forall (fun lib => crt_bucket_of (directives_of w lib)
                      = libs_with_crt expected_build_type) libs) /\
  (forall lib,
     In lib libs ->
     crt_bucket_of (directives_of w lib) <> libs_with_crt expected_build_type ->
     In (plain, ("    " ++ generic_string lib)%string)
        (crt_report BuildType_toString w expected_build_type libs)).
Proof.
  intros F.
  assert (L : forall lib,
             In lib libs ->
             crt_bucket_of (directives_of w lib) <> libs_with_crt expected_build_type ->
             In (plain, ("    " ++ generic_string lib)%string)
                (crt_report BuildType_toString w expected_build_type libs)).
  { intros lib I N.
    assert (G : In lib (libs_in_bucket w (crt_bucket_of (directives_of w lib)) libs)).
    { unfold libs_in_bucket. apply filter_In. split; [exact I |].
      now apply crt_bucket_eqb_eq. }
    unfold crt_report.
    destruct (crt_bucket_of (directives_of w lib)) as [| | b] eqn:B.
    - apply in_or_app. left. now apply In_crt_group_report.
    - apply in_or_app. right. apply in_or_app. left.
      now apply In_crt_group_report.
    - apply in_or_app. right. apply in_or_app. right.
      apply in_flat_map. exists b. split; [destruct b; cbn; tauto |].
      destruct (BuildType_eqb b expected_build_type) eqn:Q.
      + exfalso. apply N. f_equal.
        destruct b, expected_build_type; try reflexivity; discriminate Q.
      + now apply In_crt_group_report. }
  split; [| split; [| exact L]].
  - unfold check_crt_linkage_of_libs. cbv zeta.
    pose proof (crt_loop_returns w libs empty_crt_vectors F) as H.
    cbv zeta in H. destruct H as (v' & E & V0). rewrite E. cbn [bind].
    assert (V : forall b, crt_vector b v' = libs_in_bucket w b libs)
      by (intros b; rewrite V0; destruct b as [| | []]; reflexivity).
    rewrite (crt_report_after_loop BuildType_toString expected_build_type
               (no_crts v') (multiple_crts v') (debug_static_crt v')
               (debug_dynamic_crt v') (release_static_crt v')
               (release_dynamic_crt v')).
    change (no_crts v') with (crt_vector libs_with_no_crts v').
    change (multiple_crts v') with (crt_vector libs_with_multiple_crts v').
    change (debug_static_crt v') with (crt_vector (libs_with_crt DEBUG_STATIC) v').
    change (debug_dynamic_crt v') with (crt_vector (libs_with_crt DEBUG_DYNAMIC) v').
    change (release_static_crt v')
      with (crt_vector (libs_with_crt RELEASE_STATIC) v').
    change (release_dynamic_crt v')
      with (crt_vector (libs_with_crt RELEASE_DYNAMIC) v').
    rewrite !V. cbn [flat_map fst snd].
    unfold crt_report, crt_inspect_hint. cbn [flat_map].
    match goal with
    | |- context [is_empty_vec ?r] => destruct (is_empty_vec r)
    end; reflexivity.
  - split.
    + intros R. apply Forall_forall. intros lib I.
      destruct (crt_bucket_eqb (crt_bucket_of (directives_of w lib))
                  (libs_with_crt expected_build_type)) eqn:Q;
        [now apply crt_bucket_eqb_eq |].
      exfalso. assert (N : crt_bucket_of (directives_of w lib)
                           <> libs_with_crt expected_build_type).
      { intros X. apply crt_bucket_eqb_eq in X. congruence. }
      specialize (L lib I N). rewrite R in L. destruct L.
    + intros A. unfold crt_report.
      rewrite !(libs_in_other_bucket w _ _ libs A) by discriminate.
      cbn [crt_group_report is_empty_vec app flat_map].
      destruct expected_build_type; cbn [BuildType_eqb];
        rewrite ?(libs_in_other_bucket w _ _ libs A) by discriminate;
        reflexivity.
Qed.

End CrtLinkage.

Lemma check_crt_linkage_of_libs_on_example :
  Forall (dump_succeeds example_crt_world "/directives") example_libs /\
  check_crt_linkage_of_libs example_BuildType_toString example_crt_world
    RELEASE_STATIC example_libs
  = Returned ERROR_DETECTED
      [ (warning, "Could not detect the crt linkage in the following libs:"%string);
        (plain, ""%string); (plain, "    lib/plain.lib"%string); (plain, ""%string);
        (warning, "Detected multiple crt linkages for the following libs:"%string);
        (plain, ""%string); (plain, "    lib/mixed.lib"%string); (plain, ""%string);
        (warning,
         "Expected Release,Static crt linkage, but the following libs had Debug,Static crt linkage:"%string);
        (plain, ""%string); (plain, "    lib/debug.lib"%string); (plain, ""%string);
        crt_inspect_hint ].
Proof.
  assert (F : Forall (dump_succeeds example_crt_world "/directives") example_libs).
  { repeat (constructor; [reflexivity |]). constructor. }
  split; [exact F |].
  rewrite (proj1 (check_crt_linkage_of_libs_groups example_BuildType_toString
                    example_crt_world RELEASE_STATIC example_libs F)).
  reflexivity.
Defined.

(** ** Every way a run can end *)

Lemma never_exits_Returned {A : Type} (a : A) (o : console) :
  never_exits (Returned a o).
Proof. intros st out H. discriminate H. Qed.

Lemma never_exits_Fatal {A : Type} (msg : string) (o : console) :
  never_exits (@Fatal A msg o).
Proof. intros st out H. discriminate H. Qed.

Lemma never_exits_ret {A : Type} (a : A) : never_exits (ret a).
Proof. apply never_exits_Returned. Qed.

Lemma never_exits_println (c : color) (text : string) :
  never_exits (println c text).
Proof. apply never_exits_Returned. Qed.

Lemma never_exits_check_exit (e : bool) (msg : string) :
  never_exits (check_exit e msg).
Proof. destruct e; [apply never_exits_Returned | apply never_exits_Fatal]. Qed.

Lemma never_exits_bind {A B : Type} (m : result A) (k : A -> result B) :
  never_exits m -> (forall a, never_exits (k a)) -> never_exits (bind m k).
Proof.
  intros M K st out. destruct m as [a o | st' o | msg o]; cbn [bind].
  - specialize (K a). destruct (k a) as [b o' | st' o' | msg o'];
      [discriminate | now elim (K st' o') | discriminate].
  - now elim (M st' o).
  - discriminate.
Qed.

Lemma never_exits_for_each {A S : Type} (body : A -> S -> result S)
  (l : list A) (s : S) :
  (forall x s, never_exits (body x s)) -> never_exits (for_each body l s).
Proof.
  intros B. revert s. induction l as [| x l IH]; intros s;
    [apply never_exits_ret |].
  rewrite for_each_cons. apply never_exits_bind; [apply B | exact IH].
Qed.

Lemma never_exits_print_vector_of_files (paths : list path) :
  never_exits (print_vector_of_files paths).
Proof. rewrite print_vector_of_files_eq. apply never_exits_Returned. Qed.

Lemma never_exits_print_invalid_architecture_files (e : string)
  (l : list file_and_arch) :
  never_exits (print_invalid_architecture_files e l).
Proof.
  rewrite print_invalid_architecture_files_eq. apply never_exits_Returned.
Qed.

Ltac never_exits_steps :=
  cbv zeta;
  repeat first
    [ apply never_exits_ret
    | apply never_exits_println
    | apply never_exits_check_exit
    | apply never_exits_print_vector_of_files
    | apply never_exits_print_invalid_architecture_files
    | apply never_exits_Returned
    | apply never_exits_for_each; intros
    | apply never_exits_bind; [| intros]
    | match goal with
      | |- never_exits (if ?b then _ else _) => destruct b
      | |- never_exits (match ?l with [] => _ | _ :: _ => _ end) => destruct l
      end ].

Lemma returns_never_exits (c : result lint_status) (r : lint_status * console) :
  returns c r -> never_exits c.
Proof. intros ->. apply never_exits_Returned. Qed.

Lemma first_fatal_or_all_return (checks : list (result lint_status)) :
  Forall never_exits checks ->
  (exists rs, Forall2 returns checks rs)
  \/ exists before msg o rest rs,
       checks = before ++ Fatal msg o :: rest /\ Forall2 returns before rs.
Proof.
  induction 1 as [| c checks N F IH].
  - left. exists []. constructor.
  - destruct c as [s o | st o | msg o].
    + destruct IH as [[rs R] | (before & msg & o' & rest & rs & -> & R)].
      * left. exists ((s, o) :: rs). constructor; [reflexivity | exact R].
      * right. exists (Returned s o :: before), msg, o', rest, ((s, o) :: rs).
        split; [reflexivity |]. constructor; [reflexivity | exact R].
    + now elim (N st o).
    + right. exists [], msg, o, checks, []. split; [reflexivity | constructor].
Qed.

Lemma Forall2_returns_In (checks : list (result lint_status))
  (rs : list (lint_status * console)) (c : result lint_status) :
  Forall2 returns checks rs -> In c checks -> exists r, In r rs /\ returns c r.
Proof.
  induction 1 as [| c' r cs rs R F IH]; intros I; [destruct I |].
  destruct I as [<- | I].
  - exists r. split; [now left | exact R].
  - destruct (IH I) as (r' & I' & R'). exists r'. split; [now right | exact R'].
Qed.

Lemma In_violation (rs : list (lint_status * console)) (o : console) :
  In (ERROR_DETECTED, o) rs -> violations rs <> 0%nat.
Proof.
  intros I V. unfold violations in V. apply length_zero_iff_nil in V.
  assert (X : In (ERROR_DETECTED, o) (filter is_violation rs))
    by (apply filter_In; split; [exact I | reflexivity]).
  rewrite V in X. destruct X.
Qed.

Lemma In_concat_outputs (rs : list (lint_status * console))
  (r : lint_status * console) (x : color * string) :
  In r rs -> In x (snd r) -> In x (List.concat (map snd rs)).
Proof.
  intros I X. apply in_concat. exists (snd r). split; [| exact X].
  apply in_map_iff. now exists r.
Qed.

Lemma Returned_inj {A : Type} (a a' : A) (o o' : console) :
  Returned a o = Returned a' o' -> a = a' /\ o = o'.
Proof. intros H. now injection H. Qed.

Lemma no_violations_all_pass (checks : list (result lint_status))
  (rs : list (lint_status * console)) :
  Forall2 returns checks rs -> Forall silent_on_success checks ->
  violations rs = 0%nat -> Forall (fun c => c = Returned SUCCESS []) checks.
Proof.
  induction 1 as [| c r cs rs R F IH]; intros S V; [constructor |].
  inversion S as [| ? ? Sc Scs]; subst.
  unfold violations in V. cbn [filter] in V. unfold is_violation at 1 in V.
  unfold returns in R. destruct r as [s o]. cbn [fst snd] in *.
  destruct s; [| discriminate V].
  constructor; [| now apply IH]. rewrite R. f_equal. now apply Sc.
Qed.

Section Outcomes.

Variables AMD64 IA64 I386 ARM ARMNT : Z.
Variable linkage_type_value_of : string -> LinkageType.

Local Notation perform :=
  (perform_all_checks AMD64 IA64 I386 ARM ARMNT linkage_type_value_of).
Local Notation the_battery :=
  (battery AMD64 IA64 I386 ARM ARMNT linkage_type_value_of).

Lemma perform_all_checks_fatal
  (w : world) (spec : package_spec) (paths : vcpkg_paths)
  (before rest : list (result lint_status)) (rs : list (lint_status * console))
  (msg : string) (o : console) :
  the_battery w spec paths = before ++ Fatal msg o :: rest ->
  Forall2 returns before rs ->
  perform w spec paths
  = Fatal msg (validation_header :: List.concat (map snd rs) ++ o).
Proof.
  intros B R. rewrite perform_all_checks_as_battery, B.
  rewrite (run_checks_fatal _ _ rs _ msg o _ R eq_refl). reflexivity.
Qed.

(** X14: a check that ends in a failed [check_exit] ends the run there with
    the same message: what the checks before it printed is kept, the checks
    after it do not run, no error is counted and no report line is added. *)
Theorem failed_check_exit_ends_the_run
  (w : world) (spec : package_spec) (paths : vcpkg_paths)
  (before rest : list (result lint_status)) (rs : list (lint_status * console))
  (msg : string) (o : console) :
  the_battery w spec paths = before ++ Fatal msg o :: rest ->
  Forall2 returns before rs ->
  perform w spec paths
  = Fatal msg (validation_header :: List.concat (map snd rs) ++ o).
Proof.
  intros B R. rewrite perform_all_checks_as_battery, B.
  rewrite (run_checks_fatal before rest rs (Fatal msg o) msg o 0%Z R eq_refl).
  cbn [bind println app]. reflexivity.
Qed.

Lemma battery_never_exits (w : world) (spec : package_spec) (paths : vcpkg_paths) :
  Forall never_exits (the_battery w spec paths).
Proof.
  unfold battery, common_checks, linkage_checks.
  apply Forall_app; split; [| apply Forall_app; split].
  - repeat constructor.
    + unfold check_for_files_in_include_directory. never_exits_steps.
    + unfold check_for_files_in_debug_include_directory. never_exits_steps.
    + unfold check_for_files_in_debug_share_directory. never_exits_steps.
    + unfold check_folder_lib_cmake. never_exits_steps.
    + unfold check_for_misplaced_cmake_files. never_exits_steps.
    + unfold check_folder_debug_lib_cmake. never_exits_steps.
    + unfold check_for_dlls_in_lib_dirs. never_exits_steps.
    + unfold check_for_copyright_file. never_exits_steps.
    + unfold check_for_exes. never_exits_steps.
    + unfold check_matching_debug_and_release_binaries. never_exits_steps.
    + unfold check_lib_architecture. never_exits_steps.
  - destruct (linkage_type_value_of _); repeat constructor.
    + unfold check_matching_debug_and_release_binaries. never_exits_steps.
    + unfold check_exports_of_dlls. never_exits_steps.
    + unfold check_uwp_bit_of_dlls. never_exits_steps.
    + unfold check_dll_architecture. never_exits_steps.
    + unfold check_no_dlls_present. never_exits_steps.
    + unfold check_bin_folders_are_not_present_in_static_build. never_exits_steps.
    + unfold unknown_library_linkage. never_exits_steps.
  - repeat constructor. unfold check_no_empty_folders. never_exits_steps.
Qed.

(** X15: however the tree and the tools behave, a run of
    [perform_all_checks] ends in one of three ways.  It returns, and then
    every check of the battery passed and only the opening and the closing
    line were printed.  Or it exits with EXIT_FAILURE, and then every check
    ran, between one and sixteen of them reported, and the output is the
    header, their outputs in order and the report with that count.  Or a
    check ended in a failed [check_exit], and the run ends with its message
    after the output of the checks before it. *)
Theorem perform_all_checks_outcomes
  (w : world) (spec : package_spec) (paths : vcpkg_paths) :
  match perform w spec paths with
  | Returned _ out =>
      out = [validation_header; validation_done]
      /\ Forall (fun c => c = Returned SUCCESS []) (the_battery w spec paths)
  | Exited status out =>
      status = EXIT_FAILURE
      /\ exists rs,
           Forall2 returns (the_battery w spec paths) rs
           /\ (1 <= violations rs <= 16)%nat
           /\ out = validation_header :: List.concat (map snd rs)
                    ++ [error_report spec paths (violations rs)]
  | Fatal msg out =>
      exists before o rest rs,
        the_battery w spec paths = before ++ Fatal msg o :: rest
        /\ Forall2 returns before rs
        /\ out = validation_header :: List.concat (map snd rs) ++ o
  end.
Proof.
  destruct (first_fatal_or_all_return _ (battery_never_exits w spec paths))
    as [[rs R] | (before & msg & o & rest & rs & B & R)].
  - rewrite (perform_all_checks_verdict AMD64 IA64 I386 ARM ARMNT linkage_type_value_of w spec paths rs R).
    unfold verdict. destruct (violations rs) as [| n] eqn:V; cbn [Nat.eqb].
    + rewrite (no_violations_no_output _ rs R (battery_silent AMD64 IA64 I386 ARM ARMNT linkage_type_value_of w spec paths) V).
      split; [reflexivity |].
      exact (no_violations_all_pass _ rs R (battery_silent AMD64 IA64 I386 ARM ARMNT linkage_type_value_of w spec paths) V).
    + split; [reflexivity |]. exists rs. split; [exact R |]. rewrite V.
      split; [| reflexivity].
      pose proof (violations_le_length rs) as L.
      pose proof (battery_length AMD64 IA64 I386 ARM ARMNT linkage_type_value_of w spec paths) as K.
      rewrite (Forall2_length R) in K. lia.
  - rewrite (perform_all_checks_fatal w spec paths before rest rs msg o B R).
    exists before, o, rest, rs. now repeat split.
Qed.

(** X16: in a static build of a tree whose directories list no name twice, a
    file with the extension .dll anywhere below the package directory makes
    the run, when no check is cut short, exit with EXIT_FAILURE, with the
    path of the file in its output. *)
Theorem dll_in_static_build_is_rejected
  (w : world) (spec : package_spec) (paths : vcpkg_paths)
  (rs : list (lint_status * console)) (p : path) :
  linkage_type_value_of
    (library_linkage (read_build_info w (build_info_file_path paths spec)))
  = STATIC ->
  unique_names (fs w) = true ->
  below (packages paths // dir spec) p ->
  file_with_extension_at (fs w) ".dll" p ->
  Forall2 returns (the_battery w spec paths) rs ->
  exists out,
    perform w spec paths = Exited EXIT_FAILURE out
    /\ In (plain, ("    " ++ generic_string p)%string) out.
Proof.
  intros S U B F R.
  assert (I : In p (recursive_find_files_with_extension_in_dir (fs w)
                      (packages paths // dir spec) ".dll")).
  { unfold recursive_find_files_with_extension_in_dir.
    apply (In_find_files_with_extension _ _ _ _ _ U). now right. }
  assert (C : In (check_no_dlls_present
                    (recursive_find_files_with_extension_in_dir (fs w)
                       (packages paths // dir spec) ".dll"))
                 (the_battery w spec paths)).
  { unfold battery, linkage_checks. rewrite S. apply in_or_app. right.
    apply in_or_app. left. now left. }
  destruct (Forall2_returns_In _ _ _ R C) as ([s o] & Ir & Rr).
  unfold returns, check_no_dlls_present in Rr. cbn [fst snd] in Rr.
  rewrite print_vector_of_files_eq in Rr.
  destruct (recursive_find_files_with_extension_in_dir (fs w)
              (packages paths // dir spec) ".dll") as [| x l] eqn:E;
    [destruct I |].
  cbn [is_empty_vec bind println ret] in Rr.
  apply Returned_inj in Rr as [<- <-].
  rewrite (perform_all_checks_verdict AMD64 IA64 I386 ARM ARMNT linkage_type_value_of w spec paths rs R).
  unfold verdict.
  destruct (violations rs) as [| n] eqn:V;
    [now elim (In_violation rs _ Ir) |].
  cbn [Nat.eqb]. eexists. split; [reflexivity |].
  right. apply in_or_app. left.
  apply (In_concat_outputs rs _ _ Ir). cbn [snd].
  apply in_or_app. right. apply in_or_app. left. now apply In_printed_files.
Qed.

End Outcomes.

Lemma failed_check_exit_on_example :
  example_battery example_no_dumpbin_world
  = example_checks_before_exports
    ++ Fatal (running_command_failed
                (dumpbin_cmd_line "/exports"
                   ["packages"; "zlib_x86-windows"; "debug"; "bin"; "zlibd1.dll"]))
         []
       :: skipn 13 (example_battery example_no_dumpbin_world) /\
  Forall2 returns example_checks_before_exports
    (results_of example_checks_before_exports) /\
  example_perform_all_checks example_no_dumpbin_world
  = Fatal (running_command_failed
             (dumpbin_cmd_line "/exports"
                ["packages"; "zlib_x86-windows"; "debug"; "bin"; "zlibd1.dll"]))
      [validation_header].
Proof.
  assert (B : example_battery example_no_dumpbin_world
              = example_checks_before_exports
                ++ Fatal (running_command_failed
                            (dumpbin_cmd_line "/exports"
                               ["packages"; "zlib_x86-windows"; "debug"; "bin";
                                "zlibd1.dll"]))
                     []
                   :: skipn 13 (example_battery example_no_dumpbin_world))
    by reflexivity.
  assert (R : Forall2 returns example_checks_before_exports
                (results_of example_checks_before_exports)).
  { vm_compute. repeat (constructor; [reflexivity |]). constructor. }
  split; [exact B |]. split; [exact R |].
  unfold example_perform_all_checks.
  rewrite (failed_check_exit_ends_the_run
             pe_AMD64 pe_IA64 pe_I386 pe_ARM pe_ARMNT example_linkage_type_value_of
             example_no_dumpbin_world example_spec example_paths _ _ _ _ _ B R).
  reflexivity.
Defined.

Lemma dll_in_static_build_on_example :
  example_linkage_type_value_of
    (library_linkage
       (read_build_info example_static_world
          (build_info_file_path example_paths example_spec)))
  = STATIC /\
  unique_names (fs example_static_world) = true /\
  below (packages example_paths // dir example_spec) example_dll /\
  file_with_extension_at (fs example_static_world) ".dll" example_dll /\
  Forall2 returns (example_battery example_static_world)
    (results_of (example_battery example_static_world)) /\
  exists out,
    example_perform_all_checks example_static_world = Exited EXIT_FAILURE out
    /\ In (plain, "    packages/zlib_x86-windows/bin/zlib1.dll"%string) out.
Proof.
  assert (S : example_linkage_type_value_of
                (library_linkage
                   (read_build_info example_static_world
                      (build_info_file_path example_paths example_spec)))
              = STATIC) by reflexivity.
  assert (U : unique_names (fs example_static_world) = true) by reflexivity.
  assert (B : below (packages example_paths // dir example_spec) example_dll)
    by (exists ["bin"; "zlib1.dll"]; split; [discriminate | reflexivity]).
  assert (F : file_with_extension_at (fs example_static_world) ".dll" example_dll)
    by (split; [now exists 8192%N | reflexivity]).
  assert (R : Forall2 returns (example_battery example_static_world)
                (results_of (example_battery example_static_world))).
  { vm_compute. repeat (constructor; [reflexivity |]). constructor. }
  repeat (split; [assumption |]).
  exact (dll_in_static_build_is_rejected
           pe_AMD64 pe_IA64 pe_I386 pe_ARM pe_ARMNT example_linkage_type_value_of
           example_static_world example_spec example_paths _ example_dll
           S U B F R).
Defined.

(** ** The dumpbin checks on any list of DLLs *)

Lemma dumpbin_loop_fatal (w : world) (mode marker : string)
  (before after : list path) (dll : path) (acc : list path) :
  Forall (dump_succeeds w mode) before ->
  ~ dump_succeeds w mode dll ->
  for_each
    (fun dll acc =>
       let cmd_line := dumpbin_cmd_line mode dll in
       let ec_data := cmd_execute_and_capture_output w cmd_line in
       check_exit (Z.eqb (exit_code ec_data) 0) (running_command_failed cmd_line) ;;
       if is_npos (find (output ec_data) marker)
       then ret (acc ++ [dll]) else ret acc)
    (before ++ dll :: after) acc
  = Fatal (running_command_failed (dumpbin_cmd_line mode dll)) [].
Proof.
  cbv zeta. intros F N. revert acc.
  induction F as [| x before D F IH]; intros acc.
  - cbn [app]. rewrite for_each_cons. cbv beta.
    unfold dump_succeeds in N. apply Z.eqb_neq in N. rewrite N. reflexivity.
  - cbn [app]. rewrite for_each_cons. cbv beta. unfold dump_succeeds in D.
    rewrite D. cbn [Z.eqb check_exit bind ret].
    destruct (is_npos _); cbn [bind ret app]; now rewrite IH.
Qed.

(** X17: on any list of DLLs, [check_exports_of_dlls] runs dumpbin /exports
    on them in order.  When every run succeeds it reports exactly the DLLs
    whose dump lacks the export table header, in the order of the list, and
    passes silently when there is none.  The first run that fails ends the
    check with a fatal exit that names its command line, whatever the DLLs
    before it lacked. *)
Theorem check_exports_of_dlls_spec (w : world) (dlls : list path) :
  (Forall (dump_succeeds w "/exports") dlls ->
   check_exports_of_dlls w dlls
   = dll_report "The following DLLs have no exports:"
       "DLLs without any exports are likely a bug in the build script."
       (filter (dump_lacks w "/exports" "ordinal hint RVA      name") dlls)) /\
  (forall before dll after,
     dlls = before ++ dll :: after ->
     Forall (dump_succeeds w "/exports") before ->
     ~ dump_succeeds w "/exports" dll ->
     check_exports_of_dlls w dlls
     = Fatal (running_command_failed (dumpbin_cmd_line "/exports" dll)) []).
Proof.
  split.
  - intros E. unfold check_exports_of_dlls.
    pose proof (dumpbin_loop_returns w "/exports" "ordinal hint RVA      name"
                  dlls [] E) as L.
    cbv zeta in L. cbv zeta. rewrite L. cbn [bind app]. rewrite dll_report_eq.
    unfold dll_report. destruct (is_empty_vec _); reflexivity.
  - intros before dll after -> F N. unfold check_exports_of_dlls.
    pose proof (dumpbin_loop_fatal w "/exports" "ordinal hint RVA      name"
                  before after dll [] F N) as L.
    cbv zeta in L. cbv zeta. now rewrite L.
Qed.

(** X18: [check_uwp_bit_of_dlls] runs no dumpbin at all unless the system
    name is exactly [uwp]: for any other name it passes on any list, also
    when dumpbin cannot be run.  For [uwp] it reports exactly the DLLs whose
    /headers dump lacks "App Container" when every run succeeds, and the
    first run that fails ends the check with a fatal exit that names its
    command line. *)
Theorem check_uwp_bit_of_dlls_spec
  (w : world) (expected_system_name : string) (dlls : list path) :
  (expected_system_name <> "uwp"%string ->
   check_uwp_bit_of_dlls w expected_system_name dlls = Returned SUCCESS []) /\
  (expected_system_name = "uwp"%string ->
   (Forall (dump_succeeds w "/headers") dlls ->
    check_uwp_bit_of_dlls w expected_system_name dlls
    = dll_report "The following DLLs do not have the App Container bit set:"
        "This bit is required for Windows Store apps."
        (filter (dump_lacks w "/headers" "App Container") dlls)) /\
   (forall before dll after,
      dlls = before ++ dll :: after ->
      Forall (dump_succeeds w "/headers") before ->
      ~ dump_succeeds w "/headers" dll ->
      check_uwp_bit_of_dlls w expected_system_name dlls
      = Fatal (running_command_failed (dumpbin_cmd_line "/headers" dll)) [])).
Proof.
  split.
  - intros N. unfold check_uwp_bit_of_dlls. apply String.eqb_neq in N.
    now rewrite N.
  - intros ->. unfold check_uwp_bit_of_dlls.
    rewrite String.eqb_refl. cbn [negb]. split.
    + intros H.
      pose proof (dumpbin_loop_returns w "/headers" "App Container" dlls [] H)
        as L.
      cbv zeta in L. cbv zeta. rewrite L. cbn [bind app]. rewrite dll_report_eq.
      unfold dll_report. destruct (is_empty_vec _); reflexivity.
    + intros before dll after -> F N.
      pose proof (dumpbin_loop_fatal w "/headers" "App Container"
                    before after dll [] F N) as L.
      cbv zeta in L. cbv zeta. now rewrite L.
Qed.

(** ** The dumpbin checks in a dynamic run *)

Lemma dll_report_returns (first_line last_line : string) (dlls : list path) :
  returns (dll_report first_line last_line dlls)
    (dll_findings first_line last_line dlls).
Proof.
  unfold returns, dll_report, dll_findings.
  destruct (is_empty_vec dlls); reflexivity.
Qed.

Lemma In_dll_findings (first_line last_line : string) (dlls : list path)
  (dll : path) :
  In dll dlls ->
  exists o,
    dll_findings first_line last_line dlls = (ERROR_DETECTED, o)
    /\ In (plain, ("    " ++ generic_string dll)%string) o.
Proof.
  intros I. unfold dll_findings. destruct dlls as [| x l]; [destruct I |].
  eexists. split; [reflexivity |]. right. apply in_or_app. left.
  now apply In_printed_files.
Qed.

Lemma verdict_rejects (spec : package_spec) (paths : vcpkg_paths)
  (rs : list (lint_status * console)) (o : console) (x : color * string) :
  In (ERROR_DETECTED, o) rs -> In x o ->
  exists out,
    verdict spec paths rs = Exited EXIT_FAILURE out /\ In x out.
Proof.
  intros I X. unfold verdict.
  destruct (violations rs) as [| n] eqn:V; [now elim (In_violation rs o I) |].
  cbn [Nat.eqb]. eexists. split; [reflexivity |].
  right. apply in_or_app. left. now apply (In_concat_outputs rs _ _ I).
Qed.

Section DynamicRuns.

Variables AMD64 IA64 I386 ARM ARMNT : Z.
Variable linkage_type_value_of : string -> LinkageType.

Local Notation perform :=
  (perform_all_checks AMD64 IA64 I386 ARM ARMNT linkage_type_value_of).

(** C6, as the code has it: take a dynamic build in which the checks before
    the switch return and the dumpbin runs that are made succeed (/exports
    always, /headers when the system is [uwp]).  Then the run goes through
    both checks on the DLLs of [debug/bin] and [bin] and ends on the common
    results followed by those of the parity check, the export check, the App
    Container check, the architecture check and [check_no_empty_folders].
    The export check reports exactly the DLLs whose dump lacks the export
    table header, whatever the system of the triplet, and such a DLL makes
    the run exit with EXIT_FAILURE with its path printed.  The App Container
    check reports exactly the DLLs whose /headers dump lacks "App Container"
    when the system is [uwp], with the same effect on the run, and for any
    other system it passes without a dump and adds nothing to the run. *)
Theorem dll_checks_by_system
  (w : world) (spec : package_spec) (paths : vcpkg_paths)
  (rs : list (lint_status * console)) :
  linkage_type_value_of
    (library_linkage (read_build_info w (build_info_file_path paths spec)))
  = DYNAMIC ->
  Forall2 returns (common_checks AMD64 IA64 I386 ARM ARMNT w spec paths) rs ->
  Forall (dump_succeeds w "/exports") (dlls_of w spec paths) ->
  (system (target_triplet spec) = "uwp"%string ->
   Forall (dump_succeeds w "/headers") (dlls_of w spec paths)) ->
  (exists parity architecture empty_folders,
     perform w spec paths
     = verdict spec paths
         (rs ++ [ parity;
                  dll_findings "The following DLLs have no exports:"
                    "DLLs without any exports are likely a bug in the build script."
                    (filter (dump_lacks w "/exports" "ordinal hint RVA      name")
                       (dlls_of w spec paths));
                  (if String.eqb (system (target_triplet spec)) "uwp"
                   then dll_findings
                          "The following DLLs do not have the App Container bit set:"
                          "This bit is required for Windows Store apps."
                          (filter (dump_lacks w "/headers" "App Container")
                             (dlls_of w spec paths))
                   else (SUCCESS, []));
                  architecture;
                  empty_folders ])) /\
  (forall dll,
     In dll (dlls_of w spec paths) ->
     dump_lacks w "/exports" "ordinal hint RVA      name" dll = true ->
     exists out,
       perform w spec paths = Exited EXIT_FAILURE out
       /\ In (plain, ("    " ++ generic_string dll)%string) out) /\
  (system (target_triplet spec) = "uwp"%string ->
   forall dll,
     In dll (dlls_of w spec paths) ->
     dump_lacks w "/headers" "App Container" dll = true ->
     exists out,
       perform w spec paths = Exited EXIT_FAILURE out
       /\ In (plain, ("    " ++ generic_string dll)%string) out) /\
  check_exports_of_dlls w (dlls_of w spec paths)
  = dll_report "The following DLLs have no exports:"
      "DLLs without any exports are likely a bug in the build script."
      (filter (dump_lacks w "/exports" "ordinal hint RVA      name")
         (dlls_of w spec paths)) /\
  (system (target_triplet spec) = "uwp"%string ->
   check_uwp_bit_of_dlls w (system (target_triplet spec)) (dlls_of w spec paths)
   = dll_report "The following DLLs do not have the App Container bit set:"
       "This bit is required for Windows Store apps."
       (filter (dump_lacks w "/headers" "App Container") (dlls_of w spec paths))) /\
  (system (target_triplet spec) <> "uwp"%string ->
   check_uwp_bit_of_dlls w (system (target_triplet spec)) (dlls_of w spec paths)
   = Returned SUCCESS []).
Proof.
  intros D R E H.
  assert (X : check_exports_of_dlls w (dlls_of w spec paths)
              = dll_report "The following DLLs have no exports:"
                  "DLLs without any exports are likely a bug in the build script."
                  (filter (dump_lacks w "/exports" "ordinal hint RVA      name")
                     (dlls_of w spec paths))).
  { unfold check_exports_of_dlls.
    pose proof (dumpbin_loop_returns w "/exports" "ordinal hint RVA      name"
                  (dlls_of w spec paths) [] E) as L.
    cbv zeta in L. cbv zeta. rewrite L. cbn [bind app]. rewrite dll_report_eq.
    unfold dll_report. destruct (is_empty_vec _); reflexivity. }
  assert (U1 : system (target_triplet spec) = "uwp"%string ->
               check_uwp_bit_of_dlls w (system (target_triplet spec))
                 (dlls_of w spec paths)
               = dll_report
                   "The following DLLs do not have the App Container bit set:"
                   "This bit is required for Windows Store apps."
                   (filter (dump_lacks w "/headers" "App Container")
                      (dlls_of w spec paths))).
  { intros U. specialize (H U). unfold check_uwp_bit_of_dlls.
    rewrite U, String.eqb_refl. cbn [negb].
    pose proof (dumpbin_loop_returns w "/headers" "App Container"
                  (dlls_of w spec paths) [] H) as L.
    cbv zeta in L. cbv zeta. rewrite L. cbn [bind app]. rewrite dll_report_eq.
    unfold dll_report. destruct (is_empty_vec _); reflexivity. }
  assert (U0 : system (target_triplet spec) <> "uwp"%string ->
               check_uwp_bit_of_dlls w (system (target_triplet spec))
                 (dlls_of w spec paths)
               = Returned SUCCESS []).
  { intros U. unfold check_uwp_bit_of_dlls.
    apply String.eqb_neq in U. now rewrite U. }
  assert (P : exists r,
             returns (check_matching_debug_and_release_binaries
                        (debug_dlls_of w spec paths) (release_dlls_of w spec paths))
                     r).
  { rewrite check_matching_debug_and_release_binaries_eq.
    destruct (Nat.eqb _ _); eapply returns_intro; reflexivity. }
  assert (A : exists r,
             returns (check_dll_architecture AMD64 IA64 I386 ARM ARMNT w
                        (architecture (target_triplet spec)) (dlls_of w spec paths))
                     r).
  { assert (F : Forall (fun f => extension f = ".dll"%string)
                  (dlls_of w spec paths)).
    { apply Forall_forall. intros f I. unfold dlls_of in I.
      apply in_app_iff in I as [I | I]; now apply found_files_have_extension in I. }
    unfold check_dll_architecture.
    pose proof (check_dll_architecture_loop AMD64 IA64 I386 ARM ARMNT
                  w (architecture (target_triplet spec)) _ [] F) as L.
    cbv zeta in L. cbv zeta. rewrite L. cbn [bind app].
    rewrite architecture_verdict_eq. unfold architecture_verdict.
    destruct (is_empty_vec _); eapply returns_intro; reflexivity. }
  destruct P as [parity P], A as [arch A].
  destruct (check_no_empty_folders_returns w (packages paths // dir spec))
    as [last L].
  assert (V : perform w spec paths
              = verdict spec paths
                  (rs ++ [ parity;
                           dll_findings "The following DLLs have no exports:"
                             "DLLs without any exports are likely a bug in the build script."
                             (filter (dump_lacks w "/exports"
                                        "ordinal hint RVA      name")
                                (dlls_of w spec paths));
                           (if String.eqb (system (target_triplet spec)) "uwp"
                            then dll_findings
                                   "The following DLLs do not have the App Container bit set:"
                                   "This bit is required for Windows Store apps."
                                   (filter (dump_lacks w "/headers" "App Container")
                                      (dlls_of w spec paths))
                            else (SUCCESS, []));
                           arch;
                           last ])).
  { apply perform_all_checks_verdict. unfold battery, linkage_checks.
    rewrite D. apply Forall2_returns_app; [exact R |].
    fold (dlls_of w spec paths).
    constructor; [exact P |].
    constructor; [rewrite X; apply dll_report_returns |].
    constructor.
    { destruct (String.eqb (system (target_triplet spec)) "uwp") eqn:Q.
      - apply String.eqb_eq in Q. rewrite (U1 Q). apply dll_report_returns.
      - apply String.eqb_neq in Q. rewrite (U0 Q). reflexivity. }
    constructor; [exact A |].
    constructor; [exact L | constructor]. }
  split; [now exists parity, arch, last |].
  split; [| split; [| split; [exact X | split; [exact U1 | exact U0]]]].
  - intros dll I K. rewrite V.
    destruct (In_dll_findings "The following DLLs have no exports:"
                "DLLs without any exports are likely a bug in the build script."
                (filter (dump_lacks w "/exports" "ordinal hint RVA      name")
                   (dlls_of w spec paths)) dll) as (o & Eo & Io);
      [apply filter_In; now split |].
    apply (verdict_rejects spec paths _ o); [| exact Io].
    apply in_or_app. right. right. left. exact Eo.
  - intros U dll I K. rewrite V.
    destruct (In_dll_findings
                "The following DLLs do not have the App Container bit set:"
                "This bit is required for Windows Store apps."
                (filter (dump_lacks w "/headers" "App Container")
                   (dlls_of w spec paths)) dll) as (o & Eo & Io);
      [apply filter_In; now split |].
    apply (verdict_rejects spec paths _ o); [| exact Io].
    apply in_or_app. right. right. right. left.
    rewrite U, String.eqb_refl. exact Eo.
Qed.

End DynamicRuns.

Lemma dll_checks_on_windows_example :
  example_linkage_type_value_of
    (library_linkage
       (read_build_info example_dynamic_world
          (build_info_file_path example_paths example_spec)))
  = DYNAMIC /\
  Forall2 returns
    (common_checks pe_AMD64 pe_IA64 pe_I386 pe_ARM pe_ARMNT
       example_dynamic_world example_spec example_paths)
    (results_of
       (common_checks pe_AMD64 pe_IA64 pe_I386 pe_ARM pe_ARMNT
          example_dynamic_world example_spec example_paths)) /\
  Forall (dump_succeeds example_dynamic_world "/exports")
    (dlls_of example_dynamic_world example_spec example_paths) /\
  (system (target_triplet example_spec) = "uwp"%string ->
   Forall (dump_succeeds example_dynamic_world "/headers")
     (dlls_of example_dynamic_world example_spec example_paths)) /\
  check_exports_of_dlls example_dynamic_world
    (dlls_of example_dynamic_world example_spec example_paths)
  = Returned SUCCESS [] /\
  check_uwp_bit_of_dlls example_dynamic_world "windows"
    (dlls_of example_dynamic_world example_spec example_paths)
  = Returned SUCCESS [] /\
  exists parity architecture empty_folders,
    example_perform_all_checks example_dynamic_world
    = verdict example_spec example_paths
        (results_of
           (common_checks pe_AMD64 pe_IA64 pe_I386 pe_ARM pe_ARMNT
              example_dynamic_world example_spec example_paths)
         ++ [parity; (SUCCESS, []); (SUCCESS, []); architecture; empty_folders]).
Proof.
  assert (D : example_linkage_type_value_of
                (library_linkage
                   (read_build_info example_dynamic_world
                      (build_info_file_path example_paths example_spec)))
              = DYNAMIC) by reflexivity.
  assert (R : Forall2 returns
                (common_checks pe_AMD64 pe_IA64 pe_I386 pe_ARM pe_ARMNT
                   example_dynamic_world example_spec example_paths)
                (results_of
                   (common_checks pe_AMD64 pe_IA64 pe_I386 pe_ARM pe_ARMNT
                      example_dynamic_world example_spec example_paths))).
  { vm_compute. repeat (constructor; [reflexivity |]). constructor. }
  assert (E : Forall (dump_succeeds example_dynamic_world "/exports")
                (dlls_of example_dynamic_world example_spec example_paths)).
  { vm_compute. repeat (constructor; [reflexivity |]). constructor. }
  assert (H : system (target_triplet example_spec) = "uwp"%string ->
              Forall (dump_succeeds example_dynamic_world "/headers")
                (dlls_of example_dynamic_world example_spec example_paths))
    by (intros U; discriminate U).
  split; [exact D |]. split; [exact R |]. split; [exact E |]. split; [exact H |].
  destruct (dll_checks_by_system
              pe_AMD64 pe_IA64 pe_I386 pe_ARM pe_ARMNT example_linkage_type_value_of
              example_dynamic_world example_spec example_paths _ D R E H)
    as ((parity & arch & last & V) & _ & _ & X & _ & W).
  split; [exact X |]. split; [apply W; discriminate |].
  exists parity, arch, last. exact V.
Defined.
